(** * Shopify migration tool: the upload pipeline of [scripts/load.py]

    A shallow embedding of the functions of [scripts/load.py] that make up
    the upload pipeline (phone normalizer, order sanitizer, progress store,
    rate limiter, upload client, batch orchestrator), and the properties
    the specification states about them.

    Conventions.
    - A Python [str] is a [string]: a sequence of code points below 256
      (response headers are decoded as Latin-1 by the HTTP library).
    - JSON numbers are integers ([Z]); floats are not modelled.
    - Durations and the clock are in milliseconds ([0.1] s is [100]).
    - Every [print] is an event of the output trace, one constructor per
      report; message texts are not modelled, and the lines of one report
      (an error report with its debugging detail) are one event.
    - The file system works: opening and writing the progress file do not
      fail. *)

From Stdlib Require Import ZArith Ascii String.
From stdpp Require Import gmap strings list pretty.

Local Open Scope string_scope.
Local Open Scope Z_scope.

(** ** Python values *)

(** What [json.load] produces: [None], [bool], [int], [str], [list], and
    [dict] (as an association list, in file order). The records that the
    functions work on are [dict]s of their own, below; [JObj] is for the
    objects nested in them. *)
#[warnings="-register-all"]
Inductive json : Type :=
| JNull
| JBool (b : bool)
| JInt (z : Z)
| JStr (s : string)
| JArr (items : list json)
| JObj (fields : list (string * json)).

(** Truth value testing ([if v:], [not v]). *)
Definition py_truthy (v : json) : bool :=
  match v with
  | JNull => false
  | JBool b => b
  | JInt z => negb (z =? 0)
  | JStr s => negb (String.eqb s "")
  | JArr items => match items with [] => false | _ => true end
  | JObj fields => match fields with [] => false | _ => true end
  end.

(** [a == b]. [bool] is a subtype of [int], so [True == 1]; lists compare
    element by element. Objects are compared field by field in the stored
    order (Python disregards the order of the keys; the two differ only
    on objects used as order identifiers, which the pipeline never has). *)
Fixpoint py_eq (a b : json) {struct a} : bool :=
  match a, b with
  | JNull, JNull => true
  | JBool x, JBool y => Bool.eqb x y
  | JBool x, JInt y => Z.b2z x =? y
  | JInt x, JBool y => x =? Z.b2z y
  | JInt x, JInt y => x =? y
  | JStr x, JStr y => String.eqb x y
  | JArr xs, JArr ys =>
      (fix go (xs ys : list json) : bool :=
         match xs, ys with
         | [], [] => true
         | x :: xs', y :: ys' => py_eq x y && go xs' ys'
         | _, _ => false
         end) xs ys
  | JObj m, JObj n =>
      (fix go (m n : list (string * json)) : bool :=
         match m, n with
         | [], [] => true
         | (k, x) :: m', (k', y) :: n' =>
             String.eqb k k' && py_eq x y && go m' n'
         | _, _ => false
         end) m n
  | _, _ => false
  end.

(** [x in l] for a list [l]. *)
Definition py_in (x : json) (l : list json) : bool :=
  existsb (py_eq x) l.

(** A record of the export (an order, a customer): a Python [dict] with
    string keys. *)
Abbreviation dict := (gmap string json).

(** [d.get(k)]: [None] when the key is missing. *)
Definition py_get (d : dict) (k : string) : json :=
  default JNull (d !! k).

(** [d.get(k, dflt)]. *)
Definition py_get_default (d : dict) (k : string) (dflt : json) : json :=
  default dflt (d !! k).

(** ** Exceptions *)

Inductive exn : Type :=
| TypeError
| ValueError
| ZeroDivisionError
| OverflowError
| KeyError
| AttributeError
| HTTPError (status : Z)      (* requests.exceptions.HTTPError *)
| ConnectionError             (* requests.exceptions.ConnectionError *)
| Timeout                     (* requests.exceptions.Timeout *)
| InvalidJSONError.           (* requests.exceptions.JSONDecodeError *)

(** [isinstance(e, requests.exceptions.RequestException)]. *)
Definition is_RequestException (e : exn) : bool :=
  match e with
  | HTTPError _ | ConnectionError | Timeout | InvalidJSONError => true
  | TypeError | ValueError | ZeroDivisionError | OverflowError | KeyError
  | AttributeError => false
  end.

(** The outcome of evaluating an expression or running a call. *)
Inductive result (A : Type) : Type :=
| Ret (a : A)
| Raise (e : exn).
Arguments Ret {A} a.
Arguments Raise {A} e.

(** [v <= n] for an integer literal [n]: defined on [int] and [bool],
    [TypeError] on [None], a [str], a [list] and a [dict]. (A [float],
    which [json] leaves out, compares without an error.) *)
Definition py_le_int (v : json) (n : Z) : result bool :=
  match v with
  | JInt z => Ret (z <=? n)
  | JBool b => Ret (Z.b2z b <=? n)
  | JNull | JStr _ | JArr _ | JObj _ => Raise TypeError
  end.

(** ** Characters and strings *)

Definition is_digit (c : ascii) : bool :=
  let n := N_of_ascii c in ((48 <=? n) && (n <=? 57))%N.

Definition digit_value (c : ascii) : Z :=
  Z.of_N (N_of_ascii c) - 48.

(** [re.sub(r'[^\d]', '', s)]: below code point 256 the decimal digits are
    ['0'] .. ['9']. *)
Fixpoint re_sub_non_digits (s : string) : string :=
  match s with
  | EmptyString => EmptyString
  | String c s' =>
      if is_digit c then String c (re_sub_non_digits s')
      else re_sub_non_digits s'
  end.

(** [s.startswith(c)] for a one-character prefix. *)
Definition startswith (c : ascii) (s : string) : bool :=
  match s with
  | String c' _ => bool_decide (c' = c)
  | EmptyString => false
  end.

(** ** Phone normalizer *)

Section Phone.

(** [str(v)] of a non-empty list or dict is the builtin [repr]; it is
    taken as given. *)
Variable py_repr : json -> string.

(** [str(v)]. *)
Definition py_str (v : json) : string :=
  match v with
  | JNull => "None"
  | JBool true => "True"
  | JBool false => "False"
  | JInt z => pretty z
  | JStr s => s
  | JArr [] => "[]"
  | JObj [] => "{}"
  | _ => py_repr v
  end.

(** [format_phone_e164(phone)]; [None] is Python's [None]. *)
Definition format_phone_e164 (phone : json) : option string :=
  if negb (py_truthy phone) then None
  else
    let digits_only := re_sub_non_digits (py_str phone) in
    if (String.length digits_only =? 10)%nat then
      Some ("+1" +:+ digits_only)
    else if (String.length digits_only =? 11)%nat
            && startswith "1" digits_only then
      Some ("+" +:+ digits_only)
    else if (10 <=? String.length digits_only)%nat then
      Some ("+" +:+ digits_only)
    else None.

End Phone.

(** ** The process and its environment *)

(** The content of [data/upload_progress.json] as [load_completed_orders]
    sees it: no file; a file that [json.load] or [data.get] rejects; or an
    object, with its [completed_orders] list (when it has the key) and its
    [last_updated] stamp. An object whose [completed_orders] is not a list
    is not modelled: the program never writes one. *)
Inductive progress_file : Type :=
| NoFile
| Unreadable
| Progress (completed_orders : option (list json)) (last_updated : Z).

(** The part of an HTTP response that the client reads: the status, the
    two headers it looks up (absent: [None]), and [json_body], which is
    what [response.json()] does: the parsed body, or the exception it
    raises on a body that is not JSON. *)
Record headers : Type := {
  retry_after : option string;    (* Retry-After *)
  call_limit : option string      (* X-Shopify-Shop-Api-Call-Limit *)
}.

Record response : Type := {
  status_code : Z;
  response_headers : headers;
  json_body : result json
}.

(** What [requests.post] does: a response, or an exception. *)
Inductive http_outcome : Type :=
| Responded (r : response)
| Failed (e : exn).

(** The store at the other end: the outcome of the n-th POST of the run. *)
Definition server : Type := nat -> http_outcome.

Inductive message : Type :=
(* fix_order_data_for_shopify *)
| MsgSkipVoided (id : json)
| MsgDebugOrder (id status processed created : json)
| MsgSetProcessedAt (v : json)
| MsgFixedNullProcessedAt (v : json)
| MsgRemovedProcessedAt
| MsgMissingEmail (id : json)
(* check_rate_limit_and_wait *)
| MsgRateHigh (current max_limit : Z)
| MsgRateModerate (current max_limit : Z)
(* upload_to_shopify *)
| MsgDebugPayload (id processed status created : json)
| MsgRateLimited (retry_after : Z)
| MsgApiError (status : Z)
| MsgAttemptFailed (cycle attempt : Z) (e : exn)
| MsgBackoff (seconds : Z)
| MsgNewCycle (max_retries : Z)
| MsgExhausted (id : json)
(* batch_upload *)
| MsgFoundCompleted (n : nat)
| MsgStarting (endpoint : string) (total : nat)
| MsgSkipCompleted (id : json)
| MsgProcessing (endpoint : string) (k : Z) (total : nat)
| MsgSkipCustomer
| MsgProgressSaved (id : json)
| MsgProgress (successes : Z) (total : nat)
| MsgFailed (id : json) (e : exn)
| MsgUploaded (successes : Z) (total : nat).

Inductive event : Type :=
| Print (m : message)
| Sleep (ms : Z)
| Post (endpoint : string) (item : dict) (cycle attempt : Z).

Abbreviation loc := positive.

(** The state a call runs in. [heap] holds the [dict] objects that are
    passed by reference; a reference that was never allocated reads as
    the empty [dict]. [clock] is [time.time()]; only sleeping advances
    it. [trace] lists the events so far, oldest first. *)
Record world : Type := {
  heap : gmap loc dict;
  file : progress_file;
  clock : Z;
  posts : nat;
  trace : list event
}.

(** A call: from the state before to its outcome and the state after.
    An exception keeps the effects made before it was raised. *)
Definition M (A : Type) : Type := world -> result A * world.

Definition ret {A} (a : A) : M A := fun w => (Ret a, w).

Definition raise {A} (e : exn) : M A := fun w => (Raise e, w).

Definition bind {A B} (m : M A) (k : A -> M B) : M B :=
  fun w =>
    match m w with
    | (Ret a, w') => k a w'
    | (Raise e, w') => (Raise e, w')
    end.

#[global] Instance M_ret : MRet M := @ret.
#[global] Instance M_bind : MBind M := fun A B k m => bind m k.

(** Lift the outcome of an expression. *)
Definition eval {A} (r : result A) : M A := fun w => (r, w).

Definition when (c : bool) (m : M unit) : M unit :=
  if c then m else ret tt.

Definition emit (e : event) : M unit :=
  fun w =>
    (Ret tt,
     {| heap := heap w; file := file w; clock := clock w;
        posts := posts w; trace := trace w ++ [e] |}).

Definition print (m : message) : M unit := emit (Print m).

(** [d.get(k)], [d.get(k, dflt)], [d[k]], [k in d], [d[k] = v] and
    [del d[k]] on the object at [r]. *)
Definition dict_get (r : loc) (k : string) : M json :=
  fun w => (Ret (py_get (heap w !!! r) k), w).

Definition dict_get_default (r : loc) (k : string) (dflt : json) : M json :=
  fun w => (Ret (py_get_default (heap w !!! r) k dflt), w).

Definition dict_item (r : loc) (k : string) : M json :=
  fun w =>
    match (heap w !!! r) !! k with
    | Some v => (Ret v, w)
    | None => (Raise KeyError, w)
    end.

Definition dict_contains (r : loc) (k : string) : M bool :=
  fun w => (Ret (bool_decide (is_Some ((heap w !!! r) !! k))), w).

Definition set_heap (h : gmap loc dict) (w : world) : world :=
  {| heap := h; file := file w; clock := clock w;
     posts := posts w; trace := trace w |}.

Definition dict_set (r : loc) (k : string) (v : json) : M unit :=
  fun w => (Ret tt, set_heap (<[r := <[k := v]> (heap w !!! r)]> (heap w)) w).

Definition dict_del (r : loc) (k : string) : M unit :=
  fun w => (Ret tt, set_heap (<[r := delete k (heap w !!! r)]> (heap w)) w).

(** ** Order sanitizer *)

(** [order.get('woo_order_id', 0) <= 5], the guard of the debug prints. *)
Definition debug_order (order : loc) : M bool :=
  id ← dict_get_default order "woo_order_id" (JInt 0);
  eval (py_le_int id 5).

(** [fix_order_data_for_shopify(order)]. [order] is a reference: the
    function works on the caller's object. It returns [None] or [order]
    itself. *)
Definition fix_order_data_for_shopify (order : loc) : M (option loc) :=
  status ← dict_get order "financial_status";
  if py_eq status (JStr "voided") then
    id ← dict_get order "woo_order_id";
    print (MsgSkipVoided id);;
    ret None
  else
    dbg ← debug_order order;
    when dbg (
      id ← dict_get order "woo_order_id";
      status ← dict_get order "financial_status";
      processed ← dict_get order "processed_at";
      created ← dict_get order "created_at";
      print (MsgDebugOrder id status processed created));;
    status ← dict_get order "financial_status";
    ((if py_eq status (JStr "paid") then
       processed ← dict_get order "processed_at";
       if negb (py_truthy processed) then
         created ← dict_get order "created_at";
         dict_set order "processed_at" created;;
         dbg ← debug_order order;
         when dbg (
           v ← dict_item order "processed_at";
           print (MsgSetProcessedAt v))
       else
         processed ← dict_get order "processed_at";
         if py_truthy processed then
           current ← dict_item order "processed_at";
           if py_in current [JNull; JStr ""; JStr "null"] then
             created ← dict_get order "created_at";
             dict_set order "processed_at" created;;
             dbg ← debug_order order;
             when dbg (
               v ← dict_item order "processed_at";
               print (MsgFixedNullProcessedAt v))
           else ret tt
         else ret tt
     else
       present ← dict_contains order "processed_at";
       if (present : bool) then
         dict_del order "processed_at";;
         dbg ← debug_order order;
         when dbg (print MsgRemovedProcessedAt)
       else ret tt) : M unit);;
    email ← dict_get order "email";
    if negb (py_truthy email) then
      id ← dict_get order "woo_order_id";
      print (MsgMissingEmail id);;
      ret None
    else ret (Some order).

(** ** Control flow *)

(** [try: body except ...: handler]. [handler e] is [None] when no
    [except] clause matches [e]. *)
Definition try_except {A} (body : M A) (handler : exn -> option (M A)) : M A :=
  fun w =>
    match body w with
    | (Ret a, w') => (Ret a, w')
    | (Raise e, w') =>
        match handler e with
        | Some h => h w'
        | None => (Raise e, w')
        end
    end.

(** How one pass through a loop body ends: it reaches its end or executes
    [continue]; it executes [break]; or it executes [return a]. *)
Inductive flow (A : Type) : Type :=
| Next
| Break
| Return (a : A).
Arguments Next {A}.
Arguments Break {A}.
Arguments Return {A} a.

(** [for i in l: body], inside a function: [Some a] when the body
    returned [a], [None] when the loop ended (exhausted or left by
    [break]). *)
Fixpoint for_each {I A} (l : list I) (body : I -> M (flow A)) : M (option A) :=
  match l with
  | [] => ret None
  | i :: l' =>
      f ← body i;
      match f with
      | Next => for_each l' body
      | Break => ret None
      | Return a => ret (Some a)
      end
  end.

(** [for i in l: acc = body(acc, i)]: a loop that updates a local
    variable and has no [break] or [return]. *)
Fixpoint for_fold {I S} (l : list I) (body : S -> I -> M S) (acc : S) : M S :=
  match l with
  | [] => ret acc
  | i :: l' => acc' ← body acc i; for_fold l' body acc'
  end.

(** [range(n)]. *)
Definition py_range (n : Z) : list Z :=
  map Z.of_nat (seq 0 (Z.to_nat n)).

(** [range(0, stop, step)]: [ValueError] for a zero step. *)
Definition py_range_step (stop step : Z) : result (list Z) :=
  if step =? 0 then Raise ValueError
  else if step <? 0 then Ret []
  else Ret (map (fun k => Z.of_nat k * step)
                (seq 0 (Z.to_nat ((stop + step - 1) / step)))).

(** [l[i:j]] for [0 <= i <= j]. *)
Definition py_slice {A} (l : list A) (i j : Z) : list A :=
  take (Z.to_nat (j - i)) (drop (Z.to_nat i) l).

(** [time.sleep(seconds)], in milliseconds; a negative length is a
    [ValueError]. *)
Definition sleep (ms : Z) : M unit :=
  fun w =>
    if ms <? 0 then (Raise ValueError, w)
    else
      (Ret tt,
       {| heap := heap w; file := file w; clock := clock w + ms;
          posts := posts w; trace := trace w ++ [Sleep ms] |}).

(** ** Progress store *)

(** [load_completed_orders()]. *)
Definition load_completed_orders : M (list json) :=
  fun w =>
    match file w with
    | NoFile => (Ret [], w)
    | Unreadable => (Ret [], w)
    | Progress completed_orders _ => (Ret (default [] completed_orders), w)
    end.

(** [json.dump({'completed_orders': ..., 'last_updated': time.time()}, f)]
    on the progress file opened for writing. *)
Definition dump_progress (completed_orders : list json) : M unit :=
  fun w =>
    (Ret tt,
     {| heap := heap w; file := Progress (Some completed_orders) (clock w);
        clock := clock w; posts := posts w; trace := trace w |}).

(** [save_completed_order(woo_order_id)]. *)
Definition save_completed_order (woo_order_id : json) : M unit :=
  completed_orders ← load_completed_orders;
  if negb (py_in woo_order_id completed_orders) then
    dump_progress (completed_orders ++ [woo_order_id])
  else ret tt.

(** ** Rate limiter *)

(** [s.split(sep)] for a one-character separator. *)
Fixpoint py_split (sep : ascii) (s : string) : list string :=
  match s with
  | EmptyString => [EmptyString]
  | String c s' =>
      if bool_decide (c = sep) then EmptyString :: py_split sep s'
      else
        match py_split sep s' with
        | part :: parts => String c part :: parts
        | [] => [String c EmptyString]
        end
  end.

(** White space that [int] skips at both ends of its argument: the ASCII
    blanks, and NEL and NBSP above them. *)
Definition is_space (c : ascii) : bool :=
  let n := N_of_ascii c in
  (((9 <=? n) && (n <=? 13)) || (n =? 32) || (n =? 133) || (n =? 160))%N.

Fixpoint lstrip (l : list ascii) : list ascii :=
  match l with
  | c :: l' => if is_space c then lstrip l' else l
  | [] => []
  end.

Definition strip (l : list ascii) : list ascii :=
  rev (lstrip (rev (lstrip l))).

(** The digits of an integer literal: decimal digits, single underscores
    allowed between two digits. [after_digit] tells whether the previous
    character was a digit. *)
Fixpoint int_digits (acc : Z) (after_digit : bool) (l : list ascii) : option Z :=
  match l with
  | [] => if after_digit then Some acc else None
  | c :: l' =>
      if is_digit c then int_digits (10 * acc + digit_value c) true l'
      else if bool_decide (c = "_"%char) && after_digit then
        int_digits acc false l'
      else None
  end.

(** [int(s)] for a [str]: [ValueError] unless [s] is an optionally signed
    decimal literal, possibly surrounded by white space. The interpreter's
    adjustable limit on the number of digits is not modelled. *)
Definition py_int (s : string) : result Z :=
  let literal :=
    match strip (list_ascii_of_string s) with
    | "-"%char :: l => Z.opp <$> int_digits 0 false l
    | "+"%char :: l => int_digits 0 false l
    | l => int_digits 0 false l
    end in
  match literal with
  | Some z => Ret z
  | None => Raise ValueError
  end.

(** [current, max_limit = map(int, parts)]: unpacking raises [ValueError]
    unless there are exactly two parts, and [int] does on a part that is
    not an integer literal. *)
Definition unpack_limit (parts : list string) : result (Z * Z) :=
  match parts with
  | [a; b] =>
      match py_int a, py_int b with
      | Ret current, Ret max_limit => Ret (current, max_limit)
      | _, _ => Raise ValueError
      end
  | _ => Raise ValueError
  end.

(** [a / b] on two [int]s, as far as it can raise: the quotient is a
    float, so besides a zero divisor a quotient that rounds to [2^1024] or
    more is an error. *)
Definition true_div_check (a b : Z) : result unit :=
  if b =? 0 then Raise ZeroDivisionError
  else if (2 ^ 1024 - 2 ^ 970) * Z.abs b <=? Z.abs a then Raise OverflowError
  else Ret tt.

(** [check_rate_limit_and_wait(response_headers)]. *)
Definition check_rate_limit_and_wait (response_headers : headers) : M (Z * Z) :=
  let rate_limit_header := default "0/40" (call_limit response_headers) in
  try_except
    ('(current, max_limit) ← eval (unpack_limit (py_split "/" rate_limit_header));
     eval (true_div_check current max_limit);;
     wait_time ←
       (if 35 <=? current then
          print (MsgRateHigh current max_limit);; ret 2000
        else if 30 <=? current then
          print (MsgRateModerate current max_limit);; ret 1000
        else if 20 <=? current then ret 500
        else ret 100);
     sleep wait_time;;
     ret (current, max_limit))
    (fun e =>
       match e with
       | ValueError | AttributeError => Some (sleep 500;; ret (0, 40))
       | _ => None
       end).

(** ** Upload client *)

(** [requests.post(url, json={endpoint[:-1]: data}, ...)]: the next answer
    of the server. [cycle] and [attempt] are the loop indices at the call;
    they are recorded in the trace only. *)
Definition post (srv : server) (endpoint : string) (data : dict)
    (cycle attempt : Z) : M response :=
  fun w =>
    let w' :=
      {| heap := heap w; file := file w; clock := clock w;
         posts := S (posts w);
         trace := trace w ++ [Post endpoint data cycle attempt] |} in
    match srv (posts w) with
    | Responded r => (Ret r, w')
    | Failed e => (Raise e, w')
    end.

(** [response.raise_for_status()]: [HTTPError] for a 4xx or 5xx status. *)
Definition raise_for_status (r : response) : M unit :=
  if (400 <=? status_code r) && (status_code r <? 600) then
    raise (HTTPError (status_code r))
  else ret tt.

(** [int(response.headers.get('Retry-After', 5))]. *)
Definition retry_after_seconds (r : response) : result Z :=
  match retry_after (response_headers r) with
  | Some s => py_int s
  | None => Ret 5
  end.

Section UploadClient.

Variable srv : server.
Variables (endpoint : string) (data : dict).
Variables (max_retries max_retry_cycles : Z).

(** The body of the inner loop: one pass for the indices [cycle] and
    [attempt]. *)
Definition attempt_body (cycle attempt : Z) : M (flow json) :=
  try_except
    (response ← post srv endpoint data cycle attempt;
     if status_code response =? 429 then
       retry_after ← eval (retry_after_seconds response);
       print (MsgRateLimited retry_after);;
       sleep (retry_after * 1000);;
       ret Next
     else
       when (status_code response =? 200)
         (check_rate_limit_and_wait (response_headers response);; ret tt);;
       when (400 <=? status_code response)
         (print (MsgApiError (status_code response));;
          raise_for_status response);;
       body ← eval (json_body response);
       ret (Return body))
    (fun e =>
       if is_RequestException e then
         Some
           (print (MsgAttemptFailed (cycle + 1) (attempt + 1) e);;
            if attempt <? max_retries - 1 then
              let wait_time := 2 ^ attempt in
              print (MsgBackoff wait_time);;
              sleep (wait_time * 1000);;
              ret Next
            else if cycle <? max_retry_cycles - 1 then
              print (MsgNewCycle max_retries);;
              sleep 10000;;
              ret Break
            else
              print (MsgExhausted (py_get_default data "id" (JStr "unknown")));;
              raise e)
       else None).

(** The body of the outer loop: the inner loop of one cycle. *)
Definition cycle_body (cycle : Z) : M (flow json) :=
  r ← for_each (py_range max_retries) (attempt_body cycle);
  match r with
  | Some body => ret (Return body)
  | None => ret Next
  end.

(** [upload_to_shopify(endpoint, data, max_retries, max_retry_cycles)]:
    [Some body] is the value of [return response.json()]; [None] is the
    end of the function's text, reached when the outer loop ends, where
    Python returns [None]. *)
Definition upload_to_shopify : M (option json) :=
  dbg ← eval (py_le_int (py_get_default data "woo_order_id" (JInt 0)) 3);
  when dbg
    (print (MsgDebugPayload (py_get data "woo_order_id")
              (py_get data "processed_at")
              (py_get data "financial_status")
              (py_get data "created_at")));;
  for_each (py_range max_retry_cycles) cycle_body.

End UploadClient.

(** ** Batch orchestrator *)

Section BatchOrchestrator.

Variable srv : server.
Variable endpoint : string.

(** The body of the loop over the items of a batch; [successes] is the
    local counter, and the value is the counter after the pass. *)
Definition process_item (completed_orders : list json) (total_items : nat)
    (successes : Z) (item : dict) : M Z :=
  try_except
    (if String.eqb endpoint "orders"
        && py_in (py_get item "woo_order_id") completed_orders then
       print (MsgSkipCompleted (py_get item "woo_order_id"));;
       ret (successes + 1)
     else
       print (MsgProcessing endpoint (successes + 1) total_items);;
       if String.eqb endpoint "customers"
          && negb (py_truthy (py_get item "email")) then
         print MsgSkipCustomer;;
         ret successes
       else
         result ← upload_to_shopify srv endpoint item 3 5;
         when (String.eqb endpoint "orders"
               && py_truthy (py_get item "woo_order_id"))
           (save_completed_order (py_get item "woo_order_id");;
            print (MsgProgressSaved (py_get item "woo_order_id")));;
         let successes := successes + 1 in
         when ((0 <? successes) && (successes mod 100 =? 0))
           (print (MsgProgress successes total_items));;
         ret successes)
    (fun e =>
       Some
         (print (MsgFailed (py_get_default item "id" (JStr "unknown")) e);;
          ret successes)).

(** [batch_upload(endpoint, items, batch_size, resume_mode)]. *)
Definition batch_upload (items : list dict) (batch_size : Z)
    (resume_mode : bool) : M Z :=
  let total_items := length items in
  completed_orders ←
    (if String.eqb endpoint "orders" && resume_mode then
       completed_orders ← load_completed_orders;
       print (MsgFoundCompleted (length completed_orders));;
       ret completed_orders
     else ret []);
  print (MsgStarting endpoint total_items);;
  starts ← eval (py_range_step (Z.of_nat total_items) batch_size);
  successes ←
    for_fold starts
      (fun successes i =>
         let batch := py_slice items i (i + batch_size) in
         for_fold batch (process_item completed_orders total_items)
           successes)
      0;
  print (MsgUploaded successes total_items);;
  ret successes.

End BatchOrchestrator.

(** ** Around the pipeline: the export, test data, and the two uploads

    The functions that read the export and start an upload. What they
    take from outside the process is an argument: the two candidate
    export files, and the line that the user types at the prompt. Of these
    functions the trace records what the pipeline functions that they call
    do; the reports that they print themselves are left out. An
    expression that is evaluated only to be printed is still evaluated
    when it can raise. *)

(** [clear_progress()]: the progress file is removed when it is there. *)
Definition clear_progress : M unit :=
  fun w =>
    match file w with
    | NoFile => (Ret tt, w)
    | _ =>
        (Ret tt,
         {| heap := heap w; file := NoFile; clock := clock w;
            posts := posts w; trace := trace w |})
    end.

(** A new object with the content [d], at a reference that the heap does
    not hold. *)
Definition alloc (d : dict) : M loc :=
  fun w =>
    let r := fresh (dom (heap w)) in
    (Ret r, set_heap (<[r := d]> (heap w)) w).

(** [copy.deepcopy(order)]. The values in a [dict] are values of [json],
    which nothing shares, so the copy of the [dict] is a deep copy. *)
Definition deepcopy (order : loc) : M loc :=
  fun w => alloc (heap w !!! order) w.

(** [bool(order)] for a [dict]. *)
Definition dict_truthy (r : loc) : M bool :=
  fun w => (Ret (negb (bool_decide (heap w !!! r = ∅))), w).

(** The objects nested in a record: [fields.get(k)] and [fields[k] = v]
    on the association list. The keys of an object are distinct, as
    [json.load] leaves them. *)
Fixpoint obj_get (fields : list (string * json)) (k : string) : option json :=
  match fields with
  | [] => None
  | (k', v) :: fields' => if String.eqb k' k then Some v else obj_get fields' k
  end.

Fixpoint obj_set (fields : list (string * json)) (k : string) (v : json)
    : list (string * json) :=
  match fields with
  | [] => [(k, v)]
  | (k', v') :: fields' =>
      if String.eqb k' k then (k, v) :: fields'
      else (k', v') :: obj_set fields' k v
  end.

(** [order[k][field] = v]: [KeyError] without [k], [TypeError] when
    [order[k]] is not an object. *)
Definition dict_set_in (r : loc) (k field : string) (v : json) : M unit :=
  obj ← dict_item r k;
  match obj with
  | JObj fields => dict_set r k (JObj (obj_set fields field v))
  | _ => raise TypeError
  end.

(** [order[k].get(field)]: [AttributeError] when [order[k]] is not an
    object. *)
Definition dict_get_in (r : loc) (k field : string) : M json :=
  obj ← dict_item r k;
  match obj with
  | JObj fields => ret (default JNull (obj_get fields field))
  | _ => raise AttributeError
  end.

(** [order.get(k, {}).get(field)]. *)
Definition dict_get_default_in (r : loc) (k field : string) : M json :=
  obj ← dict_get_default r k (JObj []);
  match obj with
  | JObj fields => ret (default JNull (obj_get fields field))
  | _ => raise AttributeError
  end.

(** [order[k][field]]. *)
Definition dict_item_in (r : loc) (k field : string) : M json :=
  obj ← dict_item r k;
  match obj with
  | JObj fields =>
      match obj_get fields field with
      | Some v => ret v
      | None => raise KeyError
      end
  | _ => raise TypeError
  end.

(** [v[:n]]: defined on [str] and [list]. On a [dict] it is [TypeError]
    up to Python 3.11, which is what is modelled, and [KeyError] from
    Python 3.12. *)
Definition py_slice_to (n : nat) (v : json) : result json :=
  match v with
  | JStr s => Ret (JStr (substring 0 n s))
  | JArr items => Ret (JArr (take n items))
  | _ => Raise TypeError
  end.

(** [None] or the [str]. *)
Definition py_optional (o : option string) : json :=
  match o with
  | Some s => JStr s
  | None => JNull
  end.

(** The items of [for x in v]: a [list] gives its elements, a [dict] its
    keys, a [str] its characters; anything else is not iterable. *)
Definition py_iter (v : json) : result (list json) :=
  match v with
  | JArr items => Ret items
  | JObj fields => Ret (map (fun kv => JStr kv.1) fields)
  | JStr s => Ret (map (fun c => JStr (String c EmptyString)) (list_ascii_of_string s))
  | _ => Raise TypeError
  end.

(** [hash(v)], as far as it can raise: a [list] and a [dict] are not
    hashable. *)
Definition py_hashable (v : json) : result unit :=
  match v with
  | JArr _ | JObj _ => Raise TypeError
  | _ => Ret tt
  end.

(** [s.lower()], below code point 256: the letters A..Z, and the capital
    letters of Latin-1. *)
Definition lower_char (c : ascii) : ascii :=
  let n := N_of_ascii c in
  if (((65 <=? n) && (n <=? 90))
      || ((192 <=? n) && (n <=? 222) && negb (n =? 215)))%N
  then ascii_of_N (n + 32)
  else c.

Fixpoint py_lower (s : string) : string :=
  match s with
  | EmptyString => EmptyString
  | String c s' => String (lower_char c) (py_lower s')
  end.

(** White space that [str.strip] removes: that of [int], and the four
    separators FS, GS, RS and US. *)
Definition is_str_space (c : ascii) : bool :=
  let n := N_of_ascii c in
  (is_space c || ((28 <=? n) && (n <=? 31)))%N.

Fixpoint lstrip_str (l : list ascii) : list ascii :=
  match l with
  | c :: l' => if is_str_space c then lstrip_str l' else l
  | [] => []
  end.

(** [s.strip()]. *)
Definition py_strip (s : string) : string :=
  string_of_list_ascii
    (rev (lstrip_str (rev (lstrip_str (list_ascii_of_string s))))).

(** The export as the process finds it at one of its two paths: no file, a
    file that [json.load] rejects, or a file that [json.load] reads as
    [content]. *)
Inductive export_file : Type :=
| NoExport
| BadExport
| Export (content : json).

(** The four addresses that test orders are sent to. *)
Definition test_emails : list string :=
  ["charles@linkinguplocal.com"; "m@charles.so"; "charlesterzich@gmail.com";
   "trevor@trevorfosterstudio.com"].

(** The objects at [orders], as a call that is given the list sees them. *)
Definition read_orders (orders : list loc) : M (list dict) :=
  fun w => (Ret (map (fun r => heap w !!! r) orders), w).

Section Loader.

Variable py_repr : json -> string.

(** The body of the loop of [create_dummy_test_orders]; the value is
    [dummy_orders] after the pass. [orders[i]] is in range, the loop
    running below [len(orders)]. *)
Definition dummy_order_body (orders : list loc) (dummy_orders : list loc)
    (i : Z) : M (list loc) :=
  dummy_order ← deepcopy (orders !!! Z.to_nat i);
  dict_set dummy_order "email"
    (JStr (test_emails !!! Z.to_nat (i mod Z.of_nat (length test_emails))));;
  fulfillment ← dict_get dummy_order "fulfillment_status";
  when (py_eq fulfillment (JStr "fulfilled"))
    (order_date ← dict_get_default dummy_order "created_at" (JStr "");
     when (py_truthy order_date)
       (eval (py_slice_to 10 order_date);; ret tt));;
  billing ← dict_get dummy_order "billing_address";
  when (py_truthy billing)
    (dict_set_in dummy_order "billing_address" "first_name" (JStr "Test");;
     dict_set_in dummy_order "billing_address" "last_name"
       (JStr ("Customer" +:+ pretty (i + 1)));;
     phone ← dict_get_in dummy_order "billing_address" "phone";
     dict_set_in dummy_order "billing_address" "phone"
       (py_optional (format_phone_e164 py_repr phone)));;
  phone ← dict_get dummy_order "phone";
  when (py_truthy phone)
    (phone ← dict_item dummy_order "phone";
     dict_set dummy_order "phone"
       (py_optional (format_phone_e164 py_repr phone)));;
  shipping ← dict_get dummy_order "shipping_address";
  when (py_truthy shipping)
    (dict_set_in dummy_order "shipping_address" "first_name" (JStr "Test");;
     dict_set_in dummy_order "shipping_address" "last_name"
       (JStr ("Customer" +:+ pretty (i + 1))));;
  id ← dict_get dummy_order "woo_order_id";
  dict_set dummy_order "note"
    (JStr ("TEST ORDER " +:+ pretty (i + 1)
           +:+ " - Original WooCommerce Order #" +:+ py_str py_repr id));;
  ret (dummy_orders ++ [dummy_order])%list.

(** [create_dummy_test_orders(orders, test_count)]. *)
Definition create_dummy_test_orders (orders : list loc) (test_count : Z)
    : M (list loc) :=
  let test_count :=
    if Z.of_nat (length orders) <? test_count then Z.of_nat (length orders)
    else test_count in
  for_fold (py_range test_count) (dummy_order_body orders) [].

(** The body of the first loop of [load_woocommerce_orders]; the value is
    [fixed_orders] after the pass. An element of the export that is an
    object becomes an object of the heap here; on any other element the
    sanitizer's first [order.get] is an [AttributeError]. *)
Definition fix_order_body (fixed_orders : list loc) (order : json)
    : M (list loc) :=
  order ←
    match order with
    | JObj fields => alloc (list_to_map fields)
    | _ => raise AttributeError
    end;
  fixed_order ← fix_order_data_for_shopify order;
  match fixed_order with
  | Some fixed_order =>
      kept ← dict_truthy fixed_order;
      if (kept : bool) then ret (fixed_orders ++ [fixed_order])%list
      else ret fixed_orders
  | None => ret fixed_orders
  end.

(** The body of the loop over the real orders. *)
Definition format_order_phones (order : loc) : M unit :=
  phone ← dict_get order "phone";
  when (py_truthy phone)
    (phone ← dict_item order "phone";
     dict_set order "phone" (py_optional (format_phone_e164 py_repr phone)));;
  phone ← dict_get_default_in order "billing_address" "phone";
  when (py_truthy phone)
    (phone ← dict_item_in order "billing_address" "phone";
     dict_set_in order "billing_address" "phone"
       (py_optional (format_phone_e164 py_repr phone)));;
  phone ← dict_get_default_in order "shipping_address" "phone";
  when (py_truthy phone)
    (phone ← dict_item_in order "shipping_address" "phone";
     dict_set_in order "shipping_address" "phone"
       (py_optional (format_phone_e164 py_repr phone))).

(** [load_woocommerce_orders(test_mode, test_count)], with the files at
    ['data/shopify_orders_ready.json'] ([expected]) and at
    ['scripts/data/shopify_orders_ready.json'] ([current]). Every
    exception of the [try] block is caught: the second [except] clause is
    [except Exception]. *)
Definition load_woocommerce_orders (expected current : export_file)
    (test_mode : bool) (test_count : Z) : M (list loc) :=
  let orders_file :=
    match expected with
    | NoExport => current
    | _ => expected
    end in
  match orders_file with
  | NoExport => ret []
  | _ =>
      try_except
        (orders ←
           eval (match orders_file with
                 | Export content => Ret content
                 | _ => Raise ValueError
                 end);
         items ← eval (py_iter orders);
         fixed_orders ← for_fold items fix_order_body [];
         if test_mode then create_dummy_test_orders fixed_orders test_count
         else
           for_each fixed_orders
             (fun order => format_order_phones order;; ret (@Next unit));;
           ret fixed_orders)
        (fun _ => Some (ret []))
  end.

(** [response == 'y'] for [response = input(...).lower().strip()], where
    [answer] is the line that [input] returns. *)
Definition confirmed (answer : string) : bool :=
  String.eqb (py_strip (py_lower answer)) "y".

(** The preview line of an order, as far as it can raise:
    [order.get('created_at', '')[:10] if order.get('created_at') else
    'Unknown']. *)
Definition preview_order (order : loc) : M unit :=
  created ← dict_get order "created_at";
  when (py_truthy created)
    (created ← dict_get_default order "created_at" (JStr "");
     eval (py_slice_to 10 created);; ret tt).

(** [test_upload()]. *)
Definition test_upload (expected current : export_file) (answer : string)
    (srv : server) : M bool :=
  orders ← load_woocommerce_orders expected current true 10;
  if bool_decide (orders = []) then ret false
  else
    for_each (take 3 orders)
      (fun order => preview_order order;; ret (@Next unit));;
    if negb (confirmed answer) then ret false
    else
      items ← read_orders orders;
      successes ← batch_upload srv "orders" items 3 false;
      ret (successes =? Z.of_nat (length orders)).

(** The loop of [full_upload] that counts the orders by status:
    [status_counts[status] = ...] needs a status that can be hashed. *)
Definition count_status (order : loc) : M unit :=
  status ← dict_get_default order "financial_status" (JStr "unknown");
  eval (py_hashable status).

(** [full_upload(resume_mode)]. It reads the progress file up to three
    times before it asks, for the numbers that it prints. *)
Definition full_upload (expected current : export_file) (answer : string)
    (srv : server) (resume_mode : bool) : M unit :=
  orders ← load_woocommerce_orders expected current false 10;
  if bool_decide (orders = []) then ret tt
  else
    when resume_mode (load_completed_orders;; ret tt);;
    for_each orders (fun order => count_status order;; ret (@Next unit));;
    when resume_mode (load_completed_orders;; ret tt);;
    when resume_mode (load_completed_orders;; ret tt);;
    if negb (confirmed answer) then ret tt
    else
      items ← read_orders orders;
      batch_upload srv "orders" items 5 resume_mode;;
      ret tt.

End Loader.

(** * Notions used in the statements *)

(** ** States *)

(** [w] with more events in its trace. *)
Definition log (w : world) (events : list event) : world :=
  {| heap := heap w; file := file w; clock := clock w; posts := posts w;
     trace := trace w ++ events |}.

(** [w] after a POST, recorded as [request]. *)
Definition after_post (w : world) (request : event) : world :=
  {| heap := heap w; file := file w; clock := clock w; posts := S (posts w);
     trace := trace w ++ [request] |}.

(** [w] after a sleep of [ms] milliseconds. *)
Definition after_sleep (w : world) (ms : Z) : world :=
  {| heap := heap w; file := file w; clock := clock w + ms; posts := posts w;
     trace := trace w ++ [Sleep ms] |}.

(** [w'] differs from [w] in the heap and by new events at most. *)
Definition same_outside_heap (w w' : world) : Prop :=
  file w' = file w /\ clock w' = clock w /\ posts w' = posts w
  /\ exists events : list event, trace w' = (trace w ++ events)%list.

(** A call that leaves the progress file alone. *)
Definition keeps_file {A} (m : M A) : Prop :=
  forall w, file (m w).2 = file w.

(** An event that reports a failed request. *)
Definition reports_failure (e : event) : bool :=
  match e with
  | Print (MsgApiError _) | Print (MsgAttemptFailed _ _ _)
  | Print (MsgExhausted _) | Print (MsgFailed _ _) => true
  | _ => false
  end.

(** ** Order sanitizer *)

(** The new content of an order that the sanitizer writes to, if it
    writes. *)
Definition written (d : dict) : option dict :=
  if py_eq (py_get d "financial_status") (JStr "paid") then
    if negb (py_truthy (py_get d "processed_at"))
       || py_eq (py_get d "processed_at") (JStr "null")
    then Some (<["processed_at" := py_get d "created_at"]> d)
    else None
  else
    if bool_decide (is_Some (d !! "processed_at")) then
      Some (delete "processed_at" d)
    else None.

(** The heap after a call that did not raise on a non-voided order. *)
Definition heap_after (r : loc) (w : world) : gmap loc dict :=
  match written (heap w !!! r) with
  | Some d' => <[r := d']> (heap w)
  | None => heap w
  end.

(** The invariant of a record that may be submitted, as the
    specification words it. *)
Definition submittable (out : dict) : Prop :=
  py_truthy (py_get out "email") = true
  /\ (py_get out "financial_status" = JStr "paid" ->
      exists v, out !! "processed_at" = Some v /\ v <> JNull)
  /\ (py_get out "financial_status" <> JStr "paid" ->
      out !! "processed_at" = None).

(** ** Progress store *)

(** The list that [load_completed_orders] reads from the progress file. *)
Definition completed (w : world) : list json :=
  match file w with
  | Progress (Some completed_orders) _ => completed_orders
  | _ => []
  end.

(** [l.count(x)]. *)
Definition py_count (x : json) (l : list json) : nat :=
  length (List.filter (py_eq x) l).

(** The stored list of [w'] is that of [w] with more identifiers after
    it, each of them the [woo_order_id], counting as true, of one of
    [items]. *)
Definition grows_by (items : list dict) (w w' : world) : Prop :=
  exists suffix : list json,
    completed w' = (completed w ++ suffix)%list
    /\ Forall (fun id => py_truthy id = true
                         /\ exists item, item ∈ items /\ id = py_get item "woo_order_id")
         suffix.

(** ** Upload client and batch orchestrator *)

(** A server that answers every request with a 429 and a usable
    [Retry-After]. *)
Definition rate_limits_forever (srv : server) : Prop :=
  forall n, exists r seconds,
    srv n = Responded r /\ status_code r = 429
    /\ retry_after_seconds r = Ret seconds /\ 0 <= seconds.

(** What the specification says of an answer with a status of 400 or
    more other than 429, for one call: the call ends with an exception,
    after that one request. *)
Definition http_error_is_terminal (srv : server) (data : dict) (w : world) : Prop :=
  forall r,
    srv (posts w) = Responded r ->
    400 <= status_code r -> status_code r <> 429 ->
    exists e w',
      upload_to_shopify srv "orders" data 3 5 w = (Raise e, w')
      /\ posts w' = S (posts w).

(** What the specification says of the pass over one order: after the
    pass the store holds the order's source identifier if and only if the
    upload call of the pass returned a parsed body. *)
Definition recorded_iff_uploaded (srv : server) (item : dict) (w : world) : Prop :=
  let id := py_get item "woo_order_id" in
  let pass := process_item srv "orders" [] 1 0 item w in
  let upload :=
    upload_to_shopify srv "orders" item 3 5
      (log w [Print (MsgProcessing "orders" 1 1)]) in
  py_in id (completed pass.2) = true <-> exists body, upload.1 = Ret (Some body).

(** ** Examples *)

(** The state of a fresh process: no object, no progress file. *)
Definition world0 : world :=
  {| heap := ∅; file := NoFile; clock := 0; posts := 0; trace := [] |}.

(** A state whose only object, at reference [1], is [d]. *)
Definition world_with (d : dict) : world :=
  {| heap := {[1%positive := d]}; file := NoFile; clock := 0; posts := 0;
     trace := [] |}.

(** A paid order with neither [processed_at] nor [created_at]. *)
Definition order_paid_undated : dict :=
  <["financial_status" := JStr "paid"]> (<["email" := JStr "a@b.com"]> ∅).

(** A paid order without [processed_at]. *)
Definition order_paid : dict :=
  <["woo_order_id" := JInt 1001]>
    (<["financial_status" := JStr "paid"]>
       (<["created_at" := JStr "2024-01-01T00:00:00"]>
          (<["email" := JStr "a@b.com"]> ∅))).

(** A pending order that carries a [processed_at]. *)
Definition order_pending : dict :=
  <["woo_order_id" := JInt 1002]>
    (<["financial_status" := JStr "pending"]>
       (<["processed_at" := JStr "2024-01-02T00:00:00"]>
          (<["email" := JStr "c@d.com"]> ∅))).

(** The first order of the specification's end-to-end scenario, after the
    sanitizer: it has an [id] and no [woo_order_id]. *)
Definition order_without_source_id : dict :=
  <["id" := JInt 1]>
    (<["financial_status" := JStr "paid"]>
       (<["created_at" := JStr "2024-01-01T00:00:00"]>
          (<["processed_at" := JStr "2024-01-01T00:00:00"]>
             (<["email" := JStr "a@b.com"]> ∅)))).

(** The same order with the source identifier [0]. *)
Definition order_zero_source_id : dict :=
  <["woo_order_id" := JInt 0]> order_without_source_id.

Definition no_headers : headers := {| retry_after := None; call_limit := None |}.

(** A 429 without [Retry-After]. *)
Definition rate_limited : response :=
  {| status_code := 429; response_headers := no_headers;
     json_body := Ret (JObj [("errors", JStr "Exceeded 2 calls per second")]) |}.

(** A 500 whose body is not JSON. *)
Definition server_error : response :=
  {| status_code := 500; response_headers := no_headers;
     json_body := Raise InvalidJSONError |}.

(** The answer to a POST that created the resource. *)
Definition created : response :=
  {| status_code := 201;
     response_headers := {| retry_after := None; call_limit := Some "1/40" |};
     json_body := Ret (JObj [("order", JObj [("id", JInt 450789469)])]) |}.

Definition always_rate_limited : server := fun _ => Responded rate_limited.

Definition always_created : server := fun _ => Responded created.

(** A 429, then a transport failure, then success. *)
Definition rate_limited_then_down : server :=
  fun n =>
    match n with
    | O => Responded rate_limited
    | 1%nat => Failed ConnectionError
    | _ => Responded created
    end.

(** A 500, then success. *)
Definition error_then_created : server :=
  fun n =>
    match n with
    | O => Responded server_error
    | _ => Responded created
    end.

(** ** Calls and the state *)

(** A call every run of which takes the state from [w] to a state that
    [R] relates to [w]. *)
Definition steps {A} (R : relation world) (m : M A) : Prop :=
  forall w, R w (m w).2.

(** From [w] to [w'] exactly [n] requests were sent. *)
Definition sent (n : nat) (w w' : world) : Prop :=
  posts w' = (posts w + n)%nat.

(** From [w] to [w'] at most [n] requests were sent. *)
Definition sent_at_most (n : nat) (w w' : world) : Prop :=
  (posts w <= posts w' <= posts w + n)%nat.

(** The trace of [w'] is that of [w] and then events that satisfy [P]. *)
Definition trace_adds (P : event -> Prop) (w w' : world) : Prop :=
  exists events : list event,
    trace w' = (trace w ++ events)%list /\ Forall P events.

(** An event that is no request, or a request for [endpoint] that carries
    an item for which [Q] holds. *)
Definition posts_only (endpoint : string) (Q : dict -> Prop) (e : event) : Prop :=
  match e with
  | Post endpoint' item _ _ => endpoint' = endpoint /\ Q item
  | _ => True
  end.

(** The time slept from [w] to [w'], in milliseconds. *)
Definition slept (w w' : world) : Z := clock w' - clock w.

(** A call that never ends a pass of a loop by [return]. *)
Definition never_returns {A} (m : M (flow A)) : Prop :=
  forall w a w', m w <> (Ret (Return a), w').

(** The last request sent before [w] was the [n]-th of the run, with
    [from <= n], and the server's answer to it delivered [body]: the
    answer parsed to [body], and its status is neither 429 nor an error
    status. *)
Definition delivered (srv : server) (from : nat) (body : json) (w : world) : Prop :=
  exists (n : nat) (r : response),
    posts w = S n /\ (from <= n)%nat /\ srv n = Responded r
    /\ json_body r = Ret body
    /\ status_code r <> 429 /\ ~ (400 <= status_code r < 600).

(** A server that cannot be reached: every request ends in an exception
    of the HTTP library. *)
Definition always_fails (srv : server) : Prop :=
  forall n, exists e, srv n = Failed e /\ is_RequestException e = true.

(** A call that does not raise. *)
Definition total {A} (m : M A) : Prop :=
  forall w, exists a w', m w = (Ret a, w').

(** A call every value of which satisfies [P]. *)
Definition returns {A} (P : A -> Prop) (m : M A) : Prop :=
  forall w a w', m w = (Ret a, w') -> P a.

(** No element of [l] occurs twice, by [==]. *)
Fixpoint py_distinct (l : list json) : bool :=
  match l with
  | [] => true
  | x :: l' => negb (py_in x l') && py_distinct l'
  end.

(** A string of decimal digits. *)
Fixpoint is_digits (s : string) : bool :=
  match s with
  | EmptyString => true
  | String c s' => is_digit c && is_digits s'
  end.

(** ** Objects *)

(** From [w] to [w'] the objects that [w] holds are unchanged: the heap
    has grown, by new objects at most. *)
Definition keeps_objects (w w' : world) : Prop :=
  forall r, r ∈ dom (heap w) -> heap w' !! r = heap w !! r.

(** From [w] to [w'] the heap changed at references for which [P] holds
    at most. *)
Definition changes_only (P : loc -> Prop) (w w' : world) : Prop :=
  forall r, ~ P r -> heap w' !! r = heap w !! r.

(** From [w] to [w'] no object changed at a key for which [K] holds. *)
Definition keeps_fields (K : string -> Prop) (w w' : world) : Prop :=
  forall r k, K k -> (heap w' !!! r) !! k = (heap w !!! r) !! k.

(** From [w] to [w'] only the heap changed. *)
Definition only_heap (w w' : world) : Prop :=
  file w' = file w /\ clock w' = clock w /\ posts w' = posts w
  /\ trace w' = trace w.

(** The keys that [create_dummy_test_orders] writes. *)
Definition test_data_keys : list string :=
  ["email"; "billing_address"; "phone"; "shipping_address"; "note"].

(** A phone field after normalization: a value that counts as false, or
    ["+"] and eleven or more digits. *)
Definition normalized_phone (v : json) : Prop :=
  py_truthy v = false
  \/ exists d, v = JStr ("+" +:+ d) /\ is_digits d = true
                /\ (11 <= String.length d)%nat.

(** The [phone] of the object nested at [k]; [None] when there is no
    such object. *)
Definition phone_in (d : dict) (k : string) : json :=
  match d !! k with
  | Some (JObj fields) => default JNull (obj_get fields "phone")
  | _ => JNull
  end.

(** The names that test data puts in an address: [v] is an object with
    the first name ["Test"] and the last name ["Customer<n>"]. *)
Definition test_names (n : Z) (v : json) : Prop :=
  exists fields,
    v = JObj fields
    /\ obj_get fields "first_name" = Some (JStr "Test")
    /\ obj_get fields "last_name" = Some (JStr ("Customer" +:+ pretty n)).

(** [d] is the test order made of [original] at the index [i]: the email
    is the test address of the index; an address that counts as true has
    the test names, and the billing address a normalized phone; the note
    names the original; every key that is not one of [test_data_keys] is
    as in [original]. *)
Definition dummy_of (py_repr : json -> string) (i : nat) (original d : dict) : Prop :=
  d !! "email" = Some (JStr (test_emails !!! (i mod 4)%nat))
  /\ (forall k, k ∉ test_data_keys -> d !! k = original !! k)
  /\ d !! "note"
     = Some (JStr ("TEST ORDER " +:+ pretty (Z.of_nat i + 1)
                   +:+ " - Original WooCommerce Order #"
                   +:+ py_str py_repr (py_get original "woo_order_id")))
  /\ (py_truthy (py_get original "billing_address") = true ->
      test_names (Z.of_nat i + 1) (py_get d "billing_address")
      /\ normalized_phone (phone_in d "billing_address"))
  /\ (py_truthy (py_get original "shipping_address") = true ->
      test_names (Z.of_nat i + 1) (py_get d "shipping_address"))
  /\ normalized_phone (py_get d "phone").

(** [w'] is [w]: nothing happened. *)
Definition unchanged (w w' : world) : Prop := w' = w.

(** ** The export *)

(** An order as the sanitizer returns it: its email counts as true, it is
    not voided, and it has a [processed_at] if and only if it is paid. *)
Definition sanitized (d : dict) : Prop :=
  py_truthy (py_get d "email") = true
  /\ py_get d "financial_status" <> JStr "voided"
  /\ (py_get d "financial_status" = JStr "paid" -> is_Some (d !! "processed_at"))
  /\ (py_get d "financial_status" <> JStr "paid" -> d !! "processed_at" = None).

(** The three phones of an order are normalized. *)
Definition phones_normalized (d : dict) : Prop :=
  normalized_phone (py_get d "phone")
  /\ normalized_phone (phone_in d "billing_address")
  /\ normalized_phone (phone_in d "shipping_address").

(** An element of the export on which the sanitizer raises: it is not an
    object; or it is an object that is not voided and whose
    [woo_order_id] is [None], a [str], a [list] or a [dict], which the
    guard of the debug prints cannot compare with 5. *)
Definition rejected (item : json) : Prop :=
  match item with
  | JObj fields =>
      let d : dict := list_to_map fields in
      py_get d "financial_status" <> JStr "voided"
      /\ match py_get_default d "woo_order_id" (JInt 0) with
         | JNull | JStr _ | JArr _ | JObj _ => True
         | JInt _ | JBool _ => False
         end
  | JNull | JBool _ | JInt _ | JStr _ | JArr _ => True
  end.

(** The file that [load_woocommerce_orders] reads: the first of the two
    that exists. *)
Definition orders_file (expected current : export_file) : export_file :=
  match expected with
  | NoExport => current
  | _ => expected
  end.

(** An item carries one of the four test addresses as its email. *)
Definition has_test_email (item : dict) : Prop :=
  exists e, e ∈ test_emails /\ item !! "email" = Some (JStr e).

(** ** Examples of exports *)

(** A paid order without [processed_at], with a phone to normalize. *)
Definition export_order_7 : json :=
  JObj [("woo_order_id", JInt 7); ("email", JStr "a@b.com");
        ("financial_status", JStr "paid");
        ("created_at", JStr "2024-01-01T00:00:00");
        ("phone", JStr "(555) 123-4567");
        ("billing_address",
         JObj [("first_name", JStr "Ann"); ("last_name", JStr "Lee");
               ("phone", JStr "555")])].

(** An order whose identifier is a string. *)
Definition export_order_text_id : json :=
  JObj [("woo_order_id", JStr "1001"); ("email", JStr "e@f.com");
        ("financial_status", JStr "pending")].

(** An export of three orders: the second has no email, the third is
    voided. *)
Definition export_example : json :=
  JArr [export_order_7;
        JObj [("woo_order_id", JInt 8); ("email", JStr "");
              ("financial_status", JStr "paid")];
        JObj [("woo_order_id", JInt 9); ("email", JStr "c@d.com");
              ("financial_status", JStr "voided")]].

Definition export_with_text_id : json :=
  JArr [export_order_7; export_order_text_id].

(** * Properties *)

(** ** Python values *)

(** Induction on a value with the hypothesis for the elements of a list
    and for the field values of an object. *)
Lemma json_nested_ind (P : json -> Prop) :
  P JNull ->
  (forall b, P (JBool b)) ->
  (forall z, P (JInt z)) ->
  (forall s, P (JStr s)) ->
  (forall items, Forall P items -> P (JArr items)) ->
  (forall fields, Forall (fun kv => P kv.2) fields -> P (JObj fields)) ->
  forall v, P v.
Proof.
  intros Hnull Hbool Hint Hstr Harr Hobj.
  fix IH 1. intros [ | b | z | s | items | fields].
  - exact Hnull.
  - apply Hbool.
  - apply Hint.
  - apply Hstr.
  - apply Harr. induction items as [ | x items IHitems]; constructor.
    + apply IH.
    + exact IHitems.
  - apply Hobj. induction fields as [ | [k x] fields IHfields]; constructor.
    + apply IH.
    + exact IHfields.
Qed.

Lemma py_eq_refl (v : json) : py_eq v v = true.
Proof.
  induction v as [ | b | z | s | items IH | fields IH] using json_nested_ind;
    simpl.
  - reflexivity.
  - by destruct b.
  - apply Z.eqb_refl.
  - apply String.eqb_refl.
  - induction IH as [ | x items Hx _ IHitems]; [done | ].
    by rewrite Hx, IHitems.
  - induction IH as [ | [k x] fields Hx _ IHfields]; [done | ].
    simpl in Hx. by rewrite String.eqb_refl, Hx, IHfields.
Qed.

Lemma py_truthy_not_null (v : json) : py_truthy v = true -> v <> JNull.
Proof. by intros H ->. Qed.

(** Membership in the list literal [[None, '', 'null']]. *)
Lemma py_in_null_literals (v : json) :
  py_truthy v = true ->
  py_in v [JNull; JStr ""; JStr "null"] = py_eq v (JStr "null").
Proof.
  intros Hv. unfold py_in. simpl.
  destruct v as [ | b | z | s | items | fields]; try done.
  simpl in *. destruct (String.eqb s ""); [done | ].
  simpl. by rewrite orb_false_r.
Qed.

Lemma py_eq_str (v : json) (s : string) : py_eq v (JStr s) = true <-> v = JStr s.
Proof.
  split; [ | intros ->; apply py_eq_refl].
  destruct v; simpl; try done.
  by intros ->%String.eqb_eq.
Qed.

Example py_int_examples :
  py_int " +3_8 " = Ret 38 /\ py_int "-0" = Ret 0 /\ py_int "007" = Ret 7
  /\ py_int "1__0" = Raise ValueError /\ py_int "- 1" = Raise ValueError
  /\ py_int "" = Raise ValueError /\ py_int "4x" = Raise ValueError.
Proof. by vm_compute. Qed.

Example py_split_examples :
  py_split "/" "38/40" = ["38"; "40"] /\ py_split "/" "a//b" = ["a"; ""; "b"]
  /\ py_split "/" "" = [""].
Proof. by vm_compute. Qed.

Example py_range_examples :
  py_range 3 = [0; 1; 2] /\ py_range_step 7 3 = Ret [0; 3; 6]
  /\ py_range_step 7 0 = Raise ValueError
  /\ py_slice [1; 2; 3; 4; 5; 6; 7] 6 9 = [7].
Proof. by vm_compute. Qed.

(** ** Phone normalizer *)

Section PhoneProperties.

Variable py_repr : json -> string.

(** A value that counts as false prints with fewer than ten digits. *)
Lemma falsy_few_digits (phone : json) :
  py_truthy phone = false ->
  (String.length (re_sub_non_digits (py_str py_repr phone)) < 10)%nat.
Proof.
  destruct phone as [ | [ | ] | z | s | [ | x items] | [ | kv fields]];
    simpl; try done; try lia.
  - intros Hz%negb_false_iff%Z.eqb_eq. subst z. simpl. lia.
  - intros Hs%negb_false_iff%String.eqb_eq. subst s. simpl. lia.
Qed.

Lemma format_phone_e164_truthy (phone : json) :
  py_truthy phone = true ->
  format_phone_e164 py_repr phone =
    let digits_only := re_sub_non_digits (py_str py_repr phone) in
    if (String.length digits_only =? 10)%nat then
      Some ("+1" +:+ digits_only)
    else if (10 <=? String.length digits_only)%nat then
      Some ("+" +:+ digits_only)
    else None.
Proof.
  intros Hphone. unfold format_phone_e164. rewrite Hphone. simpl.
  destruct (String.length _ =? 10)%nat eqn:E10; [done | ].
  destruct (String.length _ =? 11)%nat eqn:E11; [ | done].
  apply Nat.eqb_eq in E11. rewrite E11. simpl.
  by destruct (startswith _ _).
Qed.

(** C8. After all characters that are not digits are removed from the
    printed input: exactly ten digits give ["+1"] and the digits;
    eleven digits that start with ["1"] give ["+"] and the digits; any
    other ten or more digits give ["+"] and the digits; fewer than ten
    digits, or an input that counts as empty, give no result. *)
Theorem format_phone_e164_cases (phone : json) :
  let digits := re_sub_non_digits (py_str py_repr phone) in
  ((String.length digits = 10)%nat ->
     format_phone_e164 py_repr phone = Some ("+1" +:+ digits)) /\
  ((String.length digits = 11)%nat -> startswith "1" digits = true ->
     format_phone_e164 py_repr phone = Some ("+" +:+ digits)) /\
  ((10 <= String.length digits)%nat -> (String.length digits <> 10)%nat ->
     format_phone_e164 py_repr phone = Some ("+" +:+ digits)) /\
  ((String.length digits < 10)%nat ->
     format_phone_e164 py_repr phone = None) /\
  (py_truthy phone = false -> format_phone_e164 py_repr phone = None).
Proof.
  intros digits.
  assert (Hfalsy : py_truthy phone = false ->
                   format_phone_e164 py_repr phone = None).
  { intros H. unfold format_phone_e164. by rewrite H. }
  destruct (py_truthy phone) eqn:Hphone.
  - rewrite (format_phone_e164_truthy phone Hphone). cbv zeta.
    fold digits. repeat split.
    + intros ->. done.
    + intros H11 _. rewrite H11. done.
    + intros Hge Hne.
      destruct (Nat.eqb_spec (String.length digits) 10); [done | ].
      destruct (Nat.leb_spec 10 (String.length digits)); [done | lia].
    + intros Hlt.
      destruct (Nat.eqb_spec (String.length digits) 10); [lia | ].
      destruct (Nat.leb_spec 10 (String.length digits)); [lia | done].
    + done.
  - pose proof (falsy_few_digits phone Hphone) as Hfew. fold digits in Hfew.
    rewrite (Hfalsy eq_refl). repeat split; intros; try done; lia.
Qed.

End PhoneProperties.

(** C8 on a ten-digit number, on an eleven-digit number that starts with
    1, on a longer number, on a short one and on the empty string. *)
Lemma format_phone_e164_cases_witness :
  format_phone_e164 (fun _ => "") (JStr "(555) 123-4567") = Some "+15551234567"
  /\ format_phone_e164 (fun _ => "") (JInt 15551234567) = Some "+15551234567"
  /\ format_phone_e164 (fun _ => "") (JStr "+44 20 7946 0958") = Some "+442079460958"
  /\ format_phone_e164 (fun _ => "") (JStr "555-1234") = None
  /\ format_phone_e164 (fun _ => "") (JStr "") = None.
Proof.
  split; [ | split; [ | split; [ | split]]].
  - exact (proj1 (format_phone_e164_cases (fun _ => "") (JStr "(555) 123-4567"))
             eq_refl).
  - exact (proj1 (proj2 (format_phone_e164_cases (fun _ => "") (JInt 15551234567)))
             eq_refl eq_refl).
  - refine (proj1 (proj2 (proj2
             (format_phone_e164_cases (fun _ => "") (JStr "+44 20 7946 0958")))) _ _).
    + vm_compute. lia.
    + vm_compute. lia.
  - refine (proj1 (proj2 (proj2 (proj2
             (format_phone_e164_cases (fun _ => "") (JStr "555-1234"))))) _).
    vm_compute. lia.
  - exact (proj2 (proj2 (proj2 (proj2
             (format_phone_e164_cases (fun _ => "") (JStr ""))))) eq_refl).
Defined.

(** ** Running a call *)

Lemma run_bind {A B} (m : M A) (k : A -> M B) (w : world) :
  (m ≫= k) w =
    match m w with
    | (Ret a, w') => k a w'
    | (Raise e, w') => (Raise e, w')
    end.
Proof. reflexivity. Qed.

Lemma run_ret {A} (a : A) (w : world) : ret a w = (Ret a, w).
Proof. reflexivity. Qed.

Lemma run_eval {A} (r : result A) (w : world) : eval r w = (r, w).
Proof. reflexivity. Qed.

Lemma run_print (m : message) (w : world) : print m w = (Ret tt, log w [Print m]).
Proof. reflexivity. Qed.

Lemma run_dict_get r k w : dict_get r k w = (Ret (py_get (heap w !!! r) k), w).
Proof. reflexivity. Qed.

Lemma run_dict_get_default r k dflt w :
  dict_get_default r k dflt w = (Ret (py_get_default (heap w !!! r) k dflt), w).
Proof. reflexivity. Qed.

Lemma run_dict_set r k v w :
  dict_set r k v w =
    (Ret tt, set_heap (<[r := <[k := v]> (heap w !!! r)]> (heap w)) w).
Proof. reflexivity. Qed.

Lemma run_dict_del r k w :
  dict_del r k w = (Ret tt, set_heap (<[r := delete k (heap w !!! r)]> (heap w)) w).
Proof. reflexivity. Qed.

Lemma run_dict_contains r k w :
  dict_contains r k w = (Ret (bool_decide (is_Some ((heap w !!! r) !! k))), w).
Proof. reflexivity. Qed.

Lemma run_dict_item r k v w :
  (heap w !!! r) !! k = Some v -> dict_item r k w = (Ret v, w).
Proof. intros H. unfold dict_item. by rewrite H. Qed.

Lemma run_debug_order r w :
  debug_order r w =
    (py_le_int (py_get_default (heap w !!! r) "woo_order_id" (JInt 0)) 5, w).
Proof. reflexivity. Qed.

Lemma log_nil (w : world) : log w [] = w.
Proof. destruct w. unfold log. cbn. by rewrite app_nil_r. Qed.

Lemma log_log (w : world) (a b : list event) : log (log w a) b = log w (a ++ b).
Proof. unfold log. cbn. by rewrite app_assoc. Qed.

Lemma set_heap_log h w a : set_heap h (log w a) = log (set_heap h w) a.
Proof. reflexivity. Qed.

Lemma heap_log w a : heap (log w a) = heap w.
Proof. reflexivity. Qed.

Lemma heap_set_heap h w : heap (set_heap h w) = h.
Proof. reflexivity. Qed.

Lemma run_when (c : bool) (m : M unit) (w : world) (events : list event) :
  m w = (Ret tt, log w events) ->
  when c m w = (Ret tt, log w (if c then events else [])).
Proof. intros H. destruct c; simpl; [done | by rewrite log_nil]. Qed.

Create Rewrite HintDb run.
#[local] Hint Rewrite @run_bind @run_ret @run_eval run_print run_dict_get
  run_dict_get_default run_dict_set run_dict_del run_dict_contains
  run_debug_order heap_log heap_set_heap : run.

Ltac run := repeat (progress (autorewrite with run; cbv beta iota)).

(** ** Order sanitizer *)

Lemma py_get_insert_ne (d : dict) (k k' : string) (v : json) :
  k <> k' -> py_get (<[k := v]> d) k' = py_get d k'.
Proof. intros H. unfold py_get. by rewrite lookup_insert_ne. Qed.

Lemma py_get_default_insert_ne (d : dict) (k k' : string) (v dflt : json) :
  k <> k' -> py_get_default (<[k := v]> d) k' dflt = py_get_default d k' dflt.
Proof. intros H. unfold py_get_default. by rewrite lookup_insert_ne. Qed.

Lemma py_get_delete_ne (d : dict) (k k' : string) :
  k <> k' -> py_get (delete k d) k' = py_get d k'.
Proof. intros H. unfold py_get. by rewrite lookup_delete_ne. Qed.

Lemma py_get_default_delete_ne (d : dict) (k k' : string) (dflt : json) :
  k <> k' -> py_get_default (delete k d) k' dflt = py_get_default d k' dflt.
Proof. intros H. unfold py_get_default. by rewrite lookup_delete_ne. Qed.

Lemma py_get_truthy_lookup (d : dict) (k : string) :
  py_truthy (py_get d k) = true -> d !! k = Some (py_get d k).
Proof. unfold py_get. by destruct (d !! k). Qed.

Ltac after_write :=
  rewrite ?lookup_total_insert_eq, ?py_get_insert_ne, ?py_get_default_insert_ne,
    ?py_get_delete_ne, ?py_get_default_delete_ne by done.

Ltac rewrite_known :=
  match goal with
  | H : ?x = _ |- context [?x] =>
      tryif is_var x then fail else rewrite H
  end.

(** Run the call in the goal as far as the hypotheses decide it; [Hd]
    names the content of the object the call works on. *)
Ltac run_with Hd :=
  repeat first
    [ progress run
    | progress rewrite <- ?Hd
    | progress after_write
    | progress cbn [negb orb andb]
    | rewrite_known ].

(** The debug report after a change of [processed_at]. *)
Lemma run_debug_report (r : loc) (w : world) (dbg : bool) (v : json)
    (report : json -> message) :
  (heap w !!! r) !! "processed_at" = Some v ->
  when dbg (x ← dict_item r "processed_at"; print (report x)) w =
    (Ret tt, log w (if dbg then [Print (report v)] else [])).
Proof.
  intros Hv. apply run_when. rewrite run_bind, (run_dict_item _ _ v) by done.
  by rewrite run_print.
Qed.

(** The sanitizer, case by case: a voided order; an order whose
    [woo_order_id] cannot be compared with a number; any other order. *)
Lemma run_fix_order_data_for_shopify (r : loc) (w : world) :
  let d := heap w !!! r in
  if py_eq (py_get d "financial_status") (JStr "voided") then
    fix_order_data_for_shopify r w =
      (Ret None, log w [Print (MsgSkipVoided (py_get d "woo_order_id"))])
  else
    match py_le_int (py_get_default d "woo_order_id" (JInt 0)) 5 with
    | Raise e => fix_order_data_for_shopify r w = (Raise e, w)
    | Ret _ =>
        exists events,
          fix_order_data_for_shopify r w =
            (Ret (if py_truthy (py_get d "email") then Some r else None),
             log (match written d with
                  | Some d' => set_heap (<[r := d']> (heap w)) w
                  | None => w
                  end) events)
    end.
Proof.
  intros d. subst d. remember (heap w !!! r) as d eqn:Hd.
  unfold fix_order_data_for_shopify. run_with Hd.
  destruct (py_eq (py_get d "financial_status") (JStr "voided")) eqn:Hvoid.
  { by run_with Hd. }
  run_with Hd.
  destruct (py_le_int (py_get_default d "woo_order_id" (JInt 0)) 5)
    as [dbg | e] eqn:Hdbg; [ | done].
  rewrite run_bind. erewrite (run_when dbg); [ | by run].
  run_with Hd. unfold written.
  destruct (py_eq (py_get d "financial_status") (JStr "paid")) eqn:Hpaid;
    run_with Hd.
  - destruct (py_truthy (py_get d "processed_at")) eqn:Hprocessed;
      run_with Hd.
    + pose proof (py_get_truthy_lookup _ _ Hprocessed) as Hlookup.
      rewrite (run_dict_item _ _ (py_get d "processed_at"))
        by (cbn; by rewrite <- Hd).
      rewrite py_in_null_literals by done. run_with Hd.
      destruct (py_eq (py_get d "processed_at") (JStr "null")); run_with Hd.
      * rewrite (run_debug_report _ _ _ (py_get d "created_at"))
          by (cbn; by rewrite <- ?Hd, lookup_total_insert_eq, lookup_insert_eq).
        run_with Hd.
        destruct (py_truthy (py_get d "email")); run_with Hd;
          rewrite ?set_heap_log, ?log_log; by eexists.
      * destruct (py_truthy (py_get d "email")); run_with Hd;
          rewrite ?set_heap_log, ?log_log; by eexists.
    + rewrite (run_debug_report _ _ _ (py_get d "created_at"))
        by (cbn; by rewrite <- ?Hd, lookup_total_insert_eq, lookup_insert_eq).
      run_with Hd.
      destruct (py_truthy (py_get d "email")); run_with Hd;
        rewrite ?set_heap_log, ?log_log; by eexists.
  - destruct (bool_decide (is_Some (d !! "processed_at"))); run_with Hd.
    + rewrite (run_when _ _ _ [Print MsgRemovedProcessedAt])
        by apply run_print.
      run_with Hd.
      destruct (py_truthy (py_get d "email")); run_with Hd;
        rewrite ?set_heap_log, ?log_log; by eexists.
    + destruct (py_truthy (py_get d "email")); run_with Hd;
        rewrite ?set_heap_log, ?log_log; by eexists.
Qed.

Lemma written_other_keys (d d' : dict) (k : string) :
  written d = Some d' -> k <> "processed_at" -> d' !! k = d !! k.
Proof.
  unfold written. intros H Hk.
  repeat case_match; simplify_eq.
  - by rewrite lookup_insert_ne.
  - by rewrite lookup_delete_ne.
Qed.

Lemma heap_after_lookup (r : loc) (w : world) :
  heap_after r w !!! r = default (heap w !!! r) (written (heap w !!! r)).
Proof.
  unfold heap_after. destruct (written _); [ | done].
  by rewrite lookup_total_insert_eq.
Qed.

(** Every outcome of the sanitizer, in one statement. *)
Lemma fix_order_data_for_shopify_outcome (r : loc) (w : world) :
  let d := heap w !!! r in
  let run := fix_order_data_for_shopify r w in
  (run.1 = Ret None /\ heap run.2 = heap w
   /\ py_get d "financial_status" = JStr "voided")
  \/ (run.1 = Raise TypeError /\ run.2 = w
      /\ py_le_int (py_get_default d "woo_order_id" (JInt 0)) 5 = Raise TypeError)
  \/ (py_get d "financial_status" <> JStr "voided"
      /\ run.1 = Ret (if py_truthy (py_get d "email") then Some r else None)
      /\ heap run.2 = heap_after r w).
Proof.
  intros d run. subst run.
  pose proof (run_fix_order_data_for_shopify r w) as Hrun.
  cbv zeta in Hrun. fold d in Hrun.
  destruct (py_eq (py_get d "financial_status") (JStr "voided")) eqn:Hvoid.
  - left. rewrite Hrun. by apply py_eq_str in Hvoid.
  - right.
    assert (py_get d "financial_status" <> JStr "voided") as Hne.
    { intros Heq%py_eq_str. congruence. }
    destruct (py_le_int (py_get_default d "woo_order_id" (JInt 0)) 5)
      as [dbg | e] eqn:Hdbg.
    + right. destruct Hrun as [events ->]. split_and!; [done | done | ].
      unfold heap_after. fold d. by destruct (written d).
    + left. rewrite Hrun.
      assert (e = TypeError) as ->.
      { unfold py_le_int in Hdbg. by repeat case_match; simplify_eq. }
      done.
Qed.

Lemma same_outside_heap_log (w : world) (events : list event) :
  same_outside_heap w (log w events).
Proof. unfold same_outside_heap. cbn. eauto 10. Qed.

Lemma fix_order_data_for_shopify_frame (r : loc) (w : world) :
  same_outside_heap w (fix_order_data_for_shopify r w).2.
Proof.
  pose proof (run_fix_order_data_for_shopify r w) as Hrun. cbv zeta in Hrun.
  destruct (py_eq _ _).
  - rewrite Hrun. apply same_outside_heap_log.
  - destruct (py_le_int _ _).
    + destruct Hrun as [events ->]. cbn [snd].
      destruct (written _); unfold same_outside_heap; cbn; eauto 10.
    + rewrite Hrun. unfold same_outside_heap. cbn. split_and!; try done.
      exists nil. by rewrite app_nil_r.
Qed.

Lemma py_eq_str_false (v : json) (s : string) :
  v <> JStr s -> py_eq v (JStr s) = false.
Proof.
  intros Hne. destruct (py_eq v (JStr s)) eqn:Heq; [ | done].
  by apply py_eq_str in Heq.
Qed.

(** What the sanitizer writes, by the case of the order. A [processed_at]
    cannot be used when it counts as false or is the string ["null"]. *)
Lemma written_cases (d : dict) :
  (py_get d "financial_status" = JStr "paid" ->
   py_truthy (py_get d "processed_at") = false
   \/ py_get d "processed_at" = JStr "null" ->
   written d = Some (<["processed_at" := py_get d "created_at"]> d))
  /\ (py_get d "financial_status" = JStr "paid" ->
      py_truthy (py_get d "processed_at") = true ->
      py_get d "processed_at" <> JStr "null" ->
      written d = None)
  /\ (py_get d "financial_status" <> JStr "paid" ->
      default d (written d) !! "processed_at" = None).
Proof.
  unfold written. split_and!.
  - intros Hpaid Hunusable. rewrite (proj2 (py_eq_str _ _) Hpaid).
    destruct Hunusable as [-> | Hnull]; [done | ].
    rewrite (proj2 (py_eq_str _ _) Hnull). by rewrite orb_true_r.
  - intros Hpaid -> Hnull. rewrite (proj2 (py_eq_str _ _) Hpaid).
    by rewrite (py_eq_str_false _ _ Hnull).
  - intros Hpaid. rewrite (py_eq_str_false _ _ Hpaid).
    case_bool_decide as Hpresent; cbn [default from_option id].
    + apply lookup_delete_eq.
    + by apply eq_None_not_Some.
Qed.

(** C5, the failing input. The paid order that has neither [processed_at]
    nor [created_at] is returned by the sanitizer with [processed_at] set
    to [None]: the record that goes on to the upload breaks the invariant
    that [processed_at] is not null on a paid order. *)
Theorem sanitizer_returns_null_processed_at :
  let run := fix_order_data_for_shopify 1 (world_with order_paid_undated) in
  run.1 = Ret (Some 1%positive)
  /\ (heap run.2 !!! 1%positive) !! "processed_at" = Some JNull
  /\ ~ submittable (heap run.2 !!! 1%positive).
Proof.
  split_and!; [by vm_compute | by vm_compute | ].
  intros (_ & Hpaid & _).
  destruct Hpaid as (v & Hv & Hnull); [by vm_compute | ].
  vm_compute in Hv. by simplify_eq.
Qed.

(** That is the one case in which a record that the sanitizer returns
    breaks the invariant: the order is paid, its [processed_at] cannot be
    used, and its [created_at] is missing or [None]. Every other record
    that is returned meets it; a [processed_at] that can be used is kept
    whatever [created_at] is. *)
Lemma sanitizer_output_invariant (r r' : loc) (w w' : world) :
  fix_order_data_for_shopify r w = (Ret (Some r'), w') ->
  let d := heap w !!! r in
  let out := heap w' !!! r' in
  submittable out
  \/ (py_get d "financial_status" = JStr "paid"
      /\ (py_truthy (py_get d "processed_at") = false
          \/ py_get d "processed_at" = JStr "null")
      /\ py_get d "created_at" = JNull
      /\ out !! "processed_at" = Some JNull).
Proof.
  intros Hrun d out.
  destruct (written_cases d) as (Hset & Hkept & Hdeleted).
  destruct (fix_order_data_for_shopify_outcome r w)
    as [(Hres & _) | [(Hres & _) | (Hvoid & Hres & Hheap)]];
    rewrite Hrun in *; cbn [fst snd] in *; [done | done | ].
  fold d in Hres.
  destruct (py_truthy (py_get d "email")) eqn:Hemail; [ | done].
  injection Hres as <-.
  assert (Hout : out = default d (written d)).
  { subst out. rewrite Hheap. apply heap_after_lookup. }
  assert (Hkeys : forall k, k <> "processed_at" -> py_get out k = py_get d k).
  { intros k Hk. rewrite Hout. unfold py_get.
    destruct (written d) as [d' | ] eqn:Hwritten; [ | done].
    cbn [default from_option id]. by rewrite (written_other_keys d d' k). }
  assert (Hslip : py_get d "financial_status" = JStr "paid" ->
            py_truthy (py_get d "processed_at") = false
            \/ py_get d "processed_at" = JStr "null" ->
            submittable out
            \/ (py_get d "financial_status" = JStr "paid"
                /\ (py_truthy (py_get d "processed_at") = false
                    \/ py_get d "processed_at" = JStr "null")
                /\ py_get d "created_at" = JNull
                /\ out !! "processed_at" = Some JNull)).
  { intros Hpaid Hunusable.
    assert (out !! "processed_at" = Some (py_get d "created_at")) as Hset'.
    { rewrite Hout, (Hset Hpaid Hunusable). apply lookup_insert_eq. }
    destruct (py_get d "created_at") as [ | | | | | ] eqn:Hcreated;
      [by right | left .. ].
    all: unfold submittable; rewrite !Hkeys by done.
    all: split_and!; [done | by eexists | done]. }
  destruct (py_eq (py_get d "financial_status") (JStr "paid")) eqn:Hpaid.
  - apply py_eq_str in Hpaid.
    destruct (py_truthy (py_get d "processed_at")) eqn:Hprocessed;
      [ | by apply Hslip; [ | left]].
    destruct (py_eq (py_get d "processed_at") (JStr "null")) eqn:Hnull.
    + apply py_eq_str in Hnull. apply Hslip; [done | by right].
    + assert (py_get d "processed_at" <> JStr "null") as Hne.
      { intros Heq%py_eq_str. congruence. }
      left. unfold submittable. rewrite !Hkeys by done.
      split_and!; [done | | done].
      intros _. rewrite Hout, (Hkept Hpaid eq_refl Hne).
      exists (py_get d "processed_at").
      split; [by apply py_get_truthy_lookup | by apply py_truthy_not_null].
  - assert (py_get d "financial_status" <> JStr "paid") as Hne.
    { intros Heq%py_eq_str. congruence. }
    left. unfold submittable. rewrite !Hkeys by done.
    split_and!; [done | done | ].
    intros _. rewrite Hout. by apply Hdeleted.
Qed.

(** C6, as stated, fails: after the call on a pending order, the
    caller's record has lost its [processed_at]. *)
Lemma sanitizer_mutates_input :
  let w := world_with order_pending in
  let run := fix_order_data_for_shopify 1 w in
  run.1 = Ret (Some 1%positive)
  /\ (heap w !!! 1%positive) !! "processed_at" = Some (JStr "2024-01-02T00:00:00")
  /\ (heap run.2 !!! 1%positive) !! "processed_at" = None
  /\ heap run.2 !!! 1%positive <> heap w !!! 1%positive.
Proof.
  split_and!; [by vm_compute | by vm_compute | by vm_compute | ].
  intros Heq.
  apply (f_equal (fun d : dict => d !! "processed_at")) in Heq.
  vm_compute in Heq. discriminate.
Qed.

(** C6, amended. The sanitizer works in place on the caller's record.
    Besides logging, its only effect is on the key [processed_at] of that
    record: every other key of the record, every other object, the file,
    the clock and the request count are as before; a record that it
    returns is the caller's record itself; and a voided order, or one for
    which the call raises, is left as it was. What becomes of
    [processed_at] when the call does not raise: on a paid order it is
    set to [order.get('created_at')] when it counts as false (it is
    missing, [None] or empty) or is the string ["null"], and the order is
    left as it was when it holds anything else; on an order that is
    neither paid nor voided it is deleted. *)
Theorem sanitizer_effect (r : loc) (w : world) :
  let d := heap w !!! r in
  let run := fix_order_data_for_shopify r w in
  same_outside_heap w run.2
  /\ (forall r', r' <> r -> heap run.2 !! r' = heap w !! r')
  /\ (forall k, k <> "processed_at" -> (heap run.2 !!! r) !! k = d !! k)
  /\ (forall r', run.1 = Ret (Some r') -> r' = r)
  /\ (py_get d "financial_status" = JStr "voided" -> heap run.2 = heap w)
  /\ (forall e, run.1 = Raise e -> run.2 = w)
  /\ (py_get d "financial_status" = JStr "paid" ->
      py_truthy (py_get d "processed_at") = true ->
      py_get d "processed_at" <> JStr "null" ->
      heap run.2 = heap w)
  /\ (forall res, run.1 = Ret res ->
      py_get d "financial_status" = JStr "paid" ->
      py_truthy (py_get d "processed_at") = false
      \/ py_get d "processed_at" = JStr "null" ->
      (heap run.2 !!! r) !! "processed_at" = Some (py_get d "created_at"))
  /\ (forall res, run.1 = Ret res ->
      py_get d "financial_status" <> JStr "paid" ->
      py_get d "financial_status" <> JStr "voided" ->
      (heap run.2 !!! r) !! "processed_at" = None).
Proof.
  intros d run. subst run.
  split; [apply fix_order_data_for_shopify_frame | ].
  destruct (written_cases d) as (Hset & Hkept & Hdeleted).
  destruct (fix_order_data_for_shopify_outcome r w)
    as [(Hres & Hheap & Hvoided) | [(Hres & Hw & _) | (Hvoid & Hres & Hheap)]];
    fold d in Hres |- *.
  - fold d in Hvoided. rewrite Hres, Hheap. split_and!; try done.
    all: intros; congruence.
  - rewrite Hres, Hw. split_and!; try done.
  - fold d in Hvoid. rewrite Hres, Hheap.
    assert (Hafter : heap_after r w !!! r = default d (written d))
      by apply heap_after_lookup.
    split_and!.
    + intros r' Hr'. unfold heap_after. fold d.
      destruct (written d); [by rewrite lookup_insert_ne | done].
    + intros k Hk. rewrite Hafter.
      destruct (written d) as [d' | ] eqn:Hwritten; [ | done].
      by apply written_other_keys.
    + intros r'. by case_match; intros [= <-].
    + done.
    + done.
    + intros Hpaid Htruthy Hnull. unfold heap_after. fold d.
      by rewrite (Hkept Hpaid Htruthy Hnull).
    + intros res _ Hpaid Hunusable. rewrite Hafter, (Hset Hpaid Hunusable).
      apply lookup_insert_eq.
    + intros res _ Hpaid _. rewrite Hafter. by apply Hdeleted.
Qed.

(** C6, amended, on three orders. The pending order loses its
    [processed_at] and keeps its [email], and no other object appears;
    the paid order without [processed_at] gets that of [created_at]; the
    paid order with a [processed_at] is left as it was. *)
Lemma sanitizer_effect_witness :
  let w := world_with order_pending in
  let run := fix_order_data_for_shopify 1 w in
  let w_paid := world_with order_paid in
  let w_dated :=
    world_with (<["processed_at" := JStr "2024-03-05T10:00:00"]> order_paid_undated) in
  ((heap run.2 !!! 1%positive) !! "email" = Some (JStr "c@d.com")
   /\ heap run.2 !! 2%positive = None
   /\ (heap run.2 !!! 1%positive) !! "processed_at" = None)
  /\ (heap (fix_order_data_for_shopify 1 w_paid).2 !!! 1%positive) !! "processed_at"
     = Some (JStr "2024-01-01T00:00:00")
  /\ heap (fix_order_data_for_shopify 1 w_dated).2 = heap w_dated.
Proof.
  intros w run w_paid w_dated.
  pose proof (sanitizer_effect 1 w) as H. cbv zeta in H.
  destruct H as (_ & Hothers & Hkeys & _ & _ & _ & _ & _ & Hdeleted).
  pose proof (sanitizer_effect 1 w_paid) as H. cbv zeta in H.
  destruct H as (_ & _ & _ & _ & _ & _ & _ & Hset & _).
  pose proof (sanitizer_effect 1 w_dated) as H. cbv zeta in H.
  destruct H as (_ & _ & _ & _ & _ & _ & Hkept & _).
  split_and!.
  - subst run. rewrite (Hkeys "email"); [reflexivity | discriminate].
  - subst run. rewrite Hothers; [reflexivity | discriminate].
  - apply (Hdeleted (Some 1%positive));
      [reflexivity | discriminate | discriminate].
  - apply (Hset (Some 1%positive)); [reflexivity | reflexivity | by left].
  -     apply Hkept; [reflexivity | reflexivity | discriminate].
Defined.

(** C7. For a paid order whose [processed_at] is missing, [None], empty
    or the string ["null"]: a record that the sanitizer returns has
    [processed_at] equal to the order's [created_at]; and whenever the
    order's [woo_order_id] is absent or a number, the call does not raise,
    the record has that [processed_at] after it, and it is returned
    unless the [email] counts as empty. *)
Theorem sanitizer_paid_processed_at (r : loc) (w : world) :
  let d := heap w !!! r in
  let run := fix_order_data_for_shopify r w in
  py_get d "financial_status" = JStr "paid" ->
  d !! "processed_at" = None \/ d !! "processed_at" = Some JNull
  \/ d !! "processed_at" = Some (JStr "")
  \/ d !! "processed_at" = Some (JStr "null") ->
  (forall r', run.1 = Ret (Some r') ->
     (heap run.2 !!! r') !! "processed_at" = Some (py_get d "created_at"))
  /\ (forall dbg,
        py_le_int (py_get_default d "woo_order_id" (JInt 0)) 5 = Ret dbg ->
        (heap run.2 !!! r) !! "processed_at" = Some (py_get d "created_at")
        /\ run.1 = Ret (if py_truthy (py_get d "email") then Some r else None)).
Proof.
  intros d run Hpaid Hprocessed. subst run.
  assert (Hwritten : written d = Some (<["processed_at" := py_get d "created_at"]> d)).
  { unfold written. rewrite Hpaid. cbn [py_eq]. 
    replace (String.eqb "paid" "paid") with true by done.
    assert (negb (py_truthy (py_get d "processed_at"))
            || py_eq (py_get d "processed_at") (JStr "null") = true) as ->; [ | done].
    unfold py_get.
    destruct Hprocessed as [-> | [-> | [-> | ->]]]; done. }
  assert (Hafter : (heap_after r w !!! r) !! "processed_at"
                   = Some (py_get d "created_at")).
  { rewrite heap_after_lookup. fold d. rewrite Hwritten. cbn [from_option id].
    apply lookup_insert_eq. }
  destruct (fix_order_data_for_shopify_outcome r w)
    as [(Hres & _ & Hvoid) | [(Hres & _ & Hdbg) | (_ & Hres & Hheap)]].
  - fold d in Hvoid. rewrite Hvoid in Hpaid. discriminate.
  - fold d in Hdbg. rewrite Hres. split; [done | ].
    intros dbg Hdbg'. rewrite Hdbg in Hdbg'. discriminate.
  - fold d in Hres. rewrite Hres, Hheap. split.
    + intros r'. case_match; intros [= <-]. exact Hafter.
    + intros dbg _. by split.
Qed.

(** C7 on the paid order without [processed_at]. *)
Lemma sanitizer_paid_processed_at_witness :
  let run := fix_order_data_for_shopify 1 (world_with order_paid) in
  run.1 = Ret (Some 1%positive)
  /\ (heap run.2 !!! 1%positive) !! "processed_at"
     = Some (JStr "2024-01-01T00:00:00").
Proof.
  pose proof (sanitizer_paid_processed_at 1 (world_with order_paid)) as H.
  cbv zeta in H.
  destruct (H eq_refl (or_introl eq_refl)) as [_ Hrun].
  destruct (Hrun false eq_refl) as [Hprocessed Hres].
  split; [exact Hres | exact Hprocessed].
Defined.

(** ** Progress store *)

Lemma run_load_completed_orders (w : world) :
  load_completed_orders w = (Ret (completed w), w).
Proof. unfold load_completed_orders, completed. by repeat case_match. Qed.

Lemma run_save_completed_order (id : json) (w : world) :
  save_completed_order id w =
    if py_in id (completed w) then (Ret tt, w)
    else dump_progress (completed w ++ [id]) w.
Proof.
  unfold save_completed_order. rewrite run_bind, run_load_completed_orders.
  by destruct (py_in id (completed w)).
Qed.

Lemma completed_dump_progress (l : list json) (w : world) :
  completed (dump_progress l w).2 = l.
Proof. reflexivity. Qed.

Lemma py_in_app (x : json) (l1 l2 : list json) :
  py_in x (l1 ++ l2) = py_in x l1 || py_in x l2.
Proof. apply existsb_app. Qed.

Lemma py_in_singleton (x : json) : py_in x [x] = true.
Proof. unfold py_in. simpl. by rewrite py_eq_refl. Qed.

Lemma py_count_app (x : json) (l1 l2 : list json) :
  py_count x (l1 ++ l2) = (py_count x l1 + py_count x l2)%nat.
Proof. unfold py_count. by rewrite List.filter_app, length_app. Qed.

Lemma py_count_in (x : json) (l : list json) :
  py_in x l = negb (py_count x l =? 0)%nat.
Proof.
  unfold py_in, py_count. induction l as [ | y l IH]; simpl; [done | ].
  destruct (py_eq x y); simpl; [done | exact IH].
Qed.

(** The store after a recording holds the identifier. *)
Lemma save_completed_order_records (id : json) (w : world) :
  py_in id (completed (save_completed_order id w).2) = true.
Proof.
  rewrite run_save_completed_order.
  destruct (py_in id (completed w)) eqn:Hin; [done | ].
  rewrite completed_dump_progress, py_in_app, py_in_singleton.
  apply orb_true_r.
Qed.

(** C9. Recording an identifier that the store holds changes nothing, not
    even the time stamp of the file; so a second recording of the same
    identifier is a no-op, after it the stored list holds the identifier
    as often as after the first (once, unless the file already listed it
    several times), and starting without a file the list is the
    identifier alone. *)
Theorem save_completed_order_idempotent (id : json) (w : world) :
  let w1 := (save_completed_order id w).2 in
  let w2 := (save_completed_order id w1).2 in
  (forall w0, py_in id (completed w0) = true ->
     save_completed_order id w0 = (Ret tt, w0))
  /\ save_completed_order id w1 = (Ret tt, w1)
  /\ py_in id (completed w2) = true
  /\ py_count id (completed w2) = Nat.max 1 (py_count id (completed w))
  /\ (file w = NoFile -> completed w2 = [id] /\ length (completed w2) = 1%nat).
Proof.
  intros w1 w2.
  assert (Hpresent : forall w0, py_in id (completed w0) = true ->
            save_completed_order id w0 = (Ret tt, w0)).
  { intros w0 Hin. by rewrite run_save_completed_order, Hin. }
  assert (Hsecond : save_completed_order id w1 = (Ret tt, w1)).
  { apply Hpresent, save_completed_order_records. }
  assert (Hw2 : w2 = w1) by (subst w2; by rewrite Hsecond).
  split_and!; [done | done | | | ].
  - rewrite Hw2. apply save_completed_order_records.
  - rewrite Hw2. subst w1. rewrite run_save_completed_order.
    pose proof (py_count_in id (completed w)) as Hcount.
    destruct (py_in id (completed w)).
    + cbn [snd]. symmetry in Hcount. apply negb_true_iff, Nat.eqb_neq in Hcount.
      lia.
    + rewrite completed_dump_progress, py_count_app.
      symmetry in Hcount. apply negb_false_iff, Nat.eqb_eq in Hcount.
      rewrite Hcount. unfold py_count. simpl. by rewrite py_eq_refl.
  - intros Hfile. rewrite Hw2. subst w1. rewrite run_save_completed_order.
    assert (completed w = []) as -> by (unfold completed; by rewrite Hfile).
    done.
Qed.

(** C9 on the identifier 1001 and a state without progress file. *)
Lemma save_completed_order_idempotent_witness :
  let w := world_with order_paid in
  let w1 := (save_completed_order (JInt 1001) w).2 in
  let w2 := (save_completed_order (JInt 1001) w1).2 in
  w2 = w1 /\ completed w2 = [JInt 1001].
Proof.
  pose proof (save_completed_order_idempotent (JInt 1001) (world_with order_paid))
    as H.
  cbv zeta in H. destruct H as (_ & Hsecond & _ & _ & Hempty).
  split.
  - exact (f_equal snd Hsecond).
  - exact (proj1 (Hempty eq_refl)).
Defined.

(** ** Rate limiter *)

Lemma run_try_except {A} (body : M A) (handler : exn -> option (M A)) (w : world) :
  try_except body handler w =
    match body w with
    | (Ret a, w') => (Ret a, w')
    | (Raise e, w') =>
        match handler e with
        | Some h => h w'
        | None => (Raise e, w')
        end
    end.
Proof. reflexivity. Qed.

Lemma run_sleep (ms : Z) (w : world) :
  0 <= ms ->
  sleep ms w = (Ret tt, after_sleep w ms).
Proof. intros H. unfold sleep. by rewrite (proj2 (Z.ltb_ge ms 0) H). Qed.

Lemma unpack_limit_error (parts : list string) (e : exn) :
  unpack_limit parts = Raise e -> e = ValueError.
Proof. unfold unpack_limit. repeat case_match; congruence. Qed.

Lemma unpack_limit_two (a b : string) (current max_limit : Z) :
  py_int a = Ret current -> py_int b = Ret max_limit ->
  unpack_limit [a; b] = Ret (current, max_limit).
Proof. intros Ha Hb. unfold unpack_limit. by rewrite Ha, Hb. Qed.

(** The limiter on a header that parses, up to the choice of the wait. *)
Lemma run_check_rate_limit_parsed (hdrs : headers) (w : world) (current max_limit : Z) :
  unpack_limit (py_split "/" (default "0/40" (call_limit hdrs)))
    = Ret (current, max_limit) ->
  check_rate_limit_and_wait hdrs w =
    match true_div_check current max_limit with
    | Raise e => (Raise e, w)
    | Ret _ =>
        if 35 <=? current then
          (Ret (current, max_limit),
           after_sleep (log w [Print (MsgRateHigh current max_limit)]) 2000)
        else if 30 <=? current then
          (Ret (current, max_limit),
           after_sleep (log w [Print (MsgRateModerate current max_limit)]) 1000)
        else if 20 <=? current then (Ret (current, max_limit), after_sleep w 500)
        else (Ret (current, max_limit), after_sleep w 100)
    end.
Proof.
  intros Hparsed. unfold check_rate_limit_and_wait.
  rewrite run_try_except, run_bind, run_eval, Hparsed. cbv beta iota.
  rewrite run_bind, run_eval.
  unfold true_div_check.
  destruct (max_limit =? 0); [done | ].
  destruct (_ <=? Z.abs current); [done | ].
  cbv beta iota.
  destruct (35 <=? current); [by rewrite !run_bind, run_print | ].
  destruct (30 <=? current); [by rewrite !run_bind, run_print | ].
  by destruct (20 <=? current).
Qed.

(** The rate-limit scenario of the specification: the header ["38/40"]
    makes the limiter report and sleep two seconds. *)
Example check_rate_limit_38_of_40 :
  check_rate_limit_and_wait
    {| retry_after := None; call_limit := Some "38/40" |} world0
  = (Ret (38, 40), after_sleep (log world0 [Print (MsgRateHigh 38 40)]) 2000).
Proof. by vm_compute. Qed.

(** C10. The limiter is not total. On a header that splits into two
    integer literals the second of which is zero it raises
    [ZeroDivisionError] before it sleeps; the fallback (sleep 0.5 s,
    assume 0/40) is what it does on a header that does not parse, and on
    no header that parses. *)
Theorem rate_limiter_zero_max (hdrs : headers) (w : world) :
  let parsed :=
    unpack_limit (py_split "/" (default "0/40" (call_limit hdrs))) in
  (forall hdr a b current,
     call_limit hdrs = Some hdr -> py_split "/" hdr = [a; b] ->
     py_int a = Ret current -> py_int b = Ret 0 ->
     check_rate_limit_and_wait hdrs w = (Raise ZeroDivisionError, w))
  /\ (forall e, parsed = Raise e ->
        check_rate_limit_and_wait hdrs w = (Ret (0, 40), after_sleep w 500))
  /\ (forall current max_limit, parsed = Ret (current, max_limit) ->
        check_rate_limit_and_wait hdrs w <> (Ret (0, 40), after_sleep w 500)).
Proof.
  intros parsed. split_and!.
  - intros hdr a b current Hhdr Hsplit Ha Hb.
    rewrite (run_check_rate_limit_parsed hdrs w current 0).
    + done.
    + rewrite Hhdr. cbn [from_option id]. rewrite Hsplit.
      by apply unpack_limit_two.
  - intros e He. pose proof (unpack_limit_error _ _ He) as ->.
    unfold check_rate_limit_and_wait. fold parsed.
    rewrite run_try_except, run_bind, run_eval, He. cbv beta iota.
    by rewrite run_bind.
  - intros current max_limit Hparsed.
    rewrite (run_check_rate_limit_parsed hdrs w current max_limit Hparsed).
    destruct (true_div_check current max_limit); [ | done].
    destruct (35 <=? current) eqn:H35.
    { intros [= -> _]. done. }
    destruct (30 <=? current) eqn:H30.
    { intros [= -> _]. done. }
    destruct (20 <=? current) eqn:H20.
    { intros [= -> _]. done. }
    intros [= _ _ Hclock]. lia.
Qed.

(** C10 on the headers ["5/0"] and ["5/x"]. *)
Lemma rate_limiter_zero_max_witness :
  check_rate_limit_and_wait
    {| retry_after := None; call_limit := Some "5/0" |} (world_with ∅)
  = (Raise ZeroDivisionError, world_with ∅)
  /\ check_rate_limit_and_wait
       {| retry_after := None; call_limit := Some "5/x" |} (world_with ∅)
     = (Ret (0, 40), after_sleep (world_with ∅) 500).
Proof.
  split.
  - exact (proj1 (rate_limiter_zero_max
                    {| retry_after := None; call_limit := Some "5/0" |}
                    (world_with ∅))
             "5/0" "5" "0" 5 eq_refl eq_refl eq_refl eq_refl).
  - exact (proj1 (proj2 (rate_limiter_zero_max
                    {| retry_after := None; call_limit := Some "5/x" |}
                    (world_with ∅)))
             ValueError eq_refl).
Defined.

(** ** Upload client *)

Lemma run_post (srv : server) (endpoint : string) (data : dict)
    (cycle attempt : Z) (w : world) :
  post srv endpoint data cycle attempt w =
    (match srv (posts w) with
     | Responded r => Ret r
     | Failed e => Raise e
     end,
     after_post w (Post endpoint data cycle attempt)).
Proof. unfold post. by destruct (srv (posts w)). Qed.

(** One pass that is answered by a 429. *)
Lemma run_attempt_rate_limited (srv : server) (endpoint : string) (data : dict)
    (max_retries max_retry_cycles cycle attempt : Z) (w : world)
    (r : response) (seconds : Z) :
  srv (posts w) = Responded r ->
  status_code r = 429 ->
  retry_after_seconds r = Ret seconds ->
  0 <= seconds ->
  attempt_body srv endpoint data max_retries max_retry_cycles cycle attempt w =
    (Ret Next,
     after_sleep
       (log (after_post w (Post endpoint data cycle attempt))
          [Print (MsgRateLimited seconds)])
       (seconds * 1000)).
Proof.
  intros Hsrv Hstatus Hseconds Hpos. unfold attempt_body.
  rewrite run_try_except, run_bind, run_post, Hsrv. cbv beta iota.
  rewrite Hstatus. cbn [Z.eqb Pos.eqb].
  rewrite run_bind, run_eval, Hseconds. cbv beta iota.
  rewrite run_bind, run_print. cbv beta iota.
  by rewrite run_bind, run_sleep by lia.
Qed.

(** One pass that is answered by a 4xx or 5xx other than 429. *)
Lemma run_attempt_http_error (srv : server) (endpoint : string) (data : dict)
    (max_retries max_retry_cycles cycle attempt : Z) (w : world) (r : response) :
  srv (posts w) = Responded r ->
  400 <= status_code r < 600 ->
  status_code r <> 429 ->
  let e := HTTPError (status_code r) in
  let w1 :=
    log (after_post w (Post endpoint data cycle attempt))
      [Print (MsgApiError (status_code r));
       Print (MsgAttemptFailed (cycle + 1) (attempt + 1) e)] in
  attempt_body srv endpoint data max_retries max_retry_cycles cycle attempt w =
    if attempt <? max_retries - 1 then
      (Ret Next,
       after_sleep (log w1 [Print (MsgBackoff (2 ^ attempt))])
         (2 ^ attempt * 1000))
    else if cycle <? max_retry_cycles - 1 then
      (Ret Break, after_sleep (log w1 [Print (MsgNewCycle max_retries)]) 10000)
    else
      (Raise e,
       log w1 [Print (MsgExhausted (py_get_default data "id" (JStr "unknown")))]).
Proof.
  intros Hsrv [Hlo Hhi] Hne e w1. unfold attempt_body.
  rewrite run_try_except, run_bind, run_post, Hsrv. cbv beta iota.
  rewrite (proj2 (Z.eqb_neq _ _) Hne).
  assert ((status_code r =? 200) = false) as -> by lia.
  rewrite (proj2 (Z.leb_le _ _) Hlo).
  unfold when, raise_for_status.
  rewrite (proj2 (Z.leb_le _ _) Hlo), (proj2 (Z.ltb_lt _ _) Hhi).
  cbn [andb].
  rewrite !run_bind, run_ret. cbv beta iota.
  rewrite !run_bind, run_print. cbv beta iota. unfold raise at 1.
  cbn [is_RequestException].
  rewrite run_bind, run_print. cbv beta iota.
  destruct (attempt <? max_retries - 1).
  { rewrite run_bind, run_print. cbv beta iota.
    assert (0 <= 2 ^ attempt * 1000) by (pose proof (Z.pow_nonneg 2 attempt); lia).
    rewrite run_bind, run_sleep by done. subst w1. by rewrite !log_log. }
  destruct (cycle <? max_retry_cycles - 1).
  { rewrite run_bind, run_print. cbv beta iota.
    rewrite run_bind, run_sleep by done. subst w1. by rewrite !log_log. }
  rewrite run_bind, run_print. cbv beta iota. subst w1. by rewrite !log_log.
Qed.

(** A loop whose passes all run to their end runs to its end. *)
Lemma for_each_all_next {I A} (body : I -> M (flow A)) (n : nat) (l : list I) :
  (forall i w, (body i w).1 = Ret Next /\ posts (body i w).2 = (posts w + n)%nat) ->
  forall w,
    (for_each l body w).1 = Ret None
    /\ posts (for_each l body w).2 = (posts w + length l * n)%nat.
Proof.
  intros Hbody. induction l as [ | i l IH]; intros w.
  - cbn. split; [done | lia].
  - cbn [for_each]. rewrite run_bind.
    destruct (Hbody i w) as [Hres Hposts].
    destruct (body i w) as [res w1]. cbn [fst snd] in *. subst res.
    destruct (IH w1) as [IHres IHposts].
    split; [done | ]. rewrite IHposts, Hposts. cbn [length]. lia.
Qed.

Lemma length_py_range (n : Z) : length (py_range n) = Z.to_nat n.
Proof. unfold py_range. by rewrite length_map, length_seq. Qed.

(** Against such a server the client makes its
    [max_retry_cycles * max_retries] requests and then returns [None]: no
    exception reaches the caller. *)
Lemma upload_rate_limited_forever (srv : server) (endpoint : string)
    (data : dict) (max_retries max_retry_cycles : Z) (w : world) (dbg : bool) :
  rate_limits_forever srv ->
  py_le_int (py_get_default data "woo_order_id" (JInt 0)) 3 = Ret dbg ->
  let run := upload_to_shopify srv endpoint data max_retries max_retry_cycles w in
  run.1 = Ret None
  /\ posts run.2 = (posts w + Z.to_nat max_retry_cycles * Z.to_nat max_retries)%nat.
Proof.
  intros Hsrv Hdbg run. subst run. unfold upload_to_shopify.
  rewrite run_bind, run_eval, Hdbg. cbv beta iota.
  rewrite run_bind, (run_when dbg _ _ _ (run_print _ _)). cbv beta iota.
  assert (Hattempt : forall cycle attempt w1,
    (attempt_body srv endpoint data max_retries max_retry_cycles cycle attempt w1).1
      = Ret Next
    /\ posts (attempt_body srv endpoint data max_retries max_retry_cycles
                cycle attempt w1).2 = (posts w1 + 1)%nat).
  { intros cycle attempt w1.
    destruct (Hsrv (posts w1)) as (r & seconds & Hr & Hstatus & Hseconds & Hpos).
    rewrite (run_attempt_rate_limited _ _ _ _ _ _ _ _ r seconds) by done.
    cbn. split; [done | lia]. }
  assert (Hcycle : forall cycle w1,
    (cycle_body srv endpoint data max_retries max_retry_cycles cycle w1).1
      = Ret Next
    /\ posts (cycle_body srv endpoint data max_retries max_retry_cycles
                cycle w1).2 = (posts w1 + Z.to_nat max_retries)%nat).
  { intros cycle w1. unfold cycle_body. rewrite run_bind.
    destruct (for_each_all_next _ 1 (py_range max_retries) (Hattempt cycle) w1)
      as [Hres Hposts].
    destruct (for_each _ _ w1) as [res w2]. cbn [fst snd] in *. subst res.
    rewrite length_py_range in Hposts. cbn. split; [done | lia]. }
  match goal with
  | |- context [for_each _ _ ?w1] =>
      destruct (for_each_all_next _ _ (py_range max_retry_cycles) Hcycle w1)
        as [Hres Hposts]
  end.
  rewrite length_py_range in Hposts. split; [exact Hres | exact Hposts].
Qed.

Lemma always_rate_limited_forever : rate_limits_forever always_rate_limited.
Proof. intros n. exists rate_limited, 5. by split_and!. Qed.

(** C1, the failing input. Against a server that answers every request
    with a 429, the call for an order makes fifteen requests, sleeps 5 s
    after each, reports no failure, and returns [None]: it has not
    succeeded and it does not raise. *)
Theorem upload_returns_none_when_rate_limited :
  let run := upload_to_shopify always_rate_limited "orders" order_paid 3 5 world0 in
  run.1 = Ret None /\ posts run.2 = 15%nat /\ clock run.2 = 75000
  /\ existsb reports_failure (trace run.2) = false.
Proof.
  pose proof (upload_rate_limited_forever always_rate_limited "orders"
                order_paid 3 5 world0 false always_rate_limited_forever eq_refl)
    as [Hres Hposts].
  split_and!; [exact Hres | exact Hposts | by vm_compute | by vm_compute].
Qed.

(** C3, the failing input. The first request is answered by a 429, the
    second fails in transport, the third succeeds. After the 429 the
    client sleeps the default 5 s and goes on with attempt index 1: the
    transport failure is reported as attempt 2 of cycle 1 and backed off
    [2^1] seconds, as the second attempt of the cycle. *)
Theorem rate_limited_attempt_consumes_slot :
  let run := upload_to_shopify rate_limited_then_down "orders" order_paid 3 5 world0 in
  run.1 = Ret (Some (JObj [("order", JObj [("id", JInt 450789469)])]))
  /\ trace run.2 =
       [Post "orders" order_paid 0 0; Print (MsgRateLimited 5); Sleep 5000;
        Post "orders" order_paid 0 1;
        Print (MsgAttemptFailed 1 2 ConnectionError); Print (MsgBackoff 2);
        Sleep 2000;
        Post "orders" order_paid 0 2].
Proof. split; by vm_compute. Qed.

(** After a pass that was answered by a 429, the loop goes on with the
    attempts that are left: the index of the pass is used up. *)
Lemma for_each_rate_limited (srv : server) (endpoint : string) (data : dict)
    (max_retries max_retry_cycles cycle attempt : Z) (rest : list Z)
    (w : world) (r : response) (seconds : Z) :
  srv (posts w) = Responded r ->
  status_code r = 429 ->
  retry_after_seconds r = Ret seconds ->
  0 <= seconds ->
  for_each (attempt :: rest)
    (attempt_body srv endpoint data max_retries max_retry_cycles cycle) w =
  for_each rest
    (attempt_body srv endpoint data max_retries max_retry_cycles cycle)
    (after_sleep
       (log (after_post w (Post endpoint data cycle attempt))
          [Print (MsgRateLimited seconds)])
       (seconds * 1000)).
Proof.
  intros Hsrv Hstatus Hseconds Hpos. cbn [for_each].
  by rewrite run_bind,
    (run_attempt_rate_limited _ _ _ _ _ _ _ _ r seconds) by done.
Qed.

(** C2, as stated, fails: after a 500 the client waits one second, sends
    the request again, and returns the body of the second answer. *)
Lemma http_error_is_retried :
  let run := upload_to_shopify error_then_created "orders" order_paid 3 5 world0 in
  run.1 = Ret (Some (JObj [("order", JObj [("id", JInt 450789469)])]))
  /\ trace run.2 =
       [Post "orders" order_paid 0 0; Print (MsgApiError 500);
        Print (MsgAttemptFailed 1 1 (HTTPError 500)); Print (MsgBackoff 1);
        Sleep 1000;
        Post "orders" order_paid 0 1]
  /\ ~ http_error_is_terminal error_then_created order_paid world0.
Proof.
  split_and!; [by vm_compute | by vm_compute | ].
  intros Hterminal.
  destruct (Hterminal server_error eq_refl) as (e & w' & Hrun & _);
    [done | done | ].
  apply (f_equal fst) in Hrun. vm_compute in Hrun. discriminate.
Qed.

(** C2, amended. When a request is answered with a status from 400 to
    599 other than 429, the client logs the error and raises [HTTPError]
    inside its [try]; its own handler catches it, so the failure uses up
    the attempt like a transport failure: unless it was the last attempt
    of the cycle the client backs off [2^attempt] seconds and goes on
    with the remaining attempts; after the last attempt of a cycle that
    is not the last it sleeps 10 s and the cycle ends; only on the last
    attempt of the last cycle does the exception reach the caller. *)
Theorem http_error_consumes_attempt (srv : server) (endpoint : string)
    (data : dict) (max_retries max_retry_cycles cycle attempt : Z)
    (w : world) (r : response) :
  srv (posts w) = Responded r ->
  400 <= status_code r < 600 ->
  status_code r <> 429 ->
  let body := attempt_body srv endpoint data max_retries max_retry_cycles in
  let e := HTTPError (status_code r) in
  let w1 :=
    log (after_post w (Post endpoint data cycle attempt))
      [Print (MsgApiError (status_code r));
       Print (MsgAttemptFailed (cycle + 1) (attempt + 1) e)] in
  let w2 :=
    after_sleep (log w1 [Print (MsgBackoff (2 ^ attempt))]) (2 ^ attempt * 1000) in
  (attempt < max_retries - 1 ->
     body cycle attempt w = (Ret Next, w2)
     /\ forall rest,
          for_each (attempt :: rest) (body cycle) w = for_each rest (body cycle) w2)
  /\ (max_retries - 1 <= attempt -> cycle < max_retry_cycles - 1 ->
       body cycle attempt w =
         (Ret Break, after_sleep (log w1 [Print (MsgNewCycle max_retries)]) 10000))
  /\ (max_retries - 1 <= attempt -> max_retry_cycles - 1 <= cycle ->
       body cycle attempt w =
         (Raise e,
          log w1 [Print (MsgExhausted (py_get_default data "id" (JStr "unknown")))])).
Proof.
  intros Hsrv Hstatus Hne body e w1 w2.
  pose proof (run_attempt_http_error srv endpoint data max_retries
                max_retry_cycles cycle attempt w r Hsrv Hstatus Hne) as Hrun.
  cbv zeta in Hrun. fold body e w1 in Hrun. split_and!.
  - intros Hlt. rewrite (proj2 (Z.ltb_lt _ _) Hlt) in Hrun.
    split; [exact Hrun | ].
    intros rest. cbn [for_each]. by rewrite run_bind, Hrun.
  - intros Hge Hlt.
    by rewrite (proj2 (Z.ltb_ge _ _) Hge), (proj2 (Z.ltb_lt _ _) Hlt) in Hrun.
  - intros Hge Hge'.
    by rewrite (proj2 (Z.ltb_ge _ _) Hge), (proj2 (Z.ltb_ge _ _) Hge') in Hrun.
Qed.

(** C2, amended, on the first pass against a server that answers 500. *)
Lemma http_error_consumes_attempt_witness :
  attempt_body error_then_created "orders" order_paid 3 5 0 0 world0 =
    (Ret Next,
     {| heap := ∅; file := NoFile; clock := 1000; posts := 1;
        trace :=
          [Post "orders" order_paid 0 0; Print (MsgApiError 500);
           Print (MsgAttemptFailed 1 1 (HTTPError 500)); Print (MsgBackoff 1);
           Sleep 1000] |}).
Proof.
  refine (proj1 (proj1 (http_error_consumes_attempt error_then_created "orders"
                   order_paid 3 5 0 0 world0 server_error eq_refl _ _) _)).
  - cbn. lia.
  - discriminate.
  - reflexivity.
Defined.

(** ** Calls that leave the progress file alone *)

Lemma keeps_file_ret {A} (a : A) : keeps_file (ret a).
Proof. done. Qed.

Lemma keeps_file_raise {A} (e : exn) : keeps_file (@raise A e).
Proof. done. Qed.

Lemma keeps_file_eval {A} (r : result A) : keeps_file (eval r).
Proof. done. Qed.

Lemma keeps_file_print (m : message) : keeps_file (print m).
Proof. done. Qed.

Lemma keeps_file_sleep (ms : Z) : keeps_file (sleep ms).
Proof. intros w. unfold sleep. by destruct (ms <? 0). Qed.

Lemma keeps_file_post srv endpoint data cycle attempt :
  keeps_file (post srv endpoint data cycle attempt).
Proof. intros w. by rewrite run_post. Qed.

Lemma keeps_file_bind {A B} (m : M A) (k : A -> M B) :
  keeps_file m -> (forall a, keeps_file (k a)) -> keeps_file (m ≫= k).
Proof.
  intros Hm Hk w. rewrite run_bind. specialize (Hm w).
  destruct (m w) as [[a | e] w1]; cbn [snd] in *; [ | done].
  by rewrite Hk.
Qed.

Lemma keeps_file_when (c : bool) (m : M unit) :
  keeps_file m -> keeps_file (when c m).
Proof. intros Hm. by destruct c. Qed.

Lemma keeps_file_try_except {A} (body : M A) (handler : exn -> option (M A)) :
  keeps_file body ->
  (forall e h, handler e = Some h -> keeps_file h) ->
  keeps_file (try_except body handler).
Proof.
  intros Hbody Hhandler w. rewrite run_try_except. specialize (Hbody w).
  destruct (body w) as [[a | e] w1]; cbn [snd] in *; [done | ].
  destruct (handler e) as [h | ] eqn:Hh; [ | done].
  by rewrite (Hhandler e h Hh).
Qed.

Lemma keeps_file_for_each {I A} (l : list I) (body : I -> M (flow A)) :
  (forall i, keeps_file (body i)) -> keeps_file (for_each l body).
Proof.
  intros Hbody. induction l as [ | i l IH]; [done | ].
  cbn [for_each]. apply keeps_file_bind; [done | ].
  by intros [ | | a].
Qed.

Ltac keeps_file_step :=
  first
    [ apply keeps_file_ret | apply keeps_file_raise | apply keeps_file_eval
    | apply keeps_file_print | apply keeps_file_sleep | apply keeps_file_post
    | apply keeps_file_when
    | apply keeps_file_bind; [ | intros ? ]
    | match goal with
      | |- keeps_file (if ?c then _ else _) => destruct c
      | |- keeps_file (match ?x with _ => _ end) => destruct x
      end ].

Lemma keeps_file_check_rate_limit_and_wait (hdrs : headers) :
  keeps_file (check_rate_limit_and_wait hdrs).
Proof.
  apply keeps_file_try_except.
  - repeat keeps_file_step.
  - intros e h. destruct e; intros [= <-]; repeat keeps_file_step.
Qed.

Lemma keeps_file_upload_to_shopify srv endpoint data max_retries max_retry_cycles :
  keeps_file (upload_to_shopify srv endpoint data max_retries max_retry_cycles).
Proof.
  unfold upload_to_shopify.
  apply keeps_file_bind; [apply keeps_file_eval | intros dbg].
  apply keeps_file_bind; [apply keeps_file_when, keeps_file_print | intros _].
  apply keeps_file_for_each. intros cycle. unfold cycle_body.
  apply keeps_file_bind; [ | intros r; destruct r; apply keeps_file_ret].
  apply keeps_file_for_each. intros attempt. unfold attempt_body.
  apply keeps_file_try_except.
  - keeps_file_step; [apply keeps_file_post | ].
    keeps_file_step; [repeat keeps_file_step | ].
    keeps_file_step.
    { apply keeps_file_when. apply keeps_file_bind; [ | intros; apply keeps_file_ret].
      apply keeps_file_check_rate_limit_and_wait. }
    keeps_file_step.
    { apply keeps_file_when. keeps_file_step; [apply keeps_file_print | ].
      unfold raise_for_status. repeat keeps_file_step. }
    repeat keeps_file_step.
  - intros e h. destruct (is_RequestException e); intros [= <-].
    repeat keeps_file_step.
Qed.

(** ** Batch orchestrator *)

Lemma completed_file (w w' : world) : file w' = file w -> completed w' = completed w.
Proof. unfold completed. by intros ->. Qed.

Lemma save_completed_order_returns (id : json) (w : world) :
  (save_completed_order id w).1 = Ret tt.
Proof. rewrite run_save_completed_order. by destruct (py_in _ _). Qed.

(** One pass of the orders loop, by the outcome of the upload call. *)
Lemma run_process_item_orders (srv : server) (completed_orders : list json)
    (total_items : nat) (successes : Z) (item : dict) (w : world) :
  let id := py_get item "woo_order_id" in
  process_item srv "orders" completed_orders total_items successes item w =
    if py_in id completed_orders then
      (Ret (successes + 1), log w [Print (MsgSkipCompleted id)])
    else
      match upload_to_shopify srv "orders" item 3 5
              (log w [Print (MsgProcessing "orders" (successes + 1) total_items)])
      with
      | (Raise e, w1) =>
          (Ret successes,
           log w1 [Print (MsgFailed (py_get_default item "id" (JStr "unknown")) e)])
      | (Ret _, w1) =>
          (Ret (successes + 1),
           log (if py_truthy id then
                  log (save_completed_order id w1).2 [Print (MsgProgressSaved id)]
                else w1)
             (if (0 <? successes + 1) && ((successes + 1) mod 100 =? 0) then
                [Print (MsgProgress (successes + 1) total_items)]
              else []))
      end.
Proof.
  intros id. unfold process_item. fold id.
  change (String.eqb "orders" "orders") with true.
  change (String.eqb "orders" "customers") with false.
  cbn [andb]. rewrite run_try_except.
  destruct (py_in id completed_orders).
  { by rewrite run_bind, run_print. }
  rewrite run_bind, run_print. cbv beta iota. rewrite run_bind.
  destruct (upload_to_shopify _ _ _ _ _ _) as [[result | e] w1].
  - rewrite run_bind.
    destruct (py_truthy id).
    + cbn [when]. rewrite run_bind.
      pose proof (save_completed_order_returns id w1) as Hsave.
      destruct (save_completed_order id w1) as [res w2]. cbn [fst snd] in *.
      subst res. rewrite run_print. cbv beta iota. cbv zeta.
      rewrite run_bind. erewrite run_when by apply run_print. done.
    + cbn [when]. rewrite run_ret. cbv beta iota. cbv zeta.
      rewrite run_bind. erewrite run_when by apply run_print. done.
  - by rewrite run_bind, run_print.
Qed.

Lemma grows_by_same (items : list dict) (w w' : world) :
  file w' = file w -> grows_by items w w'.
Proof.
  intros Hfile. exists nil. split; [ | done].
  by rewrite app_nil_r, (completed_file _ _ Hfile).
Qed.

Lemma grows_by_trans (items : list dict) (w1 w2 w3 : world) :
  grows_by items w1 w2 -> grows_by items w2 w3 -> grows_by items w1 w3.
Proof.
  intros (s1 & H1 & Hs1) (s2 & H2 & Hs2). exists (s1 ++ s2)%list. split.
  - by rewrite H2, H1, app_assoc.
  - by apply Forall_app.
Qed.

Lemma grows_by_save (items : list dict) (item : dict) (w : world) :
  item ∈ items -> py_truthy (py_get item "woo_order_id") = true ->
  grows_by items w (save_completed_order (py_get item "woo_order_id") w).2.
Proof.
  intros Hitem Htruthy. rewrite run_save_completed_order.
  destruct (py_in _ _); [by apply grows_by_same | ].
  exists [py_get item "woo_order_id"]. split; [done | ].
  constructor; [ | done]. split; [done | by exists item].
Qed.

Lemma grows_by_process_item (srv : server) (items : list dict)
    (completed_orders : list json) (total_items : nat) (successes : Z)
    (item : dict) (w : world) :
  item ∈ items ->
  grows_by items w
    (process_item srv "orders" completed_orders total_items successes item w).2.
Proof.
  intros Hitem. rewrite run_process_item_orders. cbv zeta.
  destruct (py_in _ completed_orders); [by apply grows_by_same | ].
  pose proof (keeps_file_upload_to_shopify srv "orders" item 3 5
                (log w [Print (MsgProcessing "orders" (successes + 1) total_items)]))
    as Hfile.
  destruct (upload_to_shopify _ _ _ _ _ _) as [[result | e] w1];
    cbn [fst snd] in *; [ | by apply grows_by_same].
  destruct (py_truthy (py_get item "woo_order_id")) eqn:Htruthy;
    [ | by apply grows_by_same].
  apply (grows_by_trans _ _ w1); [by apply grows_by_same | ].
  apply (grows_by_trans _ _ (save_completed_order (py_get item "woo_order_id") w1).2);
    [by apply grows_by_save | by apply grows_by_same].
Qed.

Lemma grows_by_for_fold {I S} (items : list dict) (l : list I)
    (body : S -> I -> M S) :
  (forall acc i w, i ∈ l -> grows_by items w (body acc i w).2) ->
  forall acc w, grows_by items w (for_fold l body acc w).2.
Proof.
  induction l as [ | i l IH]; intros Hbody acc w.
  - by apply grows_by_same.
  - cbn [for_fold]. rewrite run_bind.
    pose proof (Hbody acc i w (list_elem_of_here _ _)) as Hi.
    destruct (body acc i w) as [[acc' | e] w1]; cbn [snd] in *; [ | done].
    apply (grows_by_trans _ _ w1); [done | ].
    apply IH. intros acc0 i0 w0 Hi0. apply Hbody. by apply list_elem_of_further.
Qed.

Lemma elem_of_py_slice {A} (l : list A) (i j : Z) (x : A) :
  x ∈ py_slice l i j -> x ∈ l.
Proof.
  unfold py_slice. intros H.
  apply (subseteq_drop (Z.to_nat i) l). by apply (subseteq_take (Z.to_nat (j - i)) _).
Qed.

Lemma grows_by_batch_upload (srv : server) (items : list dict) (batch_size : Z)
    (resume_mode : bool) (w : world) :
  grows_by items w (batch_upload srv "orders" items batch_size resume_mode w).2.
Proof.
  unfold batch_upload. rewrite run_bind.
  change (String.eqb "orders" "orders") with true. cbn [andb].
  match goal with
  | |- context [(if resume_mode then ?a else ?b) w] =>
      assert (exists completed_orders w1,
                (if resume_mode then a else b) w = (Ret completed_orders, w1)
                /\ file w1 = file w)
        as (completed_orders & w1 & -> & Hw1)
  end.
  { destruct resume_mode.
    - rewrite run_bind, run_load_completed_orders. cbv beta iota.
      rewrite run_bind, run_print. by eexists _, _.
    - by eexists _, _. }
  rewrite run_bind, run_print. cbv beta iota. rewrite run_bind, run_eval.
  destruct (py_range_step _ _) as [starts | e]; [ | by apply grows_by_same].
  rewrite run_bind.
  match goal with
  | |- context [for_fold starts ?body 0 ?w2] =>
      assert (Hfold : grows_by items w2 (for_fold starts body 0 w2).2);
      [ | destruct (for_fold starts body 0 w2) as [[successes | e] w3] ]
  end.
  - apply grows_by_for_fold. intros acc i w2 _.
    apply grows_by_for_fold. intros acc' item w3 Hitem.
    apply grows_by_process_item. by apply elem_of_py_slice in Hitem.
  - cbn [snd] in Hfold. rewrite run_bind, run_print.
    apply (grows_by_trans _ _ (log w1 [Print (MsgStarting "orders" (length items))]));
      [by apply grows_by_same | ].
    apply (grows_by_trans _ _ w3); [done | by apply grows_by_same].
  - cbn [snd] in Hfold.
    apply (grows_by_trans _ _ (log w1 [Print (MsgStarting "orders" (length items))]));
      [by apply grows_by_same | done].
Qed.

(** C4, as stated, fails: an order whose [woo_order_id] is [0], or one
    that has none, is uploaded and counted, and nothing is recorded for
    it. *)
Lemma uploaded_order_not_recorded :
  let run := batch_upload always_created "orders"
               [order_zero_source_id; order_without_source_id] 5 false world0 in
  run.1 = Ret 2 /\ posts run.2 = 2%nat /\ file run.2 = NoFile
  /\ ~ recorded_iff_uploaded always_created order_zero_source_id world0
  /\ ~ recorded_iff_uploaded always_created order_without_source_id world0.
Proof.
  split_and!; [by vm_compute | by vm_compute | by vm_compute | | ].
  - intros [_ Hrecorded].
    assert (py_in (py_get order_zero_source_id "woo_order_id")
              (completed (process_item always_created "orders" [] 1 0
                            order_zero_source_id world0).2) = true) as Hin.
    { apply Hrecorded. eexists. by vm_compute. }
    vm_compute in Hin. discriminate.
  - intros [_ Hrecorded].
    assert (py_in (py_get order_without_source_id "woo_order_id")
              (completed (process_item always_created "orders" [] 1 0
                            order_without_source_id world0).2) = true) as Hin.
    { apply Hrecorded. eexists. by vm_compute. }
    vm_compute in Hin. discriminate.
Qed.

(** C4, amended. In a run over orders, a pass that skips its order as
    completed, or whose upload call raises, leaves the progress file as
    it was. When the upload call returns a parsed body and the order's
    [woo_order_id] counts as true, the identifier is recorded in the same
    pass, in the state the upload call ended in, so the store holds it
    when the pass ends; an order whose [woo_order_id] is missing, [None]
    or [0] is not recorded. Over a whole run the stored list only grows,
    by such identifiers of items of the run. *)
Theorem batch_records_after_upload (srv : server) (items : list dict)
    (batch_size : Z) (resume_mode : bool) (completed_orders : list json)
    (total_items : nat) (successes : Z) (item : dict) (w : world) :
  let id := py_get item "woo_order_id" in
  let pass := process_item srv "orders" completed_orders total_items successes item w in
  let upload :=
    upload_to_shopify srv "orders" item 3 5
      (log w [Print (MsgProcessing "orders" (successes + 1) total_items)]) in
  (py_in id completed_orders = true -> file pass.2 = file w)
  /\ (py_in id completed_orders = false ->
      (forall e, upload.1 = Raise e -> file pass.2 = file w)
      /\ (forall body, upload.1 = Ret (Some body) -> py_truthy id = true ->
            file pass.2 = file (save_completed_order id upload.2).2
            /\ py_in id (completed pass.2) = true)
      /\ (forall body, upload.1 = Ret (Some body) -> py_truthy id = false ->
            file pass.2 = file w))
  /\ grows_by items w (batch_upload srv "orders" items batch_size resume_mode w).2.
Proof.
  intros id pass upload. subst pass.
  rewrite run_process_item_orders. cbv zeta. fold id upload.
  pose proof (keeps_file_upload_to_shopify srv "orders" item 3 5
                (log w [Print (MsgProcessing "orders" (successes + 1) total_items)]))
    as Hfile.
  fold upload in Hfile. cbn [file log] in Hfile.
  split_and!.
  - by intros ->.
  - intros ->. destruct upload as [[result | e] w1]; cbn [fst snd] in *; split_and!.
    + by intros e [=].
    + intros body _ ->. cbn [file log]. split; [done | ].
      erewrite completed_file; [apply save_completed_order_records | done].
    + by intros body _ ->.
    + done.
    + by intros body [=].
    + by intros body [=].
  - apply grows_by_batch_upload.
Qed.

(** C4, amended, on the pass over the paid order against a server that
    creates it. *)
Lemma batch_records_after_upload_witness :
  let pass := process_item always_created "orders" [] 1 0 order_paid world0 in
  file pass.2 = Progress (Some [JInt 1001]) 0
  /\ py_in (JInt 1001) (completed pass.2) = true.
Proof.
  pose proof (batch_records_after_upload always_created [order_paid] 5 false []
                1 0 order_paid world0) as H.
  cbv zeta in H. destruct H as (_ & Hpass & _).
  destruct (Hpass eq_refl) as (_ & Hrecorded & _).
  exact (Hrecorded (JObj [("order", JObj [("id", JInt 450789469)])])
           eq_refl eq_refl).
Defined.

(** The same pass against a server that answers every request with a
    429: the upload call returns [None], and the order is counted and
    recorded although no request succeeded. *)
Lemma rate_limited_order_is_recorded :
  let run := batch_upload always_rate_limited "orders" [order_paid] 5 false world0 in
  run.1 = Ret 1 /\ posts run.2 = 15%nat
  /\ file run.2 = Progress (Some [JInt 1001]) 75000.
Proof. split_and!; by vm_compute. Qed.

(** The resume scenario of the specification: with the identifier 1001
    in the store, a resumed run over the orders 1001 and 1002 sends one
    request, for the second order, reports two successes and has both
    identifiers in the store. *)
Example batch_upload_resumes :
  let w :=
    {| heap := ∅; file := Progress (Some [JInt 1001]) 0; clock := 10;
       posts := 0; trace := [] |} in
  let run := batch_upload always_created "orders" [order_paid; order_pending] 5
               true w in
  run.1 = Ret 2 /\ posts run.2 = 1%nat
  /\ file run.2 = Progress (Some [JInt 1001; JInt 1002]) 10
  /\ trace run.2 =
       [Print (MsgFoundCompleted 1); Print (MsgStarting "orders" 2);
        Print (MsgSkipCompleted (JInt 1001));
        Print (MsgProcessing "orders" 2 2);
        Post "orders" order_pending 0 0;
        Print (MsgProgressSaved (JInt 1002)); Print (MsgUploaded 2 2)].
Proof. split_and!; by vm_compute. Qed.

(** ** Calls as steps of a relation *)

Lemma steps_weaken {A} (R R' : relation world) (m : M A) :
  (forall w w', R w w' -> R' w w') -> steps R m -> steps R' m.
Proof. intros HR Hm w. apply HR, Hm. Qed.

(** Two calls in sequence, each with a relation of its own. *)
Lemma steps_bind_with {A B} (R1 R2 R : relation world) (m : M A) (k : A -> M B) :
  (forall w w', R1 w w' -> R w w') ->
  (forall w1 w2 w3, R1 w1 w2 -> R2 w2 w3 -> R w1 w3) ->
  steps R1 m -> (forall a, steps R2 (k a)) -> steps R (m ≫= k).
Proof.
  intros Hraise Hcomp Hm Hk w. rewrite run_bind.
  specialize (Hm w). destruct (m w) as [[a | e] w1]; cbn [snd] in *.
  - eapply Hcomp; [exact Hm | apply Hk].
  - by apply Hraise.
Qed.

Lemma steps_try_except_with {A} (R1 R2 R : relation world) (body : M A)
    (handler : exn -> option (M A)) :
  (forall w w', R1 w w' -> R w w') ->
  (forall w1 w2 w3, R1 w1 w2 -> R2 w2 w3 -> R w1 w3) ->
  steps R1 body ->
  (forall e h, handler e = Some h -> steps R2 h) ->
  steps R (try_except body handler).
Proof.
  intros Hsame Hcomp Hbody Hhandler w. rewrite run_try_except.
  specialize (Hbody w). destruct (body w) as [[a | e] w1]; cbn [snd] in *.
  - by apply Hsame.
  - destruct (handler e) as [h | ] eqn:He; cbn [snd].
    + eapply Hcomp; [exact Hbody | by apply (Hhandler e h)].
    + by apply Hsame.
Qed.

Section Steps.

Context (R : relation world) `{!PreOrder R}.

Lemma steps_ret {A} (a : A) : steps R (ret a).
Proof. intros w. reflexivity. Qed.

Lemma steps_mret {A} (a : A) : steps R (mret a).
Proof. intros w. reflexivity. Qed.

Lemma steps_raise {A} (e : exn) : steps R (@raise A e).
Proof. intros w. reflexivity. Qed.

Lemma steps_eval {A} (r : result A) : steps R (eval r).
Proof. intros w. reflexivity. Qed.

Lemma steps_dict_get r k : steps R (dict_get r k).
Proof. intros w. reflexivity. Qed.

Lemma steps_dict_get_default r k dflt : steps R (dict_get_default r k dflt).
Proof. intros w. reflexivity. Qed.

Lemma steps_dict_contains r k : steps R (dict_contains r k).
Proof. intros w. reflexivity. Qed.

Lemma steps_dict_item r k : steps R (dict_item r k).
Proof. intros w. unfold dict_item. by destruct (_ !! k). Qed.

Lemma steps_load_completed_orders : steps R load_completed_orders.
Proof. intros w. unfold load_completed_orders. by destruct (file w). Qed.

Lemma steps_bind {A B} (m : M A) (k : A -> M B) :
  steps R m -> (forall a, steps R (k a)) -> steps R (m ≫= k).
Proof.
  apply steps_bind_with; [done | ]. intros w1 w2 w3. apply transitivity.
Qed.

Lemma steps_when (c : bool) (m : M unit) : steps R m -> steps R (when c m).
Proof. destruct c; [done | intros _; apply steps_ret]. Qed.

Lemma steps_try_except {A} (body : M A) (handler : exn -> option (M A)) :
  steps R body ->
  (forall e h, handler e = Some h -> steps R h) ->
  steps R (try_except body handler).
Proof.
  apply steps_try_except_with; [done | ]. intros w1 w2 w3. apply transitivity.
Qed.

Lemma steps_for_each {I A} (l : list I) (body : I -> M (flow A)) :
  (forall i, i ∈ l -> steps R (body i)) -> steps R (for_each l body).
Proof.
  induction l as [ | i l IH]; intros Hbody; cbn [for_each].
  - apply steps_ret.
  - apply steps_bind; [apply Hbody; left | ].
    intros [ | | a]; [ | apply steps_ret | apply steps_ret].
    apply IH. intros j Hj. apply Hbody. by right.
Qed.

Lemma steps_for_fold {I S} (l : list I) (body : S -> I -> M S) :
  (forall acc i, i ∈ l -> steps R (body acc i)) ->
  forall acc, steps R (for_fold l body acc).
Proof.
  induction l as [ | i l IH]; intros Hbody acc; cbn [for_fold].
  - apply steps_ret.
  - apply steps_bind; [apply Hbody; left | ].
    intros acc'. apply IH. intros acc'' j Hj. apply Hbody. by right.
Qed.

End Steps.

(** Break a call into its primitive calls; [leaf] settles those. *)
Ltac steps_with leaf :=
  repeat first
    [ apply steps_ret; apply _ | apply steps_mret; apply _
    | apply steps_raise; apply _ | apply steps_eval; apply _
    | apply steps_dict_get; apply _ | apply steps_dict_get_default; apply _
    | apply steps_dict_contains; apply _ | apply steps_dict_item; apply _
    | apply steps_load_completed_orders; apply _
    | apply steps_when; [apply _ | ]
    | apply steps_bind; [apply _ | | intros ? ]
    | match goal with
      | |- steps _ (if ?c then _ else _) => destruct c
      | |- steps _ (match ?x with _ => _ end) => destruct x
      end
    | leaf ].

(** ** Requests *)

#[global] Instance sent_0_preorder : PreOrder (sent 0).
Proof.
  split; [intros w; unfold sent; lia | ].
  intros w1 w2 w3; unfold sent; lia.
Qed.

Lemma sent_print (m : message) : steps (sent 0) (print m).
Proof. intros w. unfold sent. cbn. lia. Qed.

Lemma sent_sleep (ms : Z) : steps (sent 0) (sleep ms).
Proof. intros w. unfold sent, sleep. destruct (ms <? 0); cbn; lia. Qed.

Lemma sent_dict_set r k v : steps (sent 0) (dict_set r k v).
Proof. intros w. unfold sent. cbn. lia. Qed.

Lemma sent_dict_del r k : steps (sent 0) (dict_del r k).
Proof. intros w. unfold sent. cbn. lia. Qed.

Lemma sent_dump_progress l : steps (sent 0) (dump_progress l).
Proof. intros w. unfold sent. cbn. lia. Qed.

Lemma sent_post srv endpoint data cycle attempt :
  steps (sent 1) (post srv endpoint data cycle attempt).
Proof. intros w. rewrite run_post. unfold sent. cbn. lia. Qed.

Ltac sent_leaf :=
  first [ apply sent_print | apply sent_sleep | apply sent_dict_set
        | apply sent_dict_del | apply sent_dump_progress ].

Lemma sent_check_rate_limit_and_wait (hdrs : headers) :
  steps (sent 0) (check_rate_limit_and_wait hdrs).
Proof.
  unfold check_rate_limit_and_wait. apply steps_try_except; [apply _ | | ].
  - steps_with sent_leaf.
  - intros e h Hh. destruct e; inversion Hh; subst; steps_with sent_leaf.
Qed.

Lemma sent_save_completed_order (id : json) :
  steps (sent 0) (save_completed_order id).
Proof. unfold save_completed_order. steps_with sent_leaf. Qed.

Lemma sent_fix_order_data_for_shopify (r : loc) :
  steps (sent 0) (fix_order_data_for_shopify r).
Proof.
  unfold fix_order_data_for_shopify, debug_order. steps_with sent_leaf.
Qed.

(** One pass of the inner loop sends one request. *)
Lemma sent_attempt_body srv endpoint data max_retries max_retry_cycles cycle attempt :
  steps (sent 1)
    (attempt_body srv endpoint data max_retries max_retry_cycles cycle attempt).
Proof.
  unfold attempt_body.
  apply (steps_try_except_with (sent 1) (sent 0) (sent 1));
    [done | unfold sent; intros; lia | | ].
  - apply (steps_bind_with (sent 1) (sent 0) (sent 1));
      [done | unfold sent; intros; lia | apply sent_post | ].
    intros r. unfold raise_for_status.
    steps_with ltac:(first [sent_leaf | apply sent_check_rate_limit_and_wait]).
  - intros e h Hh. destruct (is_RequestException e); inversion Hh; subst.
    steps_with sent_leaf.
Qed.

#[global] Instance sent_at_most_mono n : Reflexive (sent_at_most n).
Proof. intros w. unfold sent_at_most. lia. Qed.

Lemma sent_at_most_for_each {I A} (n : nat) (l : list I) (body : I -> M (flow A)) :
  (forall i, steps (sent_at_most n) (body i)) ->
  steps (sent_at_most (length l * n)) (for_each l body).
Proof.
  intros Hbody. induction l as [ | i l IH]; cbn [for_each length].
  - intros w. cbn. unfold sent_at_most. lia.
  - apply (steps_bind_with (sent_at_most n) (sent_at_most (length l * n)));
      [unfold sent_at_most; intros; lia | unfold sent_at_most; intros; lia
      | apply Hbody | ].
    intros [ | | a]; [apply IH | | ]; intros w; cbn; unfold sent_at_most; lia.
Qed.

Lemma sent_at_most_cycle_body srv endpoint data max_retries max_retry_cycles cycle :
  steps (sent_at_most (Z.to_nat max_retries))
    (cycle_body srv endpoint data max_retries max_retry_cycles cycle).
Proof.
  unfold cycle_body.
  apply (steps_bind_with (sent_at_most (Z.to_nat max_retries)) (sent 0));
    [done | unfold sent_at_most, sent; intros; lia | | ].
  - rewrite <- (Nat.mul_1_r (Z.to_nat max_retries)),
      <- (length_py_range max_retries).
    apply sent_at_most_for_each. intros attempt w1.
    pose proof (sent_attempt_body srv endpoint data max_retries
                  max_retry_cycles cycle attempt w1) as H.
    unfold sent in H. unfold sent_at_most. lia.
  - intros [body | ]; intros w1; cbn; unfold sent; lia.
Qed.

Lemma sent_at_most_upload_to_shopify srv endpoint data max_retries max_retry_cycles :
  steps (sent_at_most (Z.to_nat max_retry_cycles * Z.to_nat max_retries))
    (upload_to_shopify srv endpoint data max_retries max_retry_cycles).
Proof.
  unfold upload_to_shopify.
  set (n := (Z.to_nat max_retry_cycles * Z.to_nat max_retries)%nat).
  assert (Hcycles : steps (sent_at_most n)
            (for_each (py_range max_retry_cycles)
               (cycle_body srv endpoint data max_retries max_retry_cycles))).
  { subst n. rewrite <- (length_py_range max_retry_cycles).
    apply sent_at_most_for_each. intros cycle.
    apply sent_at_most_cycle_body. }
  apply (steps_bind_with (sent 0) (sent_at_most n));
    [unfold sent_at_most, sent; intros; lia
    | unfold sent_at_most, sent; intros; lia | apply steps_eval; apply _ | ].
  intros dbg.
  apply (steps_bind_with (sent 0) (sent_at_most n));
    [unfold sent_at_most, sent; intros; lia
    | unfold sent_at_most, sent; intros; lia | | done].
  apply steps_when; [apply _ | apply sent_print].
Qed.

(** X1. Whatever the server answers, a call of the upload client sends no
    more than [max_retry_cycles * max_retries] requests. *)
Theorem upload_request_bound (srv : server) (endpoint : string) (data : dict)
    (max_retries max_retry_cycles : Z) (w : world) :
  let run := upload_to_shopify srv endpoint data max_retries max_retry_cycles w in
  (posts w <= posts run.2
   <= posts w + Z.to_nat max_retry_cycles * Z.to_nat max_retries)%nat.
Proof. apply sent_at_most_upload_to_shopify. Qed.

(** ** What a call returned *)

Lemma bind_ret_inv {A B} (m : M A) (k : A -> M B) (w w' : world) (b : B) :
  (m ≫= k) w = (Ret b, w') ->
  exists a w1, m w = (Ret a, w1) /\ k a w1 = (Ret b, w').
Proof.
  rewrite run_bind. destruct (m w) as [[a | e] w1]; [ | done].
  intros H. by exists a, w1.
Qed.

Lemma try_except_ret_inv {A} (body : M A) (handler : exn -> option (M A))
    (w w' : world) (a : A) :
  try_except body handler w = (Ret a, w') ->
  body w = (Ret a, w')
  \/ exists e w1 h, body w = (Raise e, w1) /\ handler e = Some h
                    /\ h w1 = (Ret a, w').
Proof.
  rewrite run_try_except. destruct (body w) as [[a' | e] w1]; [by left | ].
  destruct (handler e) as [h | ] eqn:He; [ | done].
  intros H. right. by exists e, w1, h.
Qed.

Lemma never_returns_bind {A B} (m : M B) (k : B -> M (flow A)) :
  (forall b, never_returns (k b)) -> never_returns (m ≫= k).
Proof.
  intros Hk w a w' H. apply bind_ret_inv in H as (b & w1 & _ & H).
  by apply Hk in H.
Qed.

Lemma never_returns_ret {A} (f : flow A) :
  (forall a, f <> Return a) -> never_returns (ret f).
Proof. intros Hf w a w' H. inversion H. by apply (Hf a). Qed.

Lemma never_returns_raise {A} (e : exn) : never_returns (@raise (flow A) e).
Proof. intros w a w' H. inversion H. Qed.

Ltac never_returns_step :=
  repeat first
    [ apply never_returns_ret; done
    | apply never_returns_raise
    | apply never_returns_bind; intros ?
    | match goal with
      | |- never_returns (if ?c then _ else _) => destruct c
      end ].

(** [H] says that a call that never returns did. *)
Ltac by_never_returns H :=
  match type of H with
  | ?m ?w = _ =>
      let Hn := fresh in
      assert (Hn : never_returns m);
      [never_returns_step | exact (Hn _ _ _ H)]
  end.

(** A loop returns what one of its passes returned. [P w a w'] is what a
    pass from [w] that returns [a] in [w'] ensures; it must go back along
    the steps [R] of the passes before. *)
Lemma for_each_returns {I A} (R : relation world) (P : world -> A -> world -> Prop)
    (l : list I) (body : I -> M (flow A)) :
  (forall i, steps R (body i)) ->
  (forall w1 w2 a w', R w1 w2 -> P w2 a w' -> P w1 a w') ->
  (forall i w a w', body i w = (Ret (Return a), w') -> P w a w') ->
  forall w a w', for_each l body w = (Ret (Some a), w') -> P w a w'.
Proof.
  intros Hsteps Hback Hbody.
  induction l as [ | i l IH]; intros w a w' H; cbn [for_each] in H.
  - inversion H.
  - apply bind_ret_inv in H as (f & w1 & Hf & H).
    destruct f as [ | | a']; [ | inversion H | ].
    + apply (Hback w w1); [ | by eapply IH].
      pose proof (Hsteps i w) as Hstep. by rewrite Hf in Hstep.
    + inversion H; subst. by eapply Hbody.
Qed.

Lemma delivered_back (srv : server) (w1 w2 : world) (body : json) (w' : world) :
  (posts w1 <= posts w2)%nat ->
  delivered srv (posts w2) body w' -> delivered srv (posts w1) body w'.
Proof.
  intros Hle (n & r & Hn & Hfrom & H). exists n, r. split_and!; try tauto. lia.
Qed.

Section UploadReturns.

Variable srv : server.
Variables (endpoint : string) (data : dict).
Variables (max_retries max_retry_cycles : Z).

Lemma attempt_body_returns (cycle attempt : Z) (w w' : world) (body : json) :
  attempt_body srv endpoint data max_retries max_retry_cycles cycle attempt w
    = (Ret (Return body), w') ->
  delivered srv (posts w) body w'.
Proof.
  intros H.
  pose proof (sent_attempt_body srv endpoint data max_retries max_retry_cycles
                cycle attempt w) as Hsent.
  rewrite H in Hsent. unfold sent in Hsent. cbn [snd] in Hsent.
  exists (posts w). unfold attempt_body in H.
  apply try_except_ret_inv in H as [H | (e & w1 & h & _ & Hh & H)].
  2: { destruct (is_RequestException e); [ | done]. injection Hh as <-.
       exfalso. by_never_returns H. }
  apply bind_ret_inv in H as (r & w1 & Hpost & H).
  rewrite run_post in Hpost. exists r.
  destruct (srv (posts w)) as [r' | e]; [ | done].
  inversion Hpost; subst r' w1. clear Hpost.
  destruct (status_code r =? 429) eqn:H429.
  { exfalso. by_never_returns H. }
  apply bind_ret_inv in H as ([] & w1 & _ & H).
  apply bind_ret_inv in H as ([] & w2 & Hstatus & H).
  apply bind_ret_inv in H as (body' & w3 & Hbody & H).
  rewrite run_eval in Hbody. inversion Hbody as [[Hjson Hw]].
  rewrite run_ret in H. inversion H; subst body'.
  split_and!; [lia | done | done | done | lia | ].
  intros [Hlo Hhi]. unfold when, raise_for_status in Hstatus.
  rewrite (proj2 (Z.leb_le _ _) Hlo), (proj2 (Z.ltb_lt _ _) Hhi) in Hstatus.
  cbn [andb] in Hstatus. apply bind_ret_inv in Hstatus as ([] & w4 & _ & Hraise).
  inversion Hraise.
Qed.

Lemma cycle_body_returns (cycle : Z) (w w' : world) (body : json) :
  cycle_body srv endpoint data max_retries max_retry_cycles cycle w
    = (Ret (Return body), w') ->
  delivered srv (posts w) body w'.
Proof.
  intros H. unfold cycle_body in H.
  apply bind_ret_inv in H as (res & w1 & Hloop & H).
  destruct res as [body' | ]; [ | inversion H].
  rewrite run_ret in H. inversion H; subst.
  revert Hloop.
  apply (for_each_returns (fun w1 w2 => (posts w1 <= posts w2)%nat)
           (fun w => delivered srv (posts w))).
  - intros attempt w1.
    pose proof (sent_attempt_body srv endpoint data max_retries
                  max_retry_cycles cycle attempt w1) as Hsent.
    unfold sent in Hsent. lia.
  - apply delivered_back.
  - intros attempt w0 a w0'. apply attempt_body_returns.
Qed.

(** X2. When the upload client returns a parsed body, that body is the
    answer to the last request that the call sent, and the status of that
    answer is neither 429 nor in 400..599. *)
Theorem upload_returns_delivered_body (w w' : world) (body : json) :
  upload_to_shopify srv endpoint data max_retries max_retry_cycles w
    = (Ret (Some body), w') ->
  exists (n : nat) (r : response),
    posts w' = S n /\ (posts w <= n)%nat /\ srv n = Responded r
    /\ json_body r = Ret body
    /\ status_code r <> 429 /\ ~ (400 <= status_code r < 600).
Proof.
  intros H. unfold upload_to_shopify in H.
  apply bind_ret_inv in H as (dbg & w1 & Hdbg & H).
  apply bind_ret_inv in H as ([] & w2 & Hprint & H).
  assert (posts w2 = posts w) as <-.
  { rewrite run_eval in Hdbg. inversion Hdbg; subst w1.
    destruct dbg; cbn in Hprint; inversion Hprint; by subst w2. }
  revert H.
  apply (for_each_returns (fun w1 w2 => (posts w1 <= posts w2)%nat)
           (fun w => delivered srv (posts w))).
  - intros cycle w3.
    apply (sent_at_most_cycle_body srv endpoint data max_retries
             max_retry_cycles cycle w3).
  - apply delivered_back.
  - intros cycle w0 a w0'. apply cycle_body_returns.
Qed.

End UploadReturns.

(** The witness: the order is created at the first request. *)
Lemma upload_returns_delivered_body_witness :
  exists (n : nat) (r : response),
    posts (upload_to_shopify always_created "orders" order_paid 3 5 world0).2 = S n
    /\ (posts world0 <= n)%nat /\ always_created n = Responded r
    /\ json_body r = Ret (JObj [("order", JObj [("id", JInt 450789469)])])
    /\ status_code r <> 429 /\ ~ (400 <= status_code r < 600).
Proof.
  apply (upload_returns_delivered_body always_created "orders" order_paid 3 5
           world0 (upload_to_shopify always_created "orders" order_paid 3 5 world0).2).
  vm_compute. reflexivity.
Defined.

(** ** The first request of a call *)

Lemma py_range_pos (n : Z) :
  0 < n -> py_range n = 0 :: map Z.of_nat (seq 1 (Z.to_nat n - 1)).
Proof.
  intros Hn. unfold py_range.
  replace (Z.to_nat n) with (S (Z.to_nat n - 1)) at 1 by lia. done.
Qed.


(** A call whose first pass through the inner loop returns or raises ends
    with that pass. *)
Lemma run_upload_first_attempt (srv : server) (endpoint : string) (data : dict)
    (max_retries max_retry_cycles : Z) (w : world) (dbg : bool) :
  py_le_int (py_get_default data "woo_order_id" (JInt 0)) 3 = Ret dbg ->
  0 < max_retries -> 0 < max_retry_cycles ->
  let w1 :=
    log w (if dbg then
             [Print (MsgDebugPayload (py_get data "woo_order_id")
                       (py_get data "processed_at")
                       (py_get data "financial_status")
                       (py_get data "created_at"))]
           else []) in
  match attempt_body srv endpoint data max_retries max_retry_cycles 0 0 w1 with
  | (Ret (Return body), w2) =>
      upload_to_shopify srv endpoint data max_retries max_retry_cycles w
        = (Ret (Some body), w2)
  | (Raise e, w2) =>
      upload_to_shopify srv endpoint data max_retries max_retry_cycles w
        = (Raise e, w2)
  | _ => True
  end.
Proof.
  intros Hdbg Hmr Hmc w1.
  destruct (attempt_body _ _ _ _ _ 0 0 w1) as [[[ | | body] | e] w2] eqn:Hattempt;
    [done | done | | ].
  all: unfold upload_to_shopify.
  all: rewrite run_bind, run_eval, Hdbg; cbv beta iota.
  all: rewrite run_bind, (run_when dbg _ _ _ (run_print _ _)); cbv beta iota.
  all: fold w1; rewrite (py_range_pos max_retry_cycles) by done.
  all: cbn [for_each]; rewrite run_bind.
  - assert (cycle_body srv endpoint data max_retries max_retry_cycles 0 w1
            = (Ret (Return body), w2)) as ->; [ | done].
    unfold cycle_body. rewrite (py_range_pos max_retries) by done.
    cbn [for_each]. by rewrite !run_bind, Hattempt.
  - assert (cycle_body srv endpoint data max_retries max_retry_cycles 0 w1
            = (Raise e, w2)) as ->; [ | done].
    unfold cycle_body. rewrite (py_range_pos max_retries) by done.
    cbn [for_each]. by rewrite !run_bind, Hattempt.
Qed.



(** X4. A first answer with a status below 400 other than 200 and 429 (a
    201 to a created order) is returned at once: the rate limiter is not
    called, and the call sleeps at no point. *)
Theorem upload_first_answer_not_200 (srv : server) (endpoint : string)
    (data : dict) (max_retries max_retry_cycles : Z) (w : world)
    (r : response) (body : json) (dbg : bool) :
  py_le_int (py_get_default data "woo_order_id" (JInt 0)) 3 = Ret dbg ->
  0 < max_retries -> 0 < max_retry_cycles ->
  srv (posts w) = Responded r ->
  status_code r < 400 -> status_code r <> 200 -> status_code r <> 429 ->
  json_body r = Ret body ->
  let run := upload_to_shopify srv endpoint data max_retries max_retry_cycles w in
  run.1 = Ret (Some body)
  /\ posts run.2 = S (posts w)
  /\ clock run.2 = clock w
  /\ trace run.2 =
       (trace w
        ++ (if dbg then
              [Print (MsgDebugPayload (py_get data "woo_order_id")
                        (py_get data "processed_at")
                        (py_get data "financial_status")
                        (py_get data "created_at"))]
            else [])
        ++ [Post endpoint data 0 0])%list.
Proof.
  intros Hdbg Hmr Hmc Hsrv Hlt H200 H429 Hbody run. subst run.
  pose proof (run_upload_first_attempt srv endpoint data max_retries
                max_retry_cycles w dbg Hdbg Hmr Hmc) as Hrun.
  cbv zeta in Hrun. unfold attempt_body in Hrun.
  rewrite run_try_except, run_bind, run_post in Hrun. cbn [posts log] in Hrun.
  rewrite Hsrv in Hrun. cbv beta iota in Hrun.
  rewrite (proj2 (Z.eqb_neq _ _) H429), (proj2 (Z.eqb_neq _ _) H200) in Hrun.
  assert ((400 <=? status_code r) = false) as Hok by lia.
  rewrite Hok in Hrun. unfold when in Hrun.
  repeat (progress (autorewrite with run in Hrun; cbv beta iota in Hrun)).
  rewrite Hbody in Hrun.
  repeat (progress (autorewrite with run in Hrun; cbv beta iota in Hrun)).
  rewrite Hrun. cbn. by rewrite <- app_assoc.
Qed.

Lemma upload_first_answer_not_200_witness :
  let run := upload_to_shopify always_created "orders" order_paid 3 5 world0 in
  run.1 = Ret (Some (JObj [("order", JObj [("id", JInt 450789469)])]))
  /\ posts run.2 = 1%nat
  /\ clock run.2 = 0
  /\ trace run.2 = [Post "orders" order_paid 0 0].
Proof.
  apply (upload_first_answer_not_200 always_created "orders" order_paid 3 5
           world0 created _ false); try reflexivity; try lia; try discriminate.
Defined.

(** ** Requests that fail in transport *)

Section TransportFailure.

Variable srv : server.
Variables (endpoint : string) (data : dict).
Variables (max_retries max_retry_cycles : Z).


Hypothesis Hfails : always_fails srv.




End TransportFailure.


(** ** The waits of the rate limiter *)

Lemma true_div_check_error (a b : Z) (e : exn) :
  true_div_check a b = Raise e -> e = ZeroDivisionError \/ e = OverflowError.
Proof.
  unfold true_div_check. destruct (b =? 0); [intros [= <-]; by left | ].
  destruct (_ <=? _); [intros [= <-]; by right | done].
Qed.

Lemma run_check_rate_limit_unparsed (hdrs : headers) (w : world) (e : exn) :
  unpack_limit (py_split "/" (default "0/40" (call_limit hdrs))) = Raise e ->
  check_rate_limit_and_wait hdrs w = (Ret (0, 40), after_sleep w 500).
Proof.
  intros He. pose proof (unpack_limit_error _ _ He) as ->.
  unfold check_rate_limit_and_wait.
  rewrite run_try_except, run_bind, run_eval, He. cbv beta iota.
  by rewrite run_bind.
Qed.

(** X6. The rate limiter sleeps before it returns, between 0.1 s and 2 s;
    of two headers that parse, the one with the larger count of calls
    made never gets the shorter sleep, whatever the limits they state;
    and the only exceptions it lets out are those of the division, raised
    before any effect. *)
Theorem rate_limiter_waits (hdrs hdrs' : headers) (w w0 : world) :
  let parsed (h : headers) :=
    unpack_limit (py_split "/" (default "0/40" (call_limit h))) in
  let run := check_rate_limit_and_wait hdrs w in
  let run' := check_rate_limit_and_wait hdrs' w0 in
  (forall p, run.1 = Ret p -> 100 <= slept w run.2 <= 2000)
  /\ (forall e, run.1 = Raise e ->
        run.2 = w /\ (e = ZeroDivisionError \/ e = OverflowError))
  /\ (forall current max_limit current' max_limit' p p',
        parsed hdrs = Ret (current, max_limit) ->
        parsed hdrs' = Ret (current', max_limit') ->
        run.1 = Ret p -> run'.1 = Ret p' ->
        current <= current' ->
        slept w run.2 <= slept w0 run'.2).
Proof.
  intros parsed run run'. subst run run'. unfold slept. split_and!.
  - intros p. destruct (parsed hdrs) as [[current max_limit] | e] eqn:Hparsed.
    + rewrite (run_check_rate_limit_parsed hdrs w current max_limit Hparsed).
      destruct (true_div_check current max_limit); [ | done].
      destruct (35 <=? current); [cbn; lia | ].
      destruct (30 <=? current); [cbn; lia | ].
      destruct (20 <=? current); cbn; lia.
    + rewrite (run_check_rate_limit_unparsed hdrs w e Hparsed). cbn. lia.
  - intros e. destruct (parsed hdrs) as [[current max_limit] | e'] eqn:Hparsed.
    + rewrite (run_check_rate_limit_parsed hdrs w current max_limit Hparsed).
      destruct (true_div_check current max_limit) eqn:Hdiv.
      * destruct (35 <=? current); [done | ].
        destruct (30 <=? current); [done | ].
        by destruct (20 <=? current).
      * cbn. intros [= <-]. split; [done | ].
        by apply (true_div_check_error current max_limit).
    + by rewrite (run_check_rate_limit_unparsed hdrs w e' Hparsed).
  - intros current max_limit current' max_limit' p p' Hparsed Hparsed'.
    rewrite (run_check_rate_limit_parsed hdrs w current max_limit Hparsed).
    rewrite (run_check_rate_limit_parsed hdrs' w0 current' max_limit' Hparsed').
    destruct (true_div_check current max_limit); [ | done].
    destruct (true_div_check current' max_limit'); [ | done].
    intros _ _ Hle.
    destruct (35 <=? current) eqn:H35; destruct (30 <=? current) eqn:H30;
      destruct (20 <=? current) eqn:H20;
      destruct (35 <=? current') eqn:H35'; destruct (30 <=? current') eqn:H30';
      destruct (20 <=? current') eqn:H20'; cbn; lia.
Qed.

(** The witness: ["12/40"] against ["32/80"]: 0.1 s and 1 s. *)
Lemma rate_limiter_waits_witness :
  let hdrs := {| retry_after := None; call_limit := Some "12/40" |} in
  let hdrs' := {| retry_after := None; call_limit := Some "32/80" |} in
  slept world0 (check_rate_limit_and_wait hdrs world0).2
  <= slept world0 (check_rate_limit_and_wait hdrs' world0).2.
Proof.
  intros hdrs hdrs'.
  apply (proj2 (proj2 (rate_limiter_waits hdrs hdrs' world0 world0))
           12 40 32 80 (12, 40) (32, 80));
    [reflexivity | reflexivity | reflexivity | reflexivity | lia].
Defined.

(** ** Calls that do not raise, and their values *)

Lemma total_ret {A} (a : A) : total (ret a).
Proof. intros w. by exists a, w. Qed.

Lemma total_print (m : message) : total (print m).
Proof. intros w. rewrite run_print. by eexists _, _. Qed.

Lemma total_bind {A B} (m : M A) (k : A -> M B) :
  total m -> (forall a, total (k a)) -> total (m ≫= k).
Proof.
  intros Hm Hk w. rewrite run_bind. destruct (Hm w) as (a & w1 & ->).
  apply Hk.
Qed.

Lemma total_when (c : bool) (m : M unit) : total m -> total (when c m).
Proof. destruct c; [done | intros _; apply total_ret]. Qed.

(** A [try] with a bare [except] whose handler does not raise. *)
Lemma total_try_except {A} (body : M A) (handler : exn -> option (M A)) :
  (forall e, exists h, handler e = Some h /\ total h) ->
  total (try_except body handler).
Proof.
  intros Hhandler w. rewrite run_try_except.
  destruct (body w) as [[a | e] w1]; [by exists a, w1 | ].
  destruct (Hhandler e) as (h & -> & Hh). apply Hh.
Qed.

Lemma total_for_fold {I S} (l : list I) (body : S -> I -> M S) :
  (forall acc i, total (body acc i)) -> forall acc, total (for_fold l body acc).
Proof.
  intros Hbody. induction l as [ | i l IH]; intros acc; cbn [for_fold].
  - apply total_ret.
  - apply total_bind; [apply Hbody | apply IH].
Qed.

Lemma returns_ret {A} (P : A -> Prop) (a : A) : P a -> returns P (ret a).
Proof. intros Ha w a' w' [= <- _]. done. Qed.

Lemma returns_raise {A} (P : A -> Prop) (e : exn) : returns P (raise e).
Proof. intros w a w' H. inversion H. Qed.

Lemma returns_bind {A B} (P : B -> Prop) (m : M A) (k : A -> M B) :
  (forall a, returns P (k a)) -> returns P (m ≫= k).
Proof.
  intros Hk w b w' H. apply bind_ret_inv in H as (a & w1 & _ & H).
  by apply Hk in H.
Qed.

Lemma returns_try_except {A} (P : A -> Prop) (body : M A)
    (handler : exn -> option (M A)) :
  returns P body ->
  (forall e h, handler e = Some h -> returns P h) ->
  returns P (try_except body handler).
Proof.
  intros Hbody Hhandler w a w' H.
  apply try_except_ret_inv in H as [H | (e & w1 & h & _ & Hh & H)].
  - by apply Hbody in H.
  - by apply (Hhandler e h Hh) in H.
Qed.

Ltac returns_step :=
  repeat first
    [ apply returns_ret | apply returns_raise
    | apply returns_bind; intros ?
    | match goal with
      | |- returns _ (if ?c then _ else _) => destruct c
      end ].

(** ** What the batch orchestrator returns *)

Lemma total_process_item srv endpoint completed_orders total_items successes item :
  total (process_item srv endpoint completed_orders total_items successes item).
Proof.
  apply total_try_except. intros e. eexists. split; [done | ].
  apply total_bind; [apply total_print | intros _; apply total_ret].
Qed.

Lemma returns_process_item srv endpoint completed_orders total_items successes item :
  returns (fun n => successes <= n <= successes + 1)
    (process_item srv endpoint completed_orders total_items successes item).
Proof.
  apply returns_try_except.
  - returns_step; lia.
  - intros e h [= <-]. returns_step; lia.
Qed.

(** A loop of passes that do not raise and add 0 or 1 to the counter. *)
Lemma for_fold_counts {I} (l : list I) (body : Z -> I -> M Z) :
  (forall acc i, total (body acc i)) ->
  (forall acc i, returns (fun n => acc <= n <= acc + 1) (body acc i)) ->
  forall acc w, exists n w',
    for_fold l body acc w = (Ret n, w') /\ acc <= n <= acc + Z.of_nat (length l).
Proof.
  intros Htotal Hreturns. induction l as [ | i l IH]; intros acc w; cbn [for_fold].
  - exists acc, w. split; [done | cbn; lia].
  - rewrite run_bind. destruct (Htotal acc i w) as (n1 & w1 & Hn1).
    rewrite Hn1. apply Hreturns in Hn1.
    destruct (IH n1 w1) as (n & w' & Hn & Hle). exists n, w'.
    split; [done | cbn [length]; lia].
Qed.

(** ** Batches *)

Lemma for_fold_app {I S} (l1 l2 : list I) (body : S -> I -> M S) (acc : S)
    (w : world) :
  for_fold (l1 ++ l2) body acc w = (for_fold l1 body acc ≫= for_fold l2 body) w.
Proof.
  revert acc w. induction l1 as [ | i l1 IH]; intros acc w; cbn [app for_fold].
  - by rewrite run_bind, run_ret.
  - rewrite !run_bind. destruct (body acc i w) as [[acc' | e] w1]; [ | done].
    by rewrite IH, run_bind.
Qed.

(** A loop over batches, with a loop over the batch inside, is a loop
    over the items of all batches. *)
Lemma for_fold_batches {I J S} (batch : J -> list I) (starts : list J)
    (body : S -> I -> M S) (acc : S) (w : world) :
  for_fold starts (fun acc j => for_fold (batch j) body acc) acc w
  = for_fold (concat (map batch starts)) body acc w.
Proof.
  revert acc w. induction starts as [ | j starts IH]; intros acc w; [done | ].
  cbn [map concat for_fold]. rewrite for_fold_app, !run_bind.
  destruct (for_fold (batch j) body acc w) as [[acc' | e] w1]; [ | done].
  apply IH.
Qed.

Lemma concat_take_drop {A} (l : list A) (b n : nat) :
  concat (map (fun k => take b (drop (k * b) l)) (seq 0 n)) = take (n * b) l.
Proof.
  induction n as [ | n IH]; [done | ].
  rewrite seq_S, map_app, concat_app, IH. cbn [map concat Nat.add].
  rewrite app_nil_r, take_take_drop. f_equal. lia.
Qed.

(** The batches of a positive size, in order, make up the list. *)
Lemma py_slices_concat {A} (items : list A) (batch_size : Z) (starts : list Z) :
  0 < batch_size ->
  py_range_step (Z.of_nat (length items)) batch_size = Ret starts ->
  concat (map (fun i => py_slice items i (i + batch_size)) starts) = items.
Proof.
  intros Hpos Hstarts. unfold py_range_step in Hstarts.
  assert ((batch_size =? 0) = false) as H0 by lia.
  assert ((batch_size <? 0) = false) as Hneg by lia.
  rewrite H0, Hneg in Hstarts. injection Hstarts as <-.
  rewrite map_map.
  set (n := Z.to_nat ((Z.of_nat (length items) + batch_size - 1) / batch_size)).
  rewrite (map_ext _ (fun k => take (Z.to_nat batch_size)
                                 (drop (k * Z.to_nat batch_size) items))).
  2: { intros k. unfold py_slice. f_equal; [f_equal; lia | f_equal; lia]. }
  rewrite concat_take_drop. apply take_ge.
  assert (Z.of_nat (length items) <= Z.of_nat n * batch_size); [ | lia].
  subst n. rewrite Z2Nat.id.
  2: { apply Z.div_pos; lia. }
  pose proof (Z.div_mod (Z.of_nat (length items) + batch_size - 1) batch_size
                ltac:(lia)) as Hdiv.
  pose proof (Z.mod_pos_bound (Z.of_nat (length items) + batch_size - 1)
                batch_size Hpos) as Hmod.
  nia.
Qed.

Section BatchProperties.

Variable srv : server.
Variable endpoint : string.

(** With a positive batch size the orchestrator is one loop over the
    items. *)
Lemma batch_upload_flat (items : list dict) (batch_size : Z) (resume_mode : bool)
    (w : world) :
  0 < batch_size ->
  batch_upload srv endpoint items batch_size resume_mode w =
    (completed_orders ←
       ((if String.eqb endpoint "orders" && resume_mode then
           completed_orders ← load_completed_orders;
           print (MsgFoundCompleted (length completed_orders));;
           ret completed_orders
         else ret []) : M (list json));
     print (MsgStarting endpoint (length items));;
     successes ←
       for_fold items (process_item srv endpoint completed_orders (length items)) 0;
     print (MsgUploaded successes (length items));;
     ret successes) w.
Proof.
  intros Hpos. unfold batch_upload.
  assert (Hstarts : exists starts,
    py_range_step (Z.of_nat (length items)) batch_size = Ret starts).
  { unfold py_range_step.
    assert ((batch_size =? 0) = false) as -> by lia.
    assert ((batch_size <? 0) = false) as -> by lia. by eexists. }
  destruct Hstarts as (starts & Hstarts).
  destruct (String.eqb endpoint "orders" && resume_mode).
  all: repeat (rewrite run_bind; cbv beta iota);
    rewrite ?run_load_completed_orders, ?run_ret; cbv beta iota.
  all: repeat (rewrite ?run_bind, ?run_print, ?run_ret, ?run_eval; cbv beta iota).
  all: rewrite Hstarts; cbv beta iota.
  all: rewrite run_bind.
  all: rewrite (for_fold_batches (fun i => py_slice items i (i + batch_size))).
  all: by rewrite (py_slices_concat items batch_size starts).
Qed.

(** X7. The size of the batches does not matter: with any two positive
    sizes the orchestrator does the same, request by request, and returns
    the same. *)
Theorem batch_size_is_immaterial (items : list dict) (batch_size batch_size' : Z)
    (resume_mode : bool) (w : world) :
  0 < batch_size -> 0 < batch_size' ->
  batch_upload srv endpoint items batch_size resume_mode w
  = batch_upload srv endpoint items batch_size' resume_mode w.
Proof.
  intros Hpos Hpos'. by rewrite !batch_upload_flat.
Qed.

(** The state after the lines before the loop. *)
Lemma run_batch_upload_start (items : list dict) (batch_size : Z)
    (resume_mode : bool) (w : world) :
  exists events,
    batch_upload srv endpoint items batch_size resume_mode w =
      (starts ← eval (py_range_step (Z.of_nat (length items)) batch_size);
       successes ←
         for_fold starts
           (fun successes i =>
              for_fold (py_slice items i (i + batch_size))
                (process_item srv endpoint
                   (if String.eqb endpoint "orders" && resume_mode
                    then completed w else [])
                   (length items))
                successes)
           0;
       print (MsgUploaded successes (length items));;
       ret successes) (log w events)
    /\ Forall (fun e => exists m, e = Print m) events.
Proof.
  unfold batch_upload. rewrite run_bind.
  destruct (String.eqb endpoint "orders" && resume_mode).
  - rewrite run_bind, run_load_completed_orders. cbv beta iota.
    rewrite run_bind, run_print. cbv beta iota. rewrite run_ret.
    rewrite run_bind, run_print. cbv beta iota. rewrite log_log.
    eexists. split; [done | ]. repeat constructor; by eexists.
  - rewrite run_ret. rewrite run_bind, run_print. cbv beta iota.
    eexists. split; [done | ]. repeat constructor; by eexists.
Qed.

(** X8. The orchestrator's value and the batch size. A size of zero is a
    [ValueError], raised before any request; with a negative size nothing
    is uploaded and the value is 0; with a positive size the call does
    not raise, whatever the server does, and its value is between 0 and
    the number of items. *)
Theorem batch_upload_value (items : list dict) (batch_size : Z)
    (resume_mode : bool) (w : world) :
  let run := batch_upload srv endpoint items batch_size resume_mode w in
  (batch_size = 0 ->
     run.1 = Raise ValueError /\ posts run.2 = posts w /\ file run.2 = file w)
  /\ (batch_size < 0 ->
        run.1 = Ret 0 /\ posts run.2 = posts w /\ file run.2 = file w)
  /\ (0 < batch_size ->
        exists n, run.1 = Ret n /\ 0 <= n <= Z.of_nat (length items)).
Proof.
  intros run. subst run. split_and!.
  - intros ->. destruct (run_batch_upload_start items 0 resume_mode w)
      as (events & -> & _).
    by rewrite run_bind, run_eval.
  - intros Hneg. destruct (run_batch_upload_start items batch_size resume_mode w)
      as (events & -> & _).
    rewrite run_bind, run_eval. unfold py_range_step.
    assert ((batch_size =? 0) = false) as -> by lia.
    assert ((batch_size <? 0) = true) as -> by lia.
    cbn [for_fold]. by rewrite !run_bind, run_ret, run_bind, run_print, run_ret.
  - intros Hpos. rewrite batch_upload_flat by done.
    assert (Hloop : forall completed_orders w2, exists n w',
      for_fold items (process_item srv endpoint completed_orders (length items))
        0 w2 = (Ret n, w') /\ 0 <= n <= 0 + Z.of_nat (length items)).
    { intros completed_orders w2. apply for_fold_counts.
      - apply total_process_item.
      - apply returns_process_item. }
    destruct (String.eqb endpoint "orders" && resume_mode).
    + rewrite !run_bind, run_load_completed_orders. cbv beta iota.
      rewrite run_bind, run_print. cbv beta iota. rewrite run_ret.
      rewrite run_bind, run_print. cbv beta iota. rewrite run_bind.
      match goal with
      | |- context [for_fold items (process_item _ _ ?c _) 0 ?w2] =>
          destruct (Hloop c w2) as (n & w' & -> & Hn)
      end.
      rewrite run_bind, run_print. cbv beta iota. rewrite run_ret.
      exists n. split; [done | lia].
    + rewrite !run_bind, run_ret.
      rewrite run_bind, run_print. cbv beta iota. rewrite run_bind.
      match goal with
      | |- context [for_fold items (process_item _ _ ?c _) 0 ?w2] =>
          destruct (Hloop c w2) as (n & w' & -> & Hn)
      end.
      rewrite run_bind, run_print. cbv beta iota. rewrite run_ret.
      exists n. split; [done | lia].
Qed.

End BatchProperties.

(** The witness: seven orders in batches of 3 and in batches of 5. *)
Lemma batch_size_is_immaterial_witness :
  let items := [order_paid; order_pending; order_paid; order_pending;
                order_paid; order_pending; order_paid] in
  batch_upload rate_limited_then_down "orders" items 3 true world0
  = batch_upload rate_limited_then_down "orders" items 5 true world0.
Proof.
  intros items.
  apply (batch_size_is_immaterial rate_limited_then_down "orders" items 3 5
           true world0); lia.
Defined.

Lemma batch_upload_value_witness :
  (batch_upload always_created "orders" [order_paid; order_pending] 0 false
     world0).1 = Raise ValueError
  /\ (batch_upload always_created "orders" [order_paid; order_pending] (-1) false
        world0).1 = Ret 0
  /\ exists n,
       (batch_upload always_created "orders" [order_paid; order_pending] 5 false
          world0).1 = Ret n /\ 0 <= n <= 2.
Proof.
  split_and!.
  - apply (proj1 (batch_upload_value always_created "orders"
                    [order_paid; order_pending] 0 false world0)). reflexivity.
  - apply (proj1 (proj2 (batch_upload_value always_created "orders"
                           [order_paid; order_pending] (-1) false world0))). lia.
  - apply (proj2 (proj2 (batch_upload_value always_created "orders"
                           [order_paid; order_pending] 5 false world0))). lia.
Defined.

(** ** The requests in the trace *)

#[global] Instance trace_adds_preorder (P : event -> Prop) : PreOrder (trace_adds P).
Proof.
  split.
  - intros w. exists []. split; [by rewrite app_nil_r | done].
  - intros w1 w2 w3 (ev1 & H1 & HP1) (ev2 & H2 & HP2). exists (ev1 ++ ev2)%list.
    split; [by rewrite H2, H1, app_assoc | by apply Forall_app].
Qed.

Lemma trace_adds_weaken (P P' : event -> Prop) (w w' : world) :
  (forall e, P e -> P' e) -> trace_adds P w w' -> trace_adds P' w w'.
Proof.
  intros HP (events & H & Hall). exists events. split; [done | ].
  by eapply Forall_impl.
Qed.

Lemma trace_adds_log (P : event -> Prop) (w : world) (events : list event) :
  Forall P events -> trace_adds P w (log w events).
Proof. intros H. by exists events. Qed.

Section Requests.

Variable endpoint : string.
Variable Q : dict -> Prop.

Lemma adds_print (m : message) :
  steps (trace_adds (posts_only endpoint Q)) (print m).
Proof. intros w. exists [Print m]. split; [done | by repeat constructor]. Qed.

Lemma adds_sleep (ms : Z) : steps (trace_adds (posts_only endpoint Q)) (sleep ms).
Proof.
  intros w. unfold sleep. destruct (ms <? 0); [reflexivity | ].
  exists [Sleep ms]. split; [done | by repeat constructor].
Qed.

Lemma adds_dump_progress (l : list json) :
  steps (trace_adds (posts_only endpoint Q)) (dump_progress l).
Proof. intros w. exists []. split; [by rewrite app_nil_r | done]. Qed.

Lemma adds_post srv data cycle attempt :
  Q data ->
  steps (trace_adds (posts_only endpoint Q)) (post srv endpoint data cycle attempt).
Proof.
  intros HQ w. rewrite run_post. exists [Post endpoint data cycle attempt].
  split; [done | by repeat constructor].
Qed.

Ltac adds_leaf :=
  first [ apply adds_print | apply adds_sleep | apply adds_dump_progress ].

Lemma adds_check_rate_limit_and_wait (hdrs : headers) :
  steps (trace_adds (posts_only endpoint Q)) (check_rate_limit_and_wait hdrs).
Proof.
  unfold check_rate_limit_and_wait. apply steps_try_except; [apply _ | | ].
  - steps_with adds_leaf.
  - intros e h Hh. destruct e; inversion Hh; subst; steps_with adds_leaf.
Qed.

Lemma adds_save_completed_order (id : json) :
  steps (trace_adds (posts_only endpoint Q)) (save_completed_order id).
Proof. unfold save_completed_order. steps_with adds_leaf. Qed.

(** The requests of a call of the upload client are for its endpoint and
    carry its item. *)
Lemma adds_upload_to_shopify srv data max_retries max_retry_cycles :
  Q data ->
  steps (trace_adds (posts_only endpoint Q))
    (upload_to_shopify srv endpoint data max_retries max_retry_cycles).
Proof.
  intros HQ. unfold upload_to_shopify.
  apply steps_bind; [apply _ | apply steps_eval; apply _ | intros dbg].
  apply steps_bind; [apply _ | steps_with adds_leaf | intros _].
  apply steps_for_each; [apply _ | ]. intros cycle _. unfold cycle_body.
  apply steps_bind; [apply _ | | intros [body | ]; apply steps_ret; apply _].
  apply steps_for_each; [apply _ | ]. intros attempt _. unfold attempt_body.
  apply steps_try_except; [apply _ | | ].
  - apply steps_bind; [apply _ | by apply adds_post | intros r].
    unfold raise_for_status.
    steps_with ltac:(first [adds_leaf | apply adds_check_rate_limit_and_wait]).
  - intros e h Hh. destruct (is_RequestException e); inversion Hh; subst.
    steps_with adds_leaf.
Qed.

End Requests.

Ltac adds_leaf :=
  first [ apply adds_print | apply adds_sleep | apply adds_dump_progress ].

Section BatchRequests.

Variable srv : server.
Variable endpoint : string.

(** What the pass for [item] sends, when the list of completed orders is
    [completed_orders]. *)
Lemma adds_process_item (completed_orders : list json) (total_items : nat)
    (successes : Z) (item : dict) :
  steps
    (trace_adds
       (posts_only endpoint (fun item' =>
          item' = item
          /\ (endpoint = "customers" -> py_truthy (py_get item "email") = true)
          /\ (endpoint = "orders" ->
              py_in (py_get item "woo_order_id") completed_orders = false))))
    (process_item srv endpoint completed_orders total_items successes item).
Proof.
  unfold process_item. apply steps_try_except; [apply _ | | ].
  2: { intros e h [= <-]. steps_with adds_leaf. }
  destruct (String.eqb endpoint "orders"
            && py_in (py_get item "woo_order_id") completed_orders) eqn:Hskip;
    [steps_with adds_leaf | ].
  apply steps_bind; [apply _ | apply adds_print | intros _].
  destruct (String.eqb endpoint "customers"
            && negb (py_truthy (py_get item "email"))) eqn:Hemail;
    [steps_with adds_leaf | ].
  apply steps_bind; [apply _ | | intros result].
  - apply adds_upload_to_shopify. split_and!; [done | | ].
    + intros ->. cbn in Hemail. by destruct (py_truthy _).
    + intros ->. by cbn in Hskip.
  - steps_with ltac:(first [adds_leaf | apply adds_save_completed_order]).
Qed.

(** The requests of a batch. *)
Lemma adds_batch_upload (items : list dict) (batch_size : Z)
    (resume_mode : bool) (w : world) :
  trace_adds
    (posts_only endpoint (fun item =>
       item ∈ items
       /\ (endpoint = "customers" -> py_truthy (py_get item "email") = true)
       /\ (endpoint = "orders" -> resume_mode = true ->
           py_in (py_get item "woo_order_id") (completed w) = false)))
    w (batch_upload srv endpoint items batch_size resume_mode w).2.
Proof.
  destruct (run_batch_upload_start srv endpoint items batch_size resume_mode w)
    as (events & -> & Hevents).
  etrans; [apply (trace_adds_log _ w events) | ].
  { eapply Forall_impl; [exact Hevents | ]. by intros e (m & ->). }
  match goal with
  | |- trace_adds ?P _ (?m _).2 => enough (steps (trace_adds P) m) as H by apply H
  end.
  apply steps_bind; [apply _ | apply steps_eval; apply _ | intros starts].
  apply steps_bind; [apply _ | | intros n; steps_with adds_leaf].
  apply steps_for_fold; [apply _ | ]. intros successes i _.
  apply steps_for_fold; [apply _ | ]. intros successes' item Hitem.
  apply elem_of_py_slice in Hitem.
  eapply steps_weaken; [ | apply adds_process_item].
  intros w1 w2. apply trace_adds_weaken.
  intros [m | ms | endpoint' item' cycle attempt]; [done | done | ].
  cbn. intros (-> & -> & Hcustomers & Horders). split_and!; [done | done | done | ].
  intros -> ->. cbn in Horders. by apply Horders.
Qed.


(** X9. The requests of a batch. Every request that the orchestrator
    sends is for its endpoint and carries one of the items; for
    customers, one with an email that counts as true; and in resume mode,
    for orders, one whose source identifier was not in the progress file
    when the call began. *)
Theorem batch_upload_requests (items : list dict) (batch_size : Z)
    (resume_mode : bool) (w : world) :
  trace_adds
    (posts_only endpoint (fun item =>
       item ∈ items
       /\ (endpoint = "customers" -> py_truthy (py_get item "email") = true)
       /\ (endpoint = "orders" -> resume_mode = true ->
           py_in (py_get item "woo_order_id") (completed w) = false)))
    w (batch_upload srv endpoint items batch_size resume_mode w).2.
Proof. apply adds_batch_upload. Qed.

End BatchRequests.

(** ** Endpoints other than orders *)

Lemma keeps_file_for_fold {I S} (l : list I) (body : S -> I -> M S) :
  (forall acc i, keeps_file (body acc i)) ->
  forall acc, keeps_file (for_fold l body acc).
Proof.
  intros Hbody. induction l as [ | i l IH]; intros acc; cbn [for_fold].
  - apply keeps_file_ret.
  - apply keeps_file_bind; [apply Hbody | apply IH].
Qed.

Lemma keeps_file_process_item srv endpoint completed_orders total_items
    successes item :
  endpoint <> "orders" ->
  keeps_file (process_item srv endpoint completed_orders total_items successes item).
Proof.
  intros Hne. unfold process_item.
  assert (String.eqb endpoint "orders" = false) as -> by by apply String.eqb_neq.
  cbn [andb]. apply keeps_file_try_except.
  - repeat first [apply keeps_file_upload_to_shopify | keeps_file_step].
  - intros e h [= <-]. repeat keeps_file_step.
Qed.

(** X10. For an endpoint other than ["orders"] the resume mode changes
    nothing, and the progress file is left as it was: such an upload
    records nothing to resume from. *)
Theorem batch_upload_other_endpoint (srv : server) (endpoint : string)
    (items : list dict) (batch_size : Z) (resume_mode : bool) (w : world) :
  endpoint <> "orders" ->
  batch_upload srv endpoint items batch_size resume_mode w
  = batch_upload srv endpoint items batch_size false w
  /\ file (batch_upload srv endpoint items batch_size resume_mode w).2 = file w.
Proof.
  intros Hne. unfold batch_upload.
  assert (String.eqb endpoint "orders" = false) as -> by by apply String.eqb_neq.
  cbn [andb]. split; [done | ].
  match goal with |- file (?m w).2 = _ => enough (keeps_file m) as H by apply H end.
  apply keeps_file_bind; [apply keeps_file_ret | intros completed_orders].
  apply keeps_file_bind; [apply keeps_file_print | intros _].
  apply keeps_file_bind; [apply keeps_file_eval | intros starts].
  apply keeps_file_bind; [ | intros n; repeat keeps_file_step].
  apply keeps_file_for_fold. intros acc i.
  apply keeps_file_for_fold. intros acc' item.
  by apply keeps_file_process_item.
Qed.

(** The witness: customers, against a progress file of an earlier run. *)
Lemma batch_upload_other_endpoint_witness :
  let w := {| heap := ∅; file := Progress (Some [JInt 1001]) 0; clock := 10;
              posts := 0; trace := [] |} in
  batch_upload always_created "customers" [order_paid; order_pending] 5 true w
  = batch_upload always_created "customers" [order_paid; order_pending] 5 false w
  /\ file (batch_upload always_created "customers" [order_paid; order_pending] 5
             true w).2 = Progress (Some [JInt 1001]) 0.
Proof.
  intros w.
  apply (batch_upload_other_endpoint always_created "customers"
           [order_paid; order_pending] 5 true w).
  discriminate.
Defined.

(** ** The progress store over time *)

Lemma py_eq_sym (a b : json) : py_eq a b = py_eq b a.
Proof.
  revert b. induction a as [ | x | x | x | xs IH | m IH] using json_nested_ind;
    intros [ | y | y | y | ys | n]; cbn [py_eq]; try done.
  - by destruct x, y.
  - apply Z.eqb_sym.
  - apply Z.eqb_sym.
  - apply Z.eqb_sym.
  - apply String.eqb_sym.
  - revert ys. induction IH as [ | x xs Hx _ IHxs]; intros [ | y ys]; try done.
    by rewrite Hx, IHxs.
  - revert n. induction IH as [ | [k x] m Hx _ IHm]; intros [ | [k' y] n]; try done.
    cbn [snd] in Hx. by rewrite Hx, IHm, String.eqb_sym.
Qed.

Lemma py_distinct_snoc (l : list json) (x : json) :
  py_distinct l = true -> py_in x l = false -> py_distinct (l ++ [x]) = true.
Proof.
  induction l as [ | y l IH]; [done | ]. cbn [py_distinct app].
  intros [Hy Hl]%andb_prop Hx. unfold py_in at 1 in Hx. cbn [existsb] in Hx.
  apply orb_false_elim in Hx as [Hxy Hx].
  rewrite py_in_app. unfold py_in at 2. cbn [existsb].
  rewrite (py_eq_sym y x), Hxy. apply negb_true_iff in Hy. rewrite Hy.
  cbn [orb negb andb]. by apply IH.
Qed.

(** X11. What recording an order does to the store. The identifiers that
    were stored stay, in their order, and at most the new one is put
    after them; a list without repetitions stays without repetitions; a
    missing file, a file that cannot be read and a file without the list
    are replaced by a file that lists the new identifier alone. *)
Theorem save_completed_order_store (id : json) (w : world) :
  let w' := (save_completed_order id w).2 in
  (exists suffix, completed w' = (completed w ++ suffix)%list
                  /\ (suffix = [] \/ suffix = [id]))
  /\ (py_distinct (completed w) = true -> py_distinct (completed w') = true)
  /\ (forall stamp, file w = NoFile \/ file w = Unreadable
                    \/ file w = Progress None stamp ->
        file w' = Progress (Some [id]) (clock w)).
Proof.
  intros w'. subst w'. rewrite run_save_completed_order.
  destruct (py_in id (completed w)) eqn:Hin; split_and!.
  - exists []. split; [by rewrite app_nil_r | by left].
  - done.
  - intros stamp Hfile. unfold completed in Hin.
    by destruct Hfile as [H | [H | H]]; rewrite H in Hin.
  - exists [id]. split; [by rewrite completed_dump_progress | by right].
  - intros Hdistinct. rewrite completed_dump_progress.
    by apply py_distinct_snoc.
  - intros stamp Hfile. unfold completed.
    by destruct Hfile as [H | [H | H]]; rewrite H.
Qed.

(** The witness: a second order recorded after [1001]. *)
Lemma save_completed_order_store_witness :
  let w := {| heap := ∅; file := Progress (Some [JInt 1001]) 0; clock := 10;
              posts := 0; trace := [] |} in
  py_distinct (completed (save_completed_order (JInt 1002) w).2) = true
  /\ file (save_completed_order (JInt 7) world0).2 = Progress (Some [JInt 7]) 0.
Proof.
  intros w. split.
  - apply (proj1 (proj2 (save_completed_order_store (JInt 1002) w))). reflexivity.
  - apply (proj2 (proj2 (save_completed_order_store (JInt 7) world0)) 0).
    by left.
Defined.

(** ** The numbers that the phone normalizer gives *)

Lemma is_digits_re_sub_non_digits (s : string) :
  is_digits (re_sub_non_digits s) = true.
Proof.
  induction s as [ | c s IH]; [done | ]. cbn [re_sub_non_digits].
  destruct (is_digit c) eqn:Hc; [ | done]. cbn [is_digits]. by rewrite Hc.
Qed.

Lemma re_sub_non_digits_digits (s : string) :
  is_digits s = true -> re_sub_non_digits s = s.
Proof.
  induction s as [ | c s IH]; [done | ]. cbn [is_digits re_sub_non_digits].
  intros [Hc Hs]%andb_prop. rewrite Hc. by rewrite IH.
Qed.

Section PhoneNumbers.

Variable py_repr : json -> string.

(** A result is ["+"] and eleven or more digits: those of the input, or
    ["1"] and the ten of the input. *)
Lemma format_phone_e164_some (phone : json) (s : string) :
  format_phone_e164 py_repr phone = Some s ->
  let digits := re_sub_non_digits (py_str py_repr phone) in
  exists d,
    s = "+" +:+ d /\ is_digits d = true /\ (11 <= String.length d)%nat
    /\ ((d = digits /\ (11 <= String.length digits)%nat)
        \/ (d = "1" +:+ digits /\ String.length digits = 10%nat)).
Proof.
  intros H digits. destruct (py_truthy phone) eqn:Hphone.
  2: { unfold format_phone_e164 in H. by rewrite Hphone in H. }
  rewrite (format_phone_e164_truthy py_repr phone Hphone) in H.
  cbv zeta in H. fold digits in H.
  pose proof (is_digits_re_sub_non_digits (py_str py_repr phone)) as Hdigits.
  fold digits in Hdigits.
  destruct (Nat.eqb_spec (String.length digits) 10) as [H10 | H10].
  - injection H as <-. exists ("1" +:+ digits). split_and!; [done | | | ].
    + cbn. exact Hdigits.
    + change (String.length ("1" +:+ digits)) with (S (String.length digits)).
      lia.
    + by right.
  - destruct (Nat.leb_spec 10 (String.length digits)); [ | done].
    injection H as <-. exists digits. split_and!; [done | done | lia | ].
    left. split; [done | lia].
Qed.

(** X12. A number that the phone normalizer gives is ["+"] and then
    digits only, eleven or more: the digits of the input, with ["1"]
    before them when they are ten. No upper bound holds: the fifteen
    digits that E.164 allows are not enforced. *)
Theorem format_phone_e164_shape (phone : json) (s : string) :
  format_phone_e164 py_repr phone = Some s ->
  let digits := re_sub_non_digits (py_str py_repr phone) in
  exists d,
    s = "+" +:+ d /\ is_digits d = true /\ (11 <= String.length d)%nat
    /\ ((d = digits /\ (11 <= String.length digits)%nat)
        \/ (d = "1" +:+ digits /\ String.length digits = 10%nat)).
Proof. apply format_phone_e164_some. Qed.

(** X13. The phone normalizer leaves its own results alone: what it gives
    for a result is that result. *)
Theorem format_phone_e164_idempotent (phone : json) (s : string) :
  format_phone_e164 py_repr phone = Some s ->
  format_phone_e164 py_repr (JStr s) = Some s.
Proof.
  intros H. apply format_phone_e164_some in H as (d & -> & Hd & Hlen & _).
  rewrite format_phone_e164_truthy by done. cbv zeta.
  change (py_str py_repr (JStr ("+" +:+ d))) with ("+" +:+ d).
  change (re_sub_non_digits ("+" +:+ d)) with (re_sub_non_digits d).
  rewrite (re_sub_non_digits_digits d Hd).
  destruct (Nat.eqb_spec (String.length d) 10); [lia | ].
  destruct (Nat.leb_spec 10 (String.length d)); [done | lia].
Qed.

End PhoneNumbers.

Lemma format_phone_e164_shape_witness :
  exists d,
    "+15551234567" = "+" +:+ d /\ is_digits d = true /\ (11 <= String.length d)%nat
    /\ ((d = "5551234567" /\ (11 <= String.length "5551234567")%nat)
        \/ (d = "1" +:+ "5551234567" /\ String.length "5551234567" = 10%nat)).
Proof.
  apply (format_phone_e164_shape (fun _ => "") (JStr "(555) 123-4567")
           "+15551234567").
  reflexivity.
Defined.

Lemma format_phone_e164_idempotent_witness :
  format_phone_e164 (fun _ => "") (JStr "+15551234567") = Some "+15551234567".
Proof.
  apply (format_phone_e164_idempotent (fun _ => "") (JStr "(555) 123-4567")).
  reflexivity.
Defined.

(** ** The sanitizer, run again *)

Lemma written_again (d d' : dict) :
  written d = Some d' -> written d' = None \/ written d' = Some d'.
Proof.
  unfold written.
  destruct (py_eq (py_get d "financial_status") (JStr "paid")) eqn:Hpaid.
  - destruct (negb (py_truthy (py_get d "processed_at")) || _); [ | done].
    intros [= <-]. rewrite py_get_insert_ne, Hpaid by done.
    destruct (negb (py_truthy (py_get (<[_ := _]> d) _)) || _); [ | by left].
    right. apply (f_equal Some).
    rewrite py_get_insert_ne by done. apply insert_insert_eq.
  - destruct (bool_decide _); [ | done]. intros [= <-].
    rewrite py_get_delete_ne, Hpaid by done.
    rewrite bool_decide_eq_false_2; [by left | ].
    rewrite lookup_delete_eq. by intros [? ?].
Qed.

(** X14. The sanitizer, run a second time on the same order, gives the
    verdict of the first run and changes no object. *)
Theorem sanitizer_idempotent (r : loc) (w : world) :
  let run1 := fix_order_data_for_shopify r w in
  let run2 := fix_order_data_for_shopify r run1.2 in
  run2.1 = run1.1 /\ heap run2.2 = heap run1.2.
Proof.
  intros run1 run2. subst run1 run2.
  pose proof (run_fix_order_data_for_shopify r w) as H1. cbv zeta in H1.
  destruct (py_eq (py_get (heap w !!! r) "financial_status") (JStr "voided"))
    eqn:Hvoided.
  { rewrite H1. cbn [fst snd].
    pose proof (run_fix_order_data_for_shopify r
                  (log w [Print (MsgSkipVoided (py_get (heap w !!! r) "woo_order_id"))]))
      as H2.
    cbv zeta in H2. rewrite heap_log, Hvoided in H2. by rewrite H2. }
  destruct (py_le_int (py_get_default (heap w !!! r) "woo_order_id" (JInt 0)) 5)
    as [dbg | e] eqn:Hdbg.
  2: { rewrite H1. cbn [fst snd]. by rewrite H1. }
  destruct H1 as (events & H1). rewrite H1. cbn [fst snd].
  match goal with
  | |- context [fix_order_data_for_shopify r ?w1] =>
      pose proof (run_fix_order_data_for_shopify r w1) as H2; cbv zeta in H2;
      remember w1 as w' eqn:Hw'
  end.
  assert (Hd' : heap w' !!! r = default (heap w !!! r) (written (heap w !!! r))).
  { subst w'. rewrite heap_log. destruct (written _); [ | done].
    by rewrite heap_set_heap, lookup_total_insert_eq. }
  assert (Hkeys : forall k, k <> "processed_at" ->
            (heap w' !!! r) !! k = (heap w !!! r) !! k).
  { intros k Hk. rewrite Hd'. destruct (written _) eqn:Hwritten; [ | done].
    by apply (written_other_keys _ _ _ Hwritten). }
  unfold py_get, py_get_default in *.
  rewrite !Hkeys in H2 by done. rewrite Hvoided, Hdbg in H2.
  destruct H2 as (events' & ->). cbn [fst snd]. split; [done | ].
  rewrite heap_log.
  destruct (written (heap w' !!! r)) as [d'' | ] eqn:Hagain; [ | done].
  rewrite heap_set_heap. rewrite Hd' in Hagain.
  destruct (written (heap w !!! r)) as [d' | ] eqn:Hwritten; cbn in Hagain.
  - destruct (written_again _ _ Hwritten) as [Hnone | Hsame]; [congruence | ].
    assert (d'' = d') as -> by congruence. subst w'.
    rewrite heap_log, heap_set_heap. apply insert_insert_eq.
  - congruence.
Qed.

(** X15. The verdict of the sanitizer. A voided order is excluded. For
    any other order the guard of the debug prints compares its
    [woo_order_id] (0 when it has none) with 5: when that is [None], a
    [str], a [list] or a [dict] the call raises [TypeError] and has done
    nothing; when it is an [int] or a [bool] the order is excluded when
    its [email] counts as false, and returned when it counts as true. *)
Theorem sanitizer_verdict (r : loc) (w : world) :
  let d := heap w !!! r in
  let run := fix_order_data_for_shopify r w in
  let id := py_get_default d "woo_order_id" (JInt 0) in
  (py_get d "financial_status" = JStr "voided" -> run.1 = Ret None)
  /\ (py_get d "financial_status" <> JStr "voided" ->
      id = JNull \/ (exists s, id = JStr s) \/ (exists items, id = JArr items)
      \/ (exists fields, id = JObj fields) ->
      run = (Raise TypeError, w))
  /\ (py_get d "financial_status" <> JStr "voided" ->
      (exists z, id = JInt z) \/ (exists b, id = JBool b) ->
      run.1 = Ret (if py_truthy (py_get d "email") then Some r else None)).
Proof.
  intros d run id. subst run id.
  pose proof (run_fix_order_data_for_shopify r w) as H. cbv zeta in H.
  fold d in H.
  destruct (py_eq (py_get d "financial_status") (JStr "voided")) eqn:Hvoided.
  { apply py_eq_str in Hvoided. split_and!; [by rewrite H | done | done]. }
  assert (Hne : py_get d "financial_status" <> JStr "voided").
  { intros Heq. apply py_eq_str in Heq. congruence. }
  split_and!; [done | | ]; intros _ Hid.
  - destruct Hid as [Hid | [[s Hid] | [[items Hid] | [fields Hid]]]];
      rewrite Hid in H; exact H.
  - destruct Hid as [[z Hid] | [b Hid]];
      rewrite Hid in H; cbn in H; destruct H as (events & ->); done.
Qed.

(** The witness: an order whose identifier is the string ["1001"]. *)
Lemma sanitizer_verdict_witness :
  fix_order_data_for_shopify 1
    (world_with (<["woo_order_id" := JStr "1001"]> order_paid))
  = (Raise TypeError, world_with (<["woo_order_id" := JStr "1001"]> order_paid)).
Proof.
  apply (proj1 (proj2 (sanitizer_verdict 1
           (world_with (<["woo_order_id" := JStr "1001"]> order_paid)))));
    [discriminate | right; left; by exists "1001"].
Defined.

(** ** Calls that work on objects *)

#[global] Instance keeps_objects_preorder : PreOrder keeps_objects.
Proof.
  split; [done | ]. intros w1 w2 w3 H12 H23 r Hr.
  rewrite H23, H12; [done | done | ].
  apply elem_of_dom. rewrite H12 by done. by apply elem_of_dom.
Qed.

#[global] Instance changes_only_preorder (P : loc -> Prop) : PreOrder (changes_only P).
Proof.
  split; [done | ]. intros w1 w2 w3 H12 H23 r Hr. by rewrite H23, H12.
Qed.

#[global] Instance keeps_fields_preorder (K : string -> Prop) : PreOrder (keeps_fields K).
Proof.
  split; [done | ]. intros w1 w2 w3 H12 H23 r k Hk. by rewrite H23, H12.
Qed.

#[global] Instance only_heap_preorder : PreOrder only_heap.
Proof.
  split; [done | ].
  intros w1 w2 w3 (? & ? & ? & ?) (? & ? & ? & ?). unfold only_heap.
  split_and!; congruence.
Qed.

#[global] Instance same_outside_heap_preorder : PreOrder same_outside_heap.
Proof.
  split.
  - intros w. split_and!; [done | done | done | ]. exists []. by rewrite app_nil_r.
  - intros w1 w2 w3 (? & ? & ? & ev1 & Hev1) (? & ? & ? & ev2 & Hev2).
    split_and!; [congruence | congruence | congruence | ].
    exists (ev1 ++ ev2)%list. by rewrite Hev2, Hev1, app_assoc.
Qed.

Lemma only_heap_same_outside_heap (w w' : world) :
  only_heap w w' -> same_outside_heap w w'.
Proof.
  intros (? & ? & ? & Htrace). split_and!; [done | done | done | ].
  exists []. by rewrite app_nil_r.
Qed.

Lemma changes_only_weaken (P P' : loc -> Prop) (w w' : world) :
  (forall r, P r -> P' r) -> changes_only P w w' -> changes_only P' w w'.
Proof. intros HP H r Hr. apply H. intros HPr. by apply Hr, HP. Qed.

(** *** The primitive calls *)

Lemma run_alloc (d : dict) (w : world) :
  alloc d w = (Ret (fresh (dom (heap w))),
               set_heap (<[fresh (dom (heap w)) := d]> (heap w)) w).
Proof. done. Qed.

Lemma run_dict_truthy (r : loc) (w : world) :
  dict_truthy r w = (Ret (negb (bool_decide (heap w !!! r = ∅))), w).
Proof. done. Qed.

Lemma fresh_not_in_heap (w : world) : heap w !! fresh (dom (heap w)) = None.
Proof. apply not_elem_of_dom, is_fresh. Qed.

Lemma only_heap_alloc d : steps only_heap (alloc d).
Proof. by intros w. Qed.

Lemma only_heap_deepcopy r : steps only_heap (deepcopy r).
Proof. by intros w. Qed.

Lemma only_heap_dict_set r k v : steps only_heap (dict_set r k v).
Proof. by intros w. Qed.

Lemma only_heap_dict_del r k : steps only_heap (dict_del r k).
Proof. by intros w. Qed.

Lemma steps_dict_truthy (R : relation world) `{!PreOrder R} r :
  steps R (dict_truthy r).
Proof. intros w. reflexivity. Qed.

Lemma steps_read_orders (R : relation world) `{!PreOrder R} l :
  steps R (read_orders l).
Proof. intros w. reflexivity. Qed.

Section NestedObjects.

Context (R : relation world) `{!PreOrder R}.

Lemma steps_dict_set_in r k field v :
  (forall v', steps R (dict_set r k v')) -> steps R (dict_set_in r k field v).
Proof.
  intros Hset. unfold dict_set_in.
  apply steps_bind; [apply _ | apply steps_dict_item; apply _ | ].
  intros obj. destruct obj; try (apply steps_raise; apply _). apply Hset.
Qed.

Lemma steps_dict_get_in r k field : steps R (dict_get_in r k field).
Proof.
  unfold dict_get_in.
  apply steps_bind; [apply _ | apply steps_dict_item; apply _ | ].
  intros obj. destruct obj; first [apply steps_raise; apply _ | apply steps_ret; apply _].
Qed.

Lemma steps_dict_get_default_in r k field : steps R (dict_get_default_in r k field).
Proof.
  unfold dict_get_default_in.
  apply steps_bind; [apply _ | apply steps_dict_get_default; apply _ | ].
  intros obj. destruct obj; first [apply steps_raise; apply _ | apply steps_ret; apply _].
Qed.

Lemma steps_dict_item_in r k field : steps R (dict_item_in r k field).
Proof.
  unfold dict_item_in.
  apply steps_bind; [apply _ | apply steps_dict_item; apply _ | ].
  intros obj. destruct obj; try (apply steps_raise; apply _).
  destruct (obj_get _ _); first [apply steps_raise; apply _ | apply steps_ret; apply _].
Qed.

End NestedObjects.

Lemma changes_only_print P m : steps (changes_only P) (print m).
Proof. by intros w r Hr. Qed.

Lemma changes_only_dict_set (P : loc -> Prop) r k v :
  P r -> steps (changes_only P) (dict_set r k v).
Proof.
  intros HP w r' Hr'. cbn. apply lookup_insert_ne. by intros ->.
Qed.

Lemma changes_only_dict_del (P : loc -> Prop) r k :
  P r -> steps (changes_only P) (dict_del r k).
Proof.
  intros HP w r' Hr'. cbn. apply lookup_insert_ne. by intros ->.
Qed.

Lemma keeps_fields_print K m : steps (keeps_fields K) (print m).
Proof. by intros w r k Hk. Qed.

Lemma keeps_fields_dict_set (K : string -> Prop) r k v :
  ~ K k -> steps (keeps_fields K) (dict_set r k v).
Proof.
  intros HK w r' k' Hk'. cbn. destruct (decide (r' = r)) as [-> | Hne].
  - rewrite lookup_total_insert_eq. apply lookup_insert_ne. by intros ->.
  - by rewrite lookup_total_insert_ne.
Qed.

Lemma same_outside_heap_print m : steps same_outside_heap (print m).
Proof. intros w. rewrite run_print. apply same_outside_heap_log. Qed.

Lemma same_outside_heap_only_heap {A} (m : M A) :
  steps only_heap m -> steps same_outside_heap m.
Proof. apply steps_weaken, only_heap_same_outside_heap. Qed.

(** Break a call on objects into its primitive calls. *)
Ltac objects_with leaf :=
  repeat first
    [ apply steps_ret; apply _ | apply steps_mret; apply _
    | apply steps_raise; apply _ | apply steps_eval; apply _
    | apply steps_dict_get; apply _ | apply steps_dict_get_default; apply _
    | apply steps_dict_contains; apply _ | apply steps_dict_item; apply _
    | apply steps_dict_truthy; apply _
    | apply steps_dict_get_in; apply _
    | apply steps_dict_get_default_in; apply _
    | apply steps_dict_item_in; apply _
    | apply steps_dict_set_in; [apply _ | intros ? ]
    | apply steps_when; [apply _ | ]
    | apply steps_bind; [apply _ | | intros ? ]
    | match goal with
      | |- steps _ (if ?c then _ else _) => destruct c
      | |- steps _ (match ?x with _ => _ end) => destruct x
      end
    | leaf ].

Ltac only_heap_leaf :=
  first [ apply only_heap_alloc | apply only_heap_deepcopy
        | apply only_heap_dict_set | apply only_heap_dict_del ].

Lemma same_outside_heap_fix_order_data_for_shopify r :
  steps same_outside_heap (fix_order_data_for_shopify r).
Proof. intros w. apply fix_order_data_for_shopify_frame. Qed.

Lemma changes_only_fix_order_data_for_shopify (P : loc -> Prop) r :
  P r -> steps (changes_only P) (fix_order_data_for_shopify r).
Proof.
  intros HP. unfold fix_order_data_for_shopify, debug_order.
  objects_with ltac:(first [ apply changes_only_print
                           | by apply changes_only_dict_set
                           | by apply changes_only_dict_del ]).
Qed.

Lemma keeps_fields_fix_order_data_for_shopify (K : string -> Prop) r :
  ~ K "processed_at" -> steps (keeps_fields K) (fix_order_data_for_shopify r).
Proof.
  intros HK. unfold fix_order_data_for_shopify, debug_order.
  assert (Hdel : steps (keeps_fields K) (dict_del r "processed_at")).
  { intros w r' k' Hk'. cbn. destruct (decide (r' = r)) as [-> | Hne].
    - rewrite lookup_total_insert_eq. apply lookup_delete_ne. by intros <-.
    - by rewrite lookup_total_insert_ne. }
  objects_with ltac:(first [ apply keeps_fields_print
                           | by apply keeps_fields_dict_set
                           | apply Hdel ]).
Qed.

(** ** Nested objects *)

Lemma obj_get_set_eq (fields : list (string * json)) (k : string) (v : json) :
  obj_get (obj_set fields k v) k = Some v.
Proof.
  induction fields as [ | [k' v'] fields IH]; cbn [obj_set obj_get].
  - by rewrite String.eqb_refl.
  - destruct (String.eqb k' k) eqn:Hk; cbn [obj_get].
    + by rewrite String.eqb_refl.
    + by rewrite Hk.
Qed.

Lemma obj_get_set_ne (fields : list (string * json)) (k k' : string) (v : json) :
  k <> k' -> obj_get (obj_set fields k v) k' = obj_get fields k'.
Proof.
  intros Hne. induction fields as [ | [k0 v0] fields IH]; cbn [obj_set obj_get].
  - by rewrite (proj2 (String.eqb_neq _ _) Hne).
  - destruct (String.eqb k0 k) eqn:Hk; cbn [obj_get].
    + apply String.eqb_eq in Hk as ->.
      by rewrite !(proj2 (String.eqb_neq _ _) Hne).
    + by rewrite IH.
Qed.

(** What a nested assignment that did not raise has done. *)
Lemma dict_set_in_inv (r : loc) (k field : string) (v : json) (w w' : world) :
  dict_set_in r k field v w = (Ret tt, w') ->
  exists fields,
    (heap w !!! r) !! k = Some (JObj fields)
    /\ w' = set_heap (<[r := <[k := JObj (obj_set fields field v)]> (heap w !!! r)]>
                        (heap w)) w.
Proof.
  unfold dict_set_in. rewrite run_bind. unfold dict_item.
  destruct ((heap w !!! r) !! k) as [obj | ] eqn:Hobj; [ | done].
  destruct obj as [ | | | | | fields]; try done.
  rewrite run_dict_set. intros [= <-]. by exists fields.
Qed.

Lemma dict_get_in_inv (r : loc) (k field : string) (v : json) (w w' : world) :
  dict_get_in r k field w = (Ret v, w') ->
  w' = w
  /\ exists fields,
       (heap w !!! r) !! k = Some (JObj fields)
       /\ v = default JNull (obj_get fields field).
Proof.
  unfold dict_get_in. rewrite run_bind. unfold dict_item.
  destruct ((heap w !!! r) !! k) as [obj | ] eqn:Hobj; [ | done].
  destruct obj as [ | | | | | fields]; try done.
  rewrite run_ret. intros [= <- <-]. split; [done | by exists fields].
Qed.

Lemma dict_item_inv (r : loc) (k : string) (v : json) (w w' : world) :
  dict_item r k w = (Ret v, w') -> w' = w /\ (heap w !!! r) !! k = Some v.
Proof.
  unfold dict_item. destruct ((heap w !!! r) !! k); [ | done].
  by intros [= <- <-].
Qed.

Lemma heap_set_lookup (r : loc) (d : dict) (w : world) :
  heap (set_heap (<[r := d]> (heap w)) w) !!! r = d.
Proof. by rewrite heap_set_heap, lookup_total_insert_eq. Qed.

(** ** Normalized phones *)

Lemma normalized_phone_format (py_repr : json -> string) (v : json) :
  normalized_phone (py_optional (format_phone_e164 py_repr v)).
Proof.
  destruct (format_phone_e164 py_repr v) as [s | ] eqn:Hs; [ | by left].
  apply format_phone_e164_some in Hs as (d & -> & Hd & Hlen & _).
  right. by exists d.
Qed.

Lemma normalized_phone_falsy (v : json) : py_truthy v = false -> normalized_phone v.
Proof. by left. Qed.

Section TestData.

Variable py_repr : json -> string.

(** *** The blocks of the loop body *)

Lemma billing_block_inv (r : loc) (n : Z) (w w' : world) :
  when (py_truthy (py_get (heap w !!! r) "billing_address"))
    (dict_set_in r "billing_address" "first_name" (JStr "Test");;
     dict_set_in r "billing_address" "last_name" (JStr ("Customer" +:+ pretty n));;
     phone ← dict_get_in r "billing_address" "phone";
     dict_set_in r "billing_address" "phone"
       (py_optional (format_phone_e164 py_repr phone))) w = (Ret tt, w') ->
  (forall k, k <> "billing_address" -> (heap w' !!! r) !! k = (heap w !!! r) !! k)
  /\ (py_truthy (py_get (heap w !!! r) "billing_address") = true ->
      test_names n (py_get (heap w' !!! r) "billing_address")
      /\ normalized_phone (phone_in (heap w' !!! r) "billing_address")).
Proof.
  destruct (py_truthy _) eqn:Htruthy; cbn [when].
  2: { rewrite run_ret. intros [= <-]. done. }
  intros H.
  apply bind_ret_inv in H as ([] & w1 & H1 & H).
  apply bind_ret_inv in H as ([] & w2 & H2 & H).
  apply bind_ret_inv in H as (phone & w3 & H3 & H).
  apply dict_set_in_inv in H1 as (f1 & Hf1 & ->).
  apply dict_set_in_inv in H2 as (f2 & Hf2 & ->).
  apply dict_get_in_inv in H3 as (-> & f3 & Hf3 & ->).
  apply dict_set_in_inv in H as (f4 & Hf4 & ->).
  rewrite ?heap_set_lookup, ?heap_set_heap in *.
  rewrite lookup_insert_eq in Hf2, Hf3, Hf4. simplify_eq.
  split.
  - intros k Hk. by rewrite !lookup_insert_ne.
  - intros _. unfold phone_in, py_get. rewrite !lookup_insert_eq. cbn.
    split.
    + eexists. split; [done | ].
      rewrite !obj_get_set_ne, obj_get_set_eq by done.
      rewrite obj_get_set_ne, obj_get_set_eq by done. done.
    + rewrite obj_get_set_eq. cbn. apply normalized_phone_format.
Qed.

Lemma shipping_block_inv (r : loc) (n : Z) (w w' : world) :
  when (py_truthy (py_get (heap w !!! r) "shipping_address"))
    (dict_set_in r "shipping_address" "first_name" (JStr "Test");;
     dict_set_in r "shipping_address" "last_name"
       (JStr ("Customer" +:+ pretty n))) w = (Ret tt, w') ->
  (forall k, k <> "shipping_address" -> (heap w' !!! r) !! k = (heap w !!! r) !! k)
  /\ (py_truthy (py_get (heap w !!! r) "shipping_address") = true ->
      test_names n (py_get (heap w' !!! r) "shipping_address")).
Proof.
  destruct (py_truthy _) eqn:Htruthy; cbn [when].
  2: { rewrite run_ret. intros [= <-]. done. }
  intros H.
  apply bind_ret_inv in H as ([] & w1 & H1 & H).
  apply dict_set_in_inv in H1 as (f1 & Hf1 & ->).
  apply dict_set_in_inv in H as (f2 & Hf2 & ->).
  rewrite ?heap_set_lookup, ?heap_set_heap in *.
  rewrite lookup_insert_eq in Hf2. simplify_eq.
  split.
  - intros k Hk. by rewrite !lookup_insert_ne.
  - intros _. unfold py_get. rewrite !lookup_insert_eq. cbn.
    eexists. split; [done | ].
    by rewrite obj_get_set_ne, !obj_get_set_eq.
Qed.

Lemma phone_block_inv (r : loc) (w w' : world) :
  when (py_truthy (py_get (heap w !!! r) "phone"))
    (phone ← dict_item r "phone";
     dict_set r "phone" (py_optional (format_phone_e164 py_repr phone))) w
    = (Ret tt, w') ->
  (forall k, k <> "phone" -> (heap w' !!! r) !! k = (heap w !!! r) !! k)
  /\ normalized_phone (py_get (heap w' !!! r) "phone").
Proof.
  destruct (py_truthy _) eqn:Htruthy; cbn [when].
  2: { rewrite run_ret. intros [= <-]. split; [done | by left]. }
  intros H.
  apply bind_ret_inv in H as (phone & w1 & H1 & H).
  apply dict_item_inv in H1 as (-> & Hphone).
  rewrite run_dict_set in H. injection H as <-.
  rewrite heap_set_lookup. split.
  - intros k Hk. by rewrite lookup_insert_ne.
  - unfold py_get. rewrite lookup_insert_eq. apply normalized_phone_format.
Qed.

(** *** One pass of the loop *)

#[global] Instance unchanged_preorder : PreOrder unchanged.
Proof. split; [done | ]. intros w1 w2 w3. unfold unchanged. congruence. Qed.

Lemma unchanged_date_block (r : loc) (fulfillment : json) :
  steps unchanged
    (when (py_eq fulfillment (JStr "fulfilled"))
       (order_date ← dict_get_default r "created_at" (JStr "");
        when (py_truthy order_date)
          (eval (py_slice_to 10 order_date);; ret tt))).
Proof. objects_with fail. Qed.

(** A pass that did not raise has put the test order made of [orders[i]]
    at a new reference, which it added to the list. *)
Lemma dummy_order_body_ret (orders dummy_orders : list loc) (i : nat)
    (w : world) (dummy_orders' : list loc) (w' : world) :
  dummy_order_body py_repr orders dummy_orders (Z.of_nat i) w
    = (Ret dummy_orders', w') ->
  let r := fresh (dom (heap w)) in
  dummy_orders' = (dummy_orders ++ [r])%list
  /\ dummy_of py_repr i (heap w !!! (orders !!! i)) (heap w' !!! r).
Proof.
  intros H r. unfold dummy_order_body in H. rewrite Nat2Z.id in H.
  apply bind_ret_inv in H as (r' & w1 & Hcopy & H).
  unfold deepcopy in Hcopy. rewrite run_alloc in Hcopy.
  injection Hcopy as <- <-. fold r in H.
  set (original := heap w !!! (orders !!! i)) in *.
  apply bind_ret_inv in H as ([] & w2 & Hemail & H).
  rewrite run_dict_set, heap_set_lookup in Hemail.
  assert (Hd2 : heap w2 !!! r
                = <["email" := JStr (test_emails !!! Z.to_nat
                      (Z.of_nat i mod Z.of_nat (length test_emails)))]> original).
  { injection Hemail as <-. by rewrite heap_set_heap, lookup_total_insert_eq. }
  clear Hemail.
  apply bind_ret_inv in H as (fulfillment & w3 & Hful & H).
  rewrite run_dict_get in Hful. injection Hful as <- <-.
  apply bind_ret_inv in H as ([] & w4 & Hdate & H).
  pose proof (unchanged_date_block r
                (py_get (heap w2 !!! r) "fulfillment_status") w2) as Hsame.
  rewrite Hdate in Hsame. unfold unchanged in Hsame. cbn [snd] in Hsame.
  subst w4. clear Hdate.
  apply bind_ret_inv in H as (billing & w5 & Hbilling & H).
  rewrite run_dict_get in Hbilling. injection Hbilling as <- <-.
  apply bind_ret_inv in H as ([] & w5 & Hbill & H).
  apply billing_block_inv in Hbill as (Hbill_keys & Hbill).
  apply bind_ret_inv in H as (phone & w6 & Hphone & H).
  rewrite run_dict_get in Hphone. injection Hphone as <- <-.
  apply bind_ret_inv in H as ([] & w6 & Hph & H).
  apply phone_block_inv in Hph as (Hph_keys & Hph).
  apply bind_ret_inv in H as (shipping & w7 & Hshipping & H).
  rewrite run_dict_get in Hshipping. injection Hshipping as <- <-.
  apply bind_ret_inv in H as ([] & w7 & Hship & H).
  apply shipping_block_inv in Hship as (Hship_keys & Hship).
  apply bind_ret_inv in H as (id & w8 & Hid & H).
  rewrite run_dict_get in Hid. injection Hid as <- <-.
  apply bind_ret_inv in H as ([] & w8 & Hnote & H).
  rewrite run_dict_set in Hnote. injection Hnote as <-.
  rewrite run_ret in H. injection H as <- <-.
  split; [done | ]. rewrite heap_set_lookup.
  assert (Hkeys : forall k, k <> "email" -> k <> "billing_address" ->
            k <> "phone" -> k <> "shipping_address" ->
            (heap w7 !!! r) !! k = original !! k).
  { intros k ? ? ? ?.
    rewrite Hship_keys, Hph_keys, Hbill_keys, Hd2 by done.
    by rewrite lookup_insert_ne. }
  unfold dummy_of, py_get, phone_in. split_and!.
  - rewrite lookup_insert_ne by done.
    rewrite Hship_keys, Hph_keys, Hbill_keys, Hd2 by done.
    rewrite lookup_insert_eq. do 3 f_equal.
    change (Z.of_nat (length test_emails)) with 4.
    rewrite Z2Nat.inj_mod by lia. by rewrite Nat2Z.id.
  - intros k Hk. unfold test_data_keys in Hk.
    apply not_elem_of_cons in Hk as (? & Hk).
    apply not_elem_of_cons in Hk as (? & Hk).
    apply not_elem_of_cons in Hk as (? & Hk).
    apply not_elem_of_cons in Hk as (? & Hk).
    apply not_elem_of_cons in Hk as (? & _).
    rewrite lookup_insert_ne by done. by apply Hkeys.
  - rewrite lookup_insert_eq. unfold py_get. by rewrite Hkeys.
  - intros Horiginal. rewrite lookup_insert_ne by done.
    rewrite Hship_keys, Hph_keys by done.
    apply Hbill. unfold py_get. rewrite Hd2.
    by rewrite lookup_insert_ne.
  - intros Horiginal. rewrite lookup_insert_ne by done.
    apply Hship. unfold py_get.
    rewrite Hph_keys, Hbill_keys, Hd2 by done.
    by rewrite lookup_insert_ne.
  - rewrite lookup_insert_ne by done. rewrite Hship_keys by done. apply Hph.
Qed.

End TestData.

(** ** Loops with an invariant *)

(** [Inv done acc w] holds of the passes [done] made so far, the value
    [acc] of the variable and the state [w]. *)
Lemma for_fold_invariant {I S} (Inv : list I -> S -> world -> Prop)
    (l : list I) (body : S -> I -> M S) :
  (forall done i acc w acc' w',
     (exists rest, l = (done ++ i :: rest)%list) ->
     Inv done acc w -> body acc i w = (Ret acc', w') ->
     Inv (done ++ [i])%list acc' w') ->
  forall acc w acc' w',
    Inv [] acc w -> for_fold l body acc w = (Ret acc', w') -> Inv l acc' w'.
Proof.
  intros Hbody.
  enough (forall rest done acc w acc' w',
            l = (done ++ rest)%list -> Inv done acc w ->
            for_fold rest body acc w = (Ret acc', w') -> Inv l acc' w') as H.
  { intros acc w acc' w'. by apply (H l []). }
  induction rest as [ | i rest IH]; intros done acc w acc' w' Hl Hinv Hrun.
  - cbn in Hrun. injection Hrun as <- <-. by rewrite Hl, app_nil_r.
  - cbn [for_fold] in Hrun. apply bind_ret_inv in Hrun as (acc1 & w1 & Hi & Hrun).
    apply (IH (done ++ [i])%list acc1 w1); [by rewrite <- app_assoc | | done].
    by apply (Hbody done i acc w); [exists rest | | ].
Qed.

Lemma py_range_nth (n : Z) (done rest : list Z) (i : Z) :
  py_range n = (done ++ i :: rest)%list -> i = Z.of_nat (length done).
Proof.
  intros H.
  assert (py_range n !! length done = Some i) as Hi.
  { rewrite H. by apply list_lookup_middle. }
  unfold py_range in Hi. rewrite list_lookup_fmap in Hi.
  destruct (seq 0 (Z.to_nat n) !! length done) as [k | ] eqn:Hk; [ | done].
  apply lookup_seq in Hk as [-> _]. by injection Hi as <-.
Qed.

(** ** Objects that a call makes *)

Lemma keeps_objects_lookup_total (w w' : world) (r : loc) :
  keeps_objects w w' -> r ∈ dom (heap w) -> heap w' !!! r = heap w !!! r.
Proof. intros H Hr. rewrite !lookup_total_alt. by rewrite H. Qed.

Lemma keeps_objects_dom (w w' : world) (r : loc) :
  keeps_objects w w' -> r ∈ dom (heap w) -> r ∈ dom (heap w').
Proof.
  intros H Hr. apply elem_of_dom. rewrite H by done. by apply elem_of_dom.
Qed.

(** A call that makes an object and then works on that object only. *)
Lemma keeps_objects_new {A} (m : M loc) (k : loc -> M A) :
  (forall w, exists d, m w = alloc d w) ->
  (forall r, steps (changes_only (eq r)) (k r)) ->
  steps keeps_objects (m ≫= k).
Proof.
  intros Hm Hk w. rewrite run_bind. destruct (Hm w) as (d & ->).
  rewrite run_alloc. intros r' Hr'.
  rewrite (Hk (fresh (dom (heap w))) _ r').
  - rewrite heap_set_heap. apply lookup_insert_ne. intros <-.
    by apply is_fresh in Hr'.
  - intros <-. by apply is_fresh in Hr'.
Qed.

Lemma lookup_total_is_Some_dom (w : world) (r : loc) (k : string) :
  is_Some ((heap w !!! r) !! k) -> r ∈ dom (heap w).
Proof.
  intros [v Hv]. apply elem_of_dom. rewrite lookup_total_alt in Hv.
  destruct (heap w !! r); [done | ]. cbn in Hv. by rewrite lookup_empty in Hv.
Qed.

Section TestOrders.

Variable py_repr : json -> string.

Lemma keeps_objects_dummy_order_body orders dummy_orders i :
  steps keeps_objects (dummy_order_body py_repr orders dummy_orders i).
Proof.
  unfold dummy_order_body. apply keeps_objects_new.
  - intros w. by eexists.
  - intros r. objects_with ltac:(by apply changes_only_dict_set).
Qed.

Lemma only_heap_create_dummy_test_orders orders test_count :
  steps only_heap (create_dummy_test_orders py_repr orders test_count).
Proof.
  unfold create_dummy_test_orders. apply steps_for_fold; [apply _ | ].
  intros dummy_orders i _. unfold dummy_order_body. objects_with only_heap_leaf.
Qed.

Lemma keeps_objects_create_dummy_test_orders orders test_count :
  steps keeps_objects (create_dummy_test_orders py_repr orders test_count).
Proof.
  unfold create_dummy_test_orders. apply steps_for_fold; [apply _ | ].
  intros dummy_orders i _. apply keeps_objects_dummy_order_body.
Qed.

(** What [create_dummy_test_orders] has made when it returns. *)
Lemma create_dummy_test_orders_ret (orders : list loc) (test_count : Z)
    (w : world) (dummy_orders : list loc) (w' : world) :
  create_dummy_test_orders py_repr orders test_count w = (Ret dummy_orders, w') ->
  length dummy_orders = Z.to_nat (Z.min (Z.of_nat (length orders)) test_count)
  /\ NoDup dummy_orders
  /\ (forall r, r ∈ dummy_orders -> (r ∉ dom (heap w)) /\ r ∈ dom (heap w'))
  /\ (forall k r, (dummy_orders !! k) = Some r ->
        exists w1,
          keeps_objects w w1
          /\ dummy_of py_repr k (heap w1 !!! (orders !!! k)) (heap w' !!! r)).
Proof.
  unfold create_dummy_test_orders.
  set (n := if Z.of_nat (length orders) <? test_count
            then Z.of_nat (length orders) else test_count).
  assert (Z.to_nat (Z.min (Z.of_nat (length orders)) test_count) = Z.to_nat n)
    as -> by (subst n; destruct (Z.ltb_spec (Z.of_nat (length orders)) test_count); lia).
  intros Hrun.
  pose (Inv := fun (done : list Z) (acc : list loc) (w1 : world) =>
    keeps_objects w w1
    /\ length acc = length done
    /\ NoDup acc
    /\ (forall r, r ∈ acc -> (r ∉ dom (heap w)) /\ r ∈ dom (heap w1))
    /\ (forall k r, (acc !! k) = Some r ->
          exists w0,
            keeps_objects w w0
            /\ dummy_of py_repr k (heap w0 !!! (orders !!! k)) (heap w1 !!! r))).
  assert (Inv (py_range n) dummy_orders w') as (_ & Hlen & Hnodup & Hnew & Hcontent).
  { revert Hrun. apply for_fold_invariant.
    2: { split_and!; [done | done | constructor | | ].
         - intros r Hr. by apply elem_of_nil in Hr.
         - intros k r Hk. done. }
    clear dummy_orders w'.
    intros done i acc w1 acc' w1' (rest & Hrange)
      (Hkeeps & Hlen & Hnodup & Hnew & Hcontent) Hbody.
    apply py_range_nth in Hrange as ->.
    pose proof (keeps_objects_dummy_order_body orders acc
                  (Z.of_nat (length done)) w1) as Hstep.
    rewrite Hbody in Hstep. cbn [snd] in Hstep.
    apply dummy_order_body_ret in Hbody as (-> & Hdummy).
    set (r := fresh (dom (heap w1))) in *.
    assert (Hfresh : r ∉ dom (heap w1)) by apply is_fresh.
    assert (Hin : r ∈ dom (heap w1')).
    { apply (lookup_total_is_Some_dom _ _ "email").
      destruct Hdummy as (-> & _). by eexists. }
    split_and!.
    - by etrans.
    - rewrite !length_app. cbn. lia.
    - apply NoDup_app. split_and!; [done | | apply NoDup_singleton].
      intros r' Hr' ->%list_elem_of_singleton. by apply Hnew in Hr' as [_ ?].
    - intros r' [Hr' | ->%list_elem_of_singleton]%elem_of_app.
      + apply Hnew in Hr' as [? ?]. split; [done | ].
        by apply (keeps_objects_dom w1).
      + split; [ | done]. intros Hr. by apply (keeps_objects_dom w w1) in Hr.
    - intros k r' Hk. apply lookup_app_Some in Hk as [Hk | [Hge Hk]].
      + destruct (Hcontent k r' Hk) as (w0 & Hw0 & Hdummy0).
        exists w0. split; [done | ].
        rewrite (keeps_objects_lookup_total w1 w1'); [done | done | ].
        apply Hnew. by eapply list_elem_of_lookup_2.
      + apply list_lookup_singleton_Some in Hk as [Hk <-].
        assert (k = length done) as -> by lia.
        exists w1. done. }
  split_and!; [ | done | done | done].
  rewrite Hlen. by rewrite length_py_range.
Qed.

(** X16. The test orders are copies. [create_dummy_test_orders] changes
    neither the progress file nor the clock, sends nothing, and changes
    no object that was there: whether it returns or raises, the orders
    that it was given are as before. What it returns are new objects,
    distinct from one another, as many as there are orders, or
    [test_count] when that is less. *)
Theorem create_dummy_test_orders_copies (orders : list loc) (test_count : Z)
    (w : world) :
  let run := create_dummy_test_orders py_repr orders test_count w in
  same_outside_heap w run.2
  /\ keeps_objects w run.2
  /\ (forall dummy_orders, run.1 = Ret dummy_orders ->
        length dummy_orders
          = Z.to_nat (Z.min (Z.of_nat (length orders)) test_count)
        /\ NoDup dummy_orders
        /\ (forall r, r ∈ dummy_orders ->
              (r ∉ dom (heap w)) /\ r ∈ dom (heap run.2))).
Proof.
  intros run. subst run. split_and!.
  - apply only_heap_same_outside_heap, only_heap_create_dummy_test_orders.
  - apply keeps_objects_create_dummy_test_orders.
  - intros dummy_orders Hrun.
    destruct (create_dummy_test_orders _ _ _ w) as [res w'] eqn:Hcall.
    cbn [fst snd] in *. subst res.
    apply create_dummy_test_orders_ret in Hcall as (? & ? & ? & _). done.
Qed.

(** X17. What a test order holds. When the orders given are objects of
    the heap, the test order at index [k] is made of the order at index
    [k]: its email is the test address at [k mod 4]; its billing and
    shipping addresses, when they count as true, have the first name
    ["Test"] and the last name ["Customer<k+1>"]; its [phone], and the
    phone of the billing address, are normalized; its note names the
    original's [woo_order_id]; and every other key is as in the
    original: the dates and the statuses among them, and the phone and
    the lines of the shipping address. *)
Theorem create_dummy_test_orders_content (orders : list loc) (test_count : Z)
    (w : world) :
  (forall r, r ∈ orders -> r ∈ dom (heap w)) ->
  let run := create_dummy_test_orders py_repr orders test_count w in
  forall dummy_orders, run.1 = Ret dummy_orders ->
  forall k r, (dummy_orders !! k) = Some r ->
    dummy_of py_repr k (heap w !!! (orders !!! k)) (heap run.2 !!! r).
Proof.
  intros Horders run dummy_orders Hrun k r Hk. subst run.
  destruct (create_dummy_test_orders _ _ _ w) as [res w'] eqn:Hcall.
  cbn [fst snd] in *. subst res.
  apply create_dummy_test_orders_ret in Hcall as (Hlen & _ & _ & Hcontent).
  destruct (Hcontent k r Hk) as (w1 & Hw1 & Hdummy).
  rewrite (keeps_objects_lookup_total w w1) in Hdummy; [done | done | ].
  apply Horders. apply lookup_lt_Some in Hk.
  assert (k < length orders)%nat as Hlt by lia.
  apply lookup_lt_is_Some in Hlt as [o Ho].
  rewrite (list_lookup_total_correct _ _ _ Ho). by eapply list_elem_of_lookup_2.
Qed.

End TestOrders.

(** The witness: one paid order, at reference 1; its test order is made at
    reference 2. *)
Lemma create_dummy_test_orders_content_witness :
  let run := create_dummy_test_orders (fun _ => "") [1%positive] 10
               (world_with order_paid) in
  dummy_of (fun _ => "") 0 order_paid (heap run.2 !!! 2%positive).
Proof.
  intros run.
  apply (create_dummy_test_orders_content (fun _ => "") [1%positive] 10
           (world_with order_paid)) with (dummy_orders := [2%positive]).
  - intros r ->%list_elem_of_singleton. apply elem_of_dom. by eexists.
  - vm_compute. reflexivity.
  - reflexivity.
Defined.

(** ** The orders that the sanitizer returns *)

Lemma written_sanitized (d : dict) :
  py_truthy (py_get d "email") = true ->
  py_get d "financial_status" <> JStr "voided" ->
  sanitized (default d (written d)).
Proof.
  intros Hemail Hvoided.
  assert (Hkeys : forall k, k <> "processed_at" ->
            default d (written d) !! k = d !! k).
  { intros k Hk. destruct (written d) eqn:Hw; [ | done].
    by apply (written_other_keys _ _ _ Hw). }
  unfold sanitized, py_get. rewrite !Hkeys by done.
  split_and!; [done | done | | ].
  - intros Hpaid. apply py_eq_str in Hpaid. unfold written, py_get. rewrite Hpaid.
    destruct (negb (py_truthy (default JNull (d !! "processed_at"))) || _)
      eqn:Hwrite; cbn.
    + rewrite lookup_insert_eq. by eexists.
    + apply orb_false_elim in Hwrite as [Htruthy%negb_false_iff _].
      apply py_get_truthy_lookup in Htruthy. by eexists.
  - intros Hpaid.
    assert (py_eq (py_get d "financial_status") (JStr "paid") = false) as Hne.
    { destruct (py_eq _ _) eqn:Heq; [ | done]. by apply py_eq_str in Heq. }
    unfold written. rewrite Hne.
    destruct (bool_decide (is_Some (d !! "processed_at"))) eqn:Hsome; cbn.
    + apply lookup_delete_eq.
    + apply bool_decide_eq_false in Hsome. by apply eq_None_not_Some.
Qed.

(** The sanitizer returns the order that it was given, sanitized. *)
Lemma fix_order_data_for_shopify_ret (r r' : loc) (w w' : world) :
  fix_order_data_for_shopify r w = (Ret (Some r'), w') ->
  r' = r /\ sanitized (heap w' !!! r).
Proof.
  intros H.
  destruct (fix_order_data_for_shopify_outcome r w)
    as [(Hres & _) | [(Hres & _) | (Hvoided & Hres & Hheap)]];
    rewrite H in *; cbn [fst snd] in *; [done | done | ].
  destruct (py_truthy (py_get (heap w !!! r) "email")) eqn:Hemail; [ | done].
  injection Hres as ->. split; [done | ].
  rewrite Hheap, heap_after_lookup. by apply written_sanitized.
Qed.

(** ** The first loop of the loader *)

Lemma same_outside_heap_fix_order_body fixed_orders order :
  steps same_outside_heap (fix_order_body fixed_orders order).
Proof.
  unfold fix_order_body.
  apply steps_bind; [apply _ | | intros r].
  - destruct order; try (apply steps_raise; apply _).
    apply same_outside_heap_only_heap, only_heap_alloc.
  - apply steps_bind;
      [apply _ | apply same_outside_heap_fix_order_data_for_shopify | ].
    intros fixed. objects_with fail.
Qed.

Lemma keeps_objects_fix_order_body fixed_orders order :
  steps keeps_objects (fix_order_body fixed_orders order).
Proof.
  unfold fix_order_body. destruct order as [ | | | | | fields].
  1-5: intros w; rewrite run_bind; by unfold raise.
  apply keeps_objects_new.
  - intros w. by eexists.
  - intros r. apply steps_bind; [apply _ | | intros fixed].
    + by apply changes_only_fix_order_data_for_shopify.
    + objects_with fail.
Qed.

(** A pass that did not raise has kept the list, or has added a new,
    sanitized order to it. *)
Lemma fix_order_body_ret (fixed_orders : list loc) (order : json) (w : world)
    (fixed_orders' : list loc) (w' : world) :
  fix_order_body fixed_orders order w = (Ret fixed_orders', w') ->
  fixed_orders' = fixed_orders
  \/ exists r,
       fixed_orders' = (fixed_orders ++ [r])%list
       /\ (r ∉ dom (heap w)) /\ r ∈ dom (heap w')
       /\ sanitized (heap w' !!! r).
Proof.
  unfold fix_order_body. intros H.
  apply bind_ret_inv in H as (r & w1 & Halloc & H).
  destruct order as [ | | | | | fields]; try done.
  rewrite run_alloc in Halloc. injection Halloc as <- <-.
  apply bind_ret_inv in H as (fixed & w2 & Hfix & H).
  destruct fixed as [r' | ]; [ | injection H as <- <-; by left].
  apply fix_order_data_for_shopify_ret in Hfix as (-> & Hsanitized).
  apply bind_ret_inv in H as (kept & w3 & Hkept & H).
  rewrite run_dict_truthy in Hkept. injection Hkept as <- <-.
  destruct (negb _); injection H as <- <-; [ | by left].
  right. eexists. split_and!; [done | apply is_fresh | | done].
  apply (lookup_total_is_Some_dom _ _ "email").
  destruct Hsanitized as (Hemail & _).
  apply py_get_truthy_lookup in Hemail. by eexists.
Qed.

(** The orders that the first loop has kept are new objects, sanitized. *)
Lemma fix_orders_ret (items : list json) (w : world) (fixed_orders : list loc)
    (w' : world) :
  for_fold items fix_order_body [] w = (Ret fixed_orders, w') ->
  forall r, r ∈ fixed_orders ->
    (r ∉ dom (heap w)) /\ r ∈ dom (heap w') /\ sanitized (heap w' !!! r).
Proof.
  intros Hrun.
  pose (Inv := fun (done : list json) (acc : list loc) (w1 : world) =>
    keeps_objects w w1
    /\ forall r, r ∈ acc ->
         (r ∉ dom (heap w)) /\ r ∈ dom (heap w1) /\ sanitized (heap w1 !!! r)).
  enough (Inv items fixed_orders w') as [_ H] by done.
  revert Hrun. apply for_fold_invariant.
  2: { split; [done | ]. intros r Hr. by apply elem_of_nil in Hr. }
  clear fixed_orders w'.
  intros done item acc w1 acc' w1' _ (Hkeeps & Hacc) Hbody.
  pose proof (keeps_objects_fix_order_body acc item w1) as Hstep.
  rewrite Hbody in Hstep. cbn [snd] in Hstep.
  assert (Hold : forall r, r ∈ acc ->
            (r ∉ dom (heap w)) /\ r ∈ dom (heap w1')
            /\ sanitized (heap w1' !!! r)).
  { intros r Hr. destruct (Hacc r Hr) as (? & ? & ?).
    split_and!; [done | by apply (keeps_objects_dom w1) | ].
    by rewrite (keeps_objects_lookup_total w1 w1'). }
  split; [by etrans | ].
  apply fix_order_body_ret in Hbody as [-> | (r & -> & Hfresh & Hin & Hsan)];
    [done | ].
  intros r' [Hr' | ->%list_elem_of_singleton]%elem_of_app; [by apply Hold | ].
  split_and!; [ | done | done].
  intros Hr. by apply (keeps_objects_dom w w1) in Hr.
Qed.

(** An element on which the sanitizer raises ends the first loop. *)
Lemma fix_order_body_rejected (fixed_orders : list loc) (order : json) (w : world) :
  rejected order ->
  exists e w', fix_order_body fixed_orders order w = (Raise e, w').
Proof.
  unfold fix_order_body. intros Hrejected. rewrite run_bind.
  destruct order as [ | | | | | fields]; try by (eexists _, _).
  destruct Hrejected as (Hvoided & Hid). rewrite run_alloc. cbv beta iota.
  rewrite run_bind.
  match goal with
  | |- context [fix_order_data_for_shopify ?r ?w1] =>
      pose proof (run_fix_order_data_for_shopify r w1) as Hrun
  end.
  cbv zeta in Hrun. rewrite heap_set_lookup in Hrun.
  destruct (py_eq _ (JStr "voided")) eqn:Heq.
  { by apply py_eq_str in Heq. }
  destruct (py_get_default _ "woo_order_id" (JInt 0)); try done;
    cbn in Hrun; rewrite Hrun; by eexists _, _.
Qed.

Lemma for_fold_raises {I S} (l : list I) (body : S -> I -> M S) (i : I) :
  i ∈ l ->
  (forall acc w, exists e w', body acc i w = (Raise e, w')) ->
  forall acc w, exists e w', for_fold l body acc w = (Raise e, w').
Proof.
  intros Hi Hbody. induction l as [ | j l IH]; intros acc w.
  { by apply elem_of_nil in Hi. }
  cbn [for_fold]. rewrite run_bind.
  destruct (body acc j w) as [[acc' | e] w1] eqn:Hj; [ | by eexists _, _].
  apply elem_of_cons in Hi as [-> | Hi].
  - destruct (Hbody acc w) as (e & w' & He). congruence.
  - by apply IH.
Qed.

(** ** The phones of the real orders *)

Lemma dict_get_default_in_inv (r : loc) (k field : string) (v : json)
    (w w' : world) :
  dict_get_default_in r k field w = (Ret v, w') ->
  w' = w
  /\ exists fields,
       py_get_default (heap w !!! r) k (JObj []) = JObj fields
       /\ v = default JNull (obj_get fields field).
Proof.
  unfold dict_get_default_in. rewrite run_bind, run_dict_get_default.
  cbv beta iota.
  destruct (py_get_default _ _ _) as [ | | | | | fields]; try done.
  rewrite run_ret. intros [= <- <-]. split; [done | by exists fields].
Qed.

Lemma dict_item_in_inv (r : loc) (k field : string) (v : json) (w w' : world) :
  dict_item_in r k field w = (Ret v, w') ->
  w' = w
  /\ exists fields,
       (heap w !!! r) !! k = Some (JObj fields) /\ obj_get fields field = Some v.
Proof.
  unfold dict_item_in. rewrite run_bind. unfold dict_item.
  destruct ((heap w !!! r) !! k) as [obj | ] eqn:Hobj; [ | done].
  destruct obj as [ | | | | | fields]; try done.
  destruct (obj_get fields field) as [v' | ] eqn:Hv; [ | done].
  rewrite run_ret. intros [= <- <-]. split; [done | by exists fields].
Qed.

Lemma for_each_invariant {I} (Inv : list I -> world -> Prop) (l : list I)
    (m : I -> M unit) :
  (forall done i w w', Inv done w -> m i w = (Ret tt, w') ->
     Inv (done ++ [i])%list w') ->
  forall w (res : option unit) w',
    Inv [] w ->
    for_each l (fun i => m i;; ret Next) w = (Ret res, w') -> Inv l w'.
Proof.
  intros Hbody.
  enough (forall rest done w (res : option unit) w',
            l = (done ++ rest)%list -> Inv done w ->
            for_each rest (fun i => m i;; ret Next) w = (Ret res, w') ->
            Inv l w') as H.
  { intros w res w'. by apply (H l []). }
  induction rest as [ | i rest IH]; intros done w res w' Hl Hinv Hrun.
  - cbn in Hrun. injection Hrun as <- <-. by rewrite Hl, app_nil_r.
  - cbn [for_each] in Hrun. apply bind_ret_inv in Hrun as (f & w1 & Hi & Hrun).
    apply bind_ret_inv in Hi as ([] & w2 & Hi & Hnext).
    rewrite run_ret in Hnext. injection Hnext as <- <-.
    apply (IH (done ++ [i])%list w2 res w'); [by rewrite <- app_assoc | | done].
    by apply (Hbody done i w).
Qed.

Section RealOrders.

Variable py_repr : json -> string.

Lemma address_phone_block_inv (r : loc) (k : string) (w w' : world) :
  (phone ← dict_get_default_in r k "phone";
   when (py_truthy phone)
     (phone ← dict_item_in r k "phone";
      dict_set_in r k "phone"
        (py_optional (format_phone_e164 py_repr phone)))) w = (Ret tt, w') ->
  (forall k', k' <> k -> (heap w' !!! r) !! k' = (heap w !!! r) !! k')
  /\ normalized_phone (phone_in (heap w' !!! r) k).
Proof.
  intros H. apply bind_ret_inv in H as (phone & w1 & Hget & H).
  apply dict_get_default_in_inv in Hget as (-> & fields & Hfields & ->).
  destruct (py_truthy (default JNull (obj_get fields "phone"))) eqn:Htruthy;
    cbn [when] in H.
  - apply bind_ret_inv in H as (phone & w1 & Hitem & H).
    apply dict_item_in_inv in Hitem as (-> & fields' & Hlookup & Hphone).
    apply dict_set_in_inv in H as (fields'' & Hlookup' & ->).
    rewrite heap_set_lookup. split.
    + intros k' Hk'. by rewrite lookup_insert_ne.
    + unfold phone_in. rewrite lookup_insert_eq, obj_get_set_eq. cbn.
      apply normalized_phone_format.
  - rewrite run_ret in H. injection H as <-. split; [done | ].
    unfold phone_in. unfold py_get_default in Hfields.
    destruct ((heap w !!! r) !! k) as [obj | ]; [ | by left].
    cbn in Hfields. subst obj. by left.
Qed.

(** A pass of the loop that did not raise has normalized the three
    phones of its order. *)
Lemma format_order_phones_ret (r : loc) (w w' : world) :
  format_order_phones py_repr r w = (Ret tt, w') ->
  phones_normalized (heap w' !!! r).
Proof.
  unfold format_order_phones. intros H.
  apply bind_ret_inv in H as (phone & w1 & Hphone & H).
  rewrite run_dict_get in Hphone. injection Hphone as <- <-.
  apply bind_ret_inv in H as ([] & w1 & Hph & H).
  apply phone_block_inv in Hph as (_ & Hph).
  apply bind_ret_inv in H as (phone & w2 & Hget & H).
  assert (Hbilling :
    (phone ← dict_get_default_in r "billing_address" "phone";
     when (py_truthy phone)
       (phone ← dict_item_in r "billing_address" "phone";
        dict_set_in r "billing_address" "phone"
          (py_optional (format_phone_e164 py_repr phone)))) w1
    = (Ret tt, (when (py_truthy phone)
                  (phone ← dict_item_in r "billing_address" "phone";
                   dict_set_in r "billing_address" "phone"
                     (py_optional (format_phone_e164 py_repr phone))) w2).2)
    /\ (when (py_truthy phone)
          (phone ← dict_item_in r "billing_address" "phone";
           dict_set_in r "billing_address" "phone"
             (py_optional (format_phone_e164 py_repr phone))) w2).1 = Ret tt).
  { rewrite run_bind, Hget.
    apply bind_ret_inv in H as ([] & w3 & -> & _). done. }
  destruct Hbilling as (Hbilling & _).
  apply bind_ret_inv in H as ([] & w3 & Hw3 & H).
  rewrite Hw3 in Hbilling. cbn [snd] in Hbilling.
  apply address_phone_block_inv in Hbilling as (Hbill_keys & Hbill).
  apply address_phone_block_inv in H as (Hship_keys & Hship).
  unfold phones_normalized, py_get, phone_in in *.
  rewrite !Hship_keys by done. split_and!; [ | done | done].
  by rewrite Hbill_keys.
Qed.

Lemma only_heap_format_order_phones r :
  steps only_heap (format_order_phones py_repr r).
Proof. unfold format_order_phones. objects_with only_heap_leaf. Qed.

Lemma changes_only_format_order_phones (P : loc -> Prop) r :
  P r -> steps (changes_only P) (format_order_phones py_repr r).
Proof.
  intros HP. unfold format_order_phones.
  objects_with ltac:(by apply changes_only_dict_set).
Qed.

Lemma keeps_fields_format_order_phones r :
  steps (keeps_fields (fun k => k ∉ ["phone"; "billing_address"; "shipping_address"]))
    (format_order_phones py_repr r).
Proof.
  unfold format_order_phones.
  objects_with ltac:(apply keeps_fields_dict_set; intros Hk; apply Hk;
                     repeat constructor).
Qed.

(** The loop over the real orders, when it ends, has normalized the
    phones of every one of them. *)
Lemma format_orders_ret (orders : list loc) (w : world) (res : option unit)
    (w' : world) :
  for_each orders (fun order => format_order_phones py_repr order;; ret Next) w
    = (Ret res, w') ->
  forall r, r ∈ orders -> phones_normalized (heap w' !!! r).
Proof.
  apply (for_each_invariant
           (fun done w1 => forall r, r ∈ done -> phones_normalized (heap w1 !!! r))).
  - intros done i w1 w1' Hdone Hi r Hr.
    destruct (decide (r = i)) as [-> | Hne].
    { by apply format_order_phones_ret in Hi. }
    apply elem_of_app in Hr as [Hr | Hr%list_elem_of_singleton]; [ | done].
    pose proof (changes_only_format_order_phones (eq i) i eq_refl w1 r) as Hsame.
    rewrite Hi in Hsame. cbn [snd] in Hsame.
    rewrite !lookup_total_alt in *. rewrite Hsame by done. by apply Hdone.
  - intros r Hr. by apply elem_of_nil in Hr.
Qed.

End RealOrders.

(** ** The loader *)

Lemma sanitized_keeps_fields (K : string -> Prop) (w w' : world) (r : loc) :
  keeps_fields K w w' ->
  K "email" -> K "financial_status" -> K "processed_at" ->
  sanitized (heap w !!! r) -> sanitized (heap w' !!! r).
Proof.
  intros Hkeeps ? ? ?. unfold sanitized, py_get. by rewrite !Hkeeps.
Qed.

Section Loader.

Variable py_repr : json -> string.

(** The loader, step by step. *)
Lemma run_load_woocommerce_orders (expected current : export_file)
    (test_mode : bool) (test_count : Z) (w : world) :
  load_woocommerce_orders py_repr expected current test_mode test_count w =
    match orders_file expected current with
    | Export content =>
        match py_iter content with
        | Ret items =>
            match for_fold items fix_order_body [] w with
            | (Ret fixed_orders, w1) =>
                match
                  (if test_mode
                   then create_dummy_test_orders py_repr fixed_orders test_count
                   else
                     for_each fixed_orders
                       (fun order =>
                          format_order_phones py_repr order;; ret (@Next unit));;
                     ret fixed_orders) w1
                with
                | (Ret orders, w2) => (Ret orders, w2)
                | (Raise _, w2) => (Ret [], w2)
                end
            | (Raise _, w1) => (Ret [], w1)
            end
        | Raise _ => (Ret [], w)
        end
    | _ => (Ret [], w)
    end.
Proof.
  unfold load_woocommerce_orders, orders_file.
  destruct expected as [ | | content]; [destruct current as [ | | content] | | ];
    try done.
  all: rewrite run_try_except, run_bind, run_eval; cbv beta iota.
  all: rewrite run_bind, run_eval.
  all: destruct (py_iter content) as [items | e]; [ | done]; cbv beta iota.
  all: rewrite run_bind.
  all: destruct (for_fold items fix_order_body [] w) as [[fixed | e] w1]; [ | done].
  all: cbv beta iota.
  all: match goal with
       | |- context [(if ?c then ?a else ?b) ?w0] =>
           by destruct ((if c then a else b) w0) as [[orders | e] w2]
       end.
Qed.

(** On an export that is no array the first loop, if it runs at all,
    raises at its first element. *)
Lemma fix_orders_no_objects (items : list json) (w : world) :
  Forall (fun item => forall fields, item <> JObj fields) items ->
  for_fold items fix_order_body [] w
  = (match items with [] => Ret [] | _ => Raise AttributeError end, w).
Proof.
  intros [ | item items' Hitem _]; [done | ].
  cbn [for_fold]. rewrite run_bind. unfold fix_order_body. rewrite run_bind.
  destruct item; try done. by specialize (Hitem fields).
Qed.

Lemma py_iter_no_objects (content : json) (items : list json) :
  (forall items, content <> JArr items) ->
  py_iter content = Ret items ->
  Forall (fun item => forall fields, item <> JObj fields) items.
Proof.
  intros Harray. destruct content as [ | | | s | l | fields]; try done.
  - intros [= <-]. apply Forall_fmap, Forall_true. done.
  - by specialize (Harray l).
  - intros [= <-]. apply Forall_fmap, Forall_true. done.
Qed.

Lemma run_create_dummy_test_orders_nil (test_count : Z) (w : world) :
  create_dummy_test_orders py_repr [] test_count w = (Ret [], w).
Proof.
  unfold create_dummy_test_orders. cbn [length].
  assert (py_range (if Z.of_nat 0 <? test_count then Z.of_nat 0 else test_count)
          = []) as ->; [ | done].
  unfold py_range. destruct (Z.ltb_spec (Z.of_nat 0) test_count); [done | ].
  by replace (Z.to_nat test_count) with 0%nat by lia.
Qed.

(** The loader is made of steps of [R] when its three parts are. *)
Lemma steps_load (R : relation world) `{!PreOrder R} expected current test_mode
    test_count :
  (forall acc item, steps R (fix_order_body acc item)) ->
  (forall orders, steps R (create_dummy_test_orders py_repr orders test_count)) ->
  (forall order, steps R (format_order_phones py_repr order)) ->
  steps R (load_woocommerce_orders py_repr expected current test_mode test_count).
Proof.
  intros Hfix Hdummy Hphones. unfold load_woocommerce_orders.
  assert (Hbody : forall file,
    steps R
      (try_except
         (orders ← eval (match file with
                         | Export content => Ret content
                         | _ => Raise ValueError
                         end);
          items ← eval (py_iter orders);
          fixed_orders ← for_fold items fix_order_body [];
          if test_mode
          then create_dummy_test_orders py_repr fixed_orders test_count
          else
            for_each fixed_orders
              (fun order =>
                 format_order_phones py_repr order;; ret (@Next unit));;
            ret fixed_orders)
         (fun _ => Some (ret [])))).
  { intros file. apply steps_try_except; [apply _ | | ].
    2: { intros e h [= <-]. apply steps_ret; apply _. }
    apply steps_bind; [apply _ | apply steps_eval; apply _ | intros orders].
    apply steps_bind; [apply _ | apply steps_eval; apply _ | intros items].
    apply steps_bind; [apply _ | | intros fixed_orders].
    - apply steps_for_fold; [apply _ | ]. intros acc item _. apply Hfix.
    - destruct test_mode; [apply Hdummy | ].
      apply steps_bind; [apply _ | | intros ?; apply steps_ret; apply _].
      apply steps_for_each; [apply _ | ]. intros order _.
      apply steps_bind; [apply _ | | intros ?; apply steps_ret; apply _].
      apply Hphones. }
  destruct expected as [ | | content];
    [destruct current as [ | | content] | | ].
  - intros w. reflexivity.
  - apply (Hbody BadExport).
  - apply (Hbody (Export content)).
  - apply (Hbody BadExport).
  - apply (Hbody (Export content)).
Qed.

Lemma same_outside_heap_load expected current test_mode test_count :
  steps same_outside_heap
    (load_woocommerce_orders py_repr expected current test_mode test_count).
Proof.
  apply steps_load; [apply _ | | | ].
  - apply same_outside_heap_fix_order_body.
  - intros orders.
    apply same_outside_heap_only_heap, only_heap_create_dummy_test_orders.
  - intros order.
    apply same_outside_heap_only_heap, only_heap_format_order_phones.
Qed.

Lemma keeps_objects_load expected current test_mode test_count :
  steps keeps_objects
    (load_woocommerce_orders py_repr expected current test_mode test_count).
Proof.
  intros w. rewrite run_load_woocommerce_orders.
  destruct (orders_file expected current) as [ | | content]; [done | done | ].
  destruct (py_iter content) as [items | e]; [ | done].
  pose proof (steps_for_fold keeps_objects items fix_order_body
                (fun acc item _ => keeps_objects_fix_order_body acc item) [] w)
    as Hloop.
  destruct (for_fold items fix_order_body [] w) as [[fixed_orders | e] w1]
    eqn:Hfixed; cbn [snd] in Hloop; [ | done].
  pose proof (fix_orders_ret items w fixed_orders w1 Hfixed) as Hnew.
  assert (Hrest : keeps_objects w
    ((if test_mode
      then create_dummy_test_orders py_repr fixed_orders test_count
      else
        for_each fixed_orders
          (fun order => format_order_phones py_repr order;; ret (@Next unit));;
        ret fixed_orders) w1).2).
  { destruct test_mode.
    - etrans; [exact Hloop | ]. apply keeps_objects_create_dummy_test_orders.
    - assert (steps (changes_only (fun r => r ∈ fixed_orders))
                (for_each fixed_orders
                   (fun order =>
                      format_order_phones py_repr order;; ret (@Next unit));;
                 ret fixed_orders)) as Hphones.
      { apply steps_bind; [apply _ | | intros ?; apply steps_ret; apply _].
        apply steps_for_each; [apply _ | ]. intros order Horder.
        apply steps_bind; [apply _ | | intros ?; apply steps_ret; apply _].
        by apply changes_only_format_order_phones. }
      intros r Hr. rewrite (Hphones w1 r); [by apply Hloop | ].
      intros Hin. by apply Hnew in Hin as (? & _). }
  match goal with
  | |- context [(if ?c then ?a else ?b) ?w0] =>
      by destruct ((if c then a else b) w0) as [[orders | e] w2]
  end.
Qed.

(** X18. The loader fails open. It never raises; it changes neither the
    progress file nor the clock, sends nothing, and leaves the objects
    that exist as they are. Without an export at either path, with a
    first existing file that is not JSON, and with one whose content is
    not an array, it returns the empty list. *)
Theorem load_woocommerce_orders_fails_open (expected current : export_file)
    (test_mode : bool) (test_count : Z) (w : world) :
  let run :=
    load_woocommerce_orders py_repr expected current test_mode test_count w in
  (exists orders, run.1 = Ret orders)
  /\ same_outside_heap w run.2
  /\ keeps_objects w run.2
  /\ (orders_file expected current = NoExport
      \/ orders_file expected current = BadExport -> run.1 = Ret [])
  /\ (forall content,
        orders_file expected current = Export content ->
        (forall items, content <> JArr items) -> run.1 = Ret []).
Proof.
  intros run. subst run. split_and!.
  - rewrite run_load_woocommerce_orders.
    destruct (orders_file expected current) as [ | | content];
      [by eexists | by eexists | ].
    destruct (py_iter content) as [items | e]; [ | by eexists].
    destruct (for_fold items fix_order_body [] w) as [[fixed | e] w1];
      [ | by eexists].
    match goal with
    | |- context [(if ?c then ?a else ?b) ?w0] =>
        destruct ((if c then a else b) w0) as [[orders | e] w2];
        by eexists
    end.
  - apply same_outside_heap_load.
  - apply keeps_objects_load.
  - rewrite run_load_woocommerce_orders. by intros [-> | ->].
  - intros content Hfile Harray. rewrite run_load_woocommerce_orders, Hfile.
    destruct (py_iter content) as [items | e] eqn:Hiter; [ | done].
    rewrite (fix_orders_no_objects items w)
      by by apply (py_iter_no_objects content).
    destruct items; [ | done]. destruct test_mode.
    + by rewrite run_create_dummy_test_orders_nil.
    + done.
Qed.

(** X19. One element that the sanitizer cannot take empties the load.
    When the export is an array one element of which is not an object,
    or is an object, not voided, whose [woo_order_id] is [None], a
    [str], a [list] or a [dict], the loader returns the empty list: the
    other orders of the export are not returned. *)
Theorem load_woocommerce_orders_rejects (expected current : export_file)
    (test_mode : bool) (test_count : Z) (w : world) (items : list json)
    (item : json) :
  orders_file expected current = Export (JArr items) ->
  item ∈ items -> rejected item ->
  (load_woocommerce_orders py_repr expected current test_mode test_count w).1
  = Ret [].
Proof.
  intros Hfile Hitem Hrejected. rewrite run_load_woocommerce_orders, Hfile.
  cbn [py_iter].
  destruct (for_fold_raises items fix_order_body item Hitem
              (fun acc w1 => fix_order_body_rejected acc item w1 Hrejected) [] w)
    as (e & w1 & ->).
  done.
Qed.

(** The orders of a load in test mode carry test addresses. *)
Lemma load_test_orders (expected current : export_file) (test_count : Z)
    (w : world) (orders : list loc) (w' : world) :
  load_woocommerce_orders py_repr expected current true test_count w
    = (Ret orders, w') ->
  forall r, r ∈ orders -> has_test_email (heap w' !!! r).
Proof.
  rewrite run_load_woocommerce_orders. intros H r Hr.
  destruct (orders_file expected current) as [ | | content];
    [injection H as <- <-; by apply elem_of_nil in Hr
    | injection H as <- <-; by apply elem_of_nil in Hr | ].
  destruct (py_iter content) as [items | e];
    [ | injection H as <- <-; by apply elem_of_nil in Hr].
  destruct (for_fold items fix_order_body [] w) as [[fixed | e] w1];
    [ | injection H as <- <-; by apply elem_of_nil in Hr].
  destruct (create_dummy_test_orders py_repr fixed test_count w1)
    as [[dummy_orders | e] w2] eqn:Hdummy;
    [ | injection H as <- <-; by apply elem_of_nil in Hr].
  injection H as <- <-.
  apply create_dummy_test_orders_ret in Hdummy as (_ & _ & _ & Hcontent).
  apply list_elem_of_lookup_1 in Hr as [k Hk].
  destruct (Hcontent k r Hk) as (w0 & _ & Hemail & _).
  eexists. split; [ | exact Hemail].
  apply list_elem_of_lookup_2 with (k mod 4)%nat.
  apply list_lookup_lookup_total_lt.
  change (length test_emails) with 4%nat. apply Nat.mod_upper_bound. lia.
Qed.

(** The orders of a load of the real orders. *)
Lemma load_real_orders (expected current : export_file) (test_count : Z)
    (w : world) (orders : list loc) (w' : world) :
  load_woocommerce_orders py_repr expected current false test_count w
    = (Ret orders, w') ->
  forall r, r ∈ orders ->
    (r ∉ dom (heap w)) /\ r ∈ dom (heap w')
    /\ sanitized (heap w' !!! r) /\ phones_normalized (heap w' !!! r).
Proof.
  rewrite run_load_woocommerce_orders. intros H r Hr.
  destruct (orders_file expected current) as [ | | content];
    [injection H as <- <-; by apply elem_of_nil in Hr
    | injection H as <- <-; by apply elem_of_nil in Hr | ].
  destruct (py_iter content) as [items | e];
    [ | injection H as <- <-; by apply elem_of_nil in Hr].
  destruct (for_fold items fix_order_body [] w) as [[fixed | e] w1] eqn:Hfixed;
    [ | injection H as <- <-; by apply elem_of_nil in Hr].
  destruct ((for_each fixed
               (fun order => format_order_phones py_repr order;; ret (@Next unit));;
             ret fixed) w1) as [[orders' | e] w2] eqn:Hphones;
    [ | injection H as <- <-; by apply elem_of_nil in Hr].
  injection H as <- <-.
  apply bind_ret_inv in Hphones as (res & w3 & Hloop & Hret).
  rewrite run_ret in Hret. injection Hret as <- <-.
  destruct (fix_orders_ret items w fixed w1 Hfixed r Hr) as (Hnew & Hin & Hsan).
  assert (Hkeeps : keeps_fields
            (fun k => k ∉ ["phone"; "billing_address"; "shipping_address"]) w1 w3).
  { pose proof (steps_for_each _ fixed
                  (fun order => format_order_phones py_repr order;; ret (@Next unit))
                  (fun order _ =>
                     steps_bind _ _ _ (keeps_fields_format_order_phones py_repr order)
                       (fun _ => steps_ret _ Next)) w1) as Hstep.
    by rewrite Hloop in Hstep. }
  split_and!; [done | | | ].
  - apply (lookup_total_is_Some_dom _ _ "email").
    rewrite (Hkeeps r "email")
      by (repeat (apply not_elem_of_cons; split; [done | ]); apply not_elem_of_nil).
    destruct Hsan as (Hemail & _).
    apply py_get_truthy_lookup in Hemail. by eexists.
  - apply (sanitized_keeps_fields _ w1 w3 r Hkeeps); [ | | | done];
      by repeat (apply not_elem_of_cons; split; [done | ]); apply not_elem_of_nil.
  - by apply (format_orders_ret py_repr fixed w1 res w3).
Qed.

(** X20. The real orders that the loader returns. In a load that is not
    in test mode every returned order is a new object; it is sanitized:
    its email counts as true, it is not voided, and it has a
    [processed_at] if and only if it is paid; and its phone and the
    phones of its two addresses are absent, empty, or ["+"] and eleven
    or more digits. *)
Theorem load_woocommerce_orders_real (expected current : export_file)
    (test_count : Z) (w : world) :
  let run :=
    load_woocommerce_orders py_repr expected current false test_count w in
  forall orders, run.1 = Ret orders ->
  forall r, r ∈ orders ->
    (r ∉ dom (heap w))
    /\ sanitized (heap run.2 !!! r) /\ phones_normalized (heap run.2 !!! r).
Proof.
  intros run orders Hrun r Hr. subst run.
  destruct (load_woocommerce_orders _ _ _ _ _ w) as [res w'] eqn:Hload.
  cbn [fst snd] in *. subst res.
  destruct (load_real_orders _ _ _ _ _ _ Hload r Hr) as (? & _ & ? & ?). done.
Qed.

End Loader.

(** The witnesses: a first file that is not JSON, and a file with an
    object in place of the array. *)
Lemma load_woocommerce_orders_fails_open_witness :
  (load_woocommerce_orders (fun _ => "") BadExport (Export export_example) false
     10 world0).1 = Ret []
  /\ (load_woocommerce_orders (fun _ => "") NoExport
        (Export (JObj [("orders", export_example)])) true 10 world0).1
     = Ret [].
Proof.
  split.
  - apply (proj1 (proj2 (proj2 (proj2
             (load_woocommerce_orders_fails_open (fun _ => "") BadExport
                (Export export_example) false 10 world0))))).
    by right.
  - apply (proj2 (proj2 (proj2 (proj2
             (load_woocommerce_orders_fails_open (fun _ => "") NoExport
                (Export (JObj [("orders", export_example)])) true 10 world0))))
           (JObj [("orders", export_example)])); [reflexivity | discriminate].
Defined.

(** The witness: the order 1001 has its identifier as a string. *)
Lemma load_woocommerce_orders_rejects_witness :
  (load_woocommerce_orders (fun _ => "") (Export export_with_text_id) NoExport
     false 10 world0).1 = Ret [].
Proof.
  apply (load_woocommerce_orders_rejects (fun _ => "")
           (Export export_with_text_id) NoExport false 10 world0
           [export_order_7; export_order_text_id] export_order_text_id).
  - reflexivity.
  - by right; left.
  - split; [discriminate | exact I].
Defined.

(** The witness: of the three orders of the example the first is
    returned, at reference 1. *)
Lemma load_woocommerce_orders_real_witness :
  let run := load_woocommerce_orders (fun _ => "") NoExport
               (Export export_example) false 10 world0 in
  (1%positive ∉ dom (heap world0))
  /\ sanitized (heap run.2 !!! 1%positive)
  /\ phones_normalized (heap run.2 !!! 1%positive).
Proof.
  intros run.
  apply (load_woocommerce_orders_real (fun _ => "") NoExport
           (Export export_example) 10 world0 [1%positive]).
  - vm_compute. reflexivity.
  - by left.
Defined.

(** ** The two uploads *)

Lemma trace_adds_only_heap (P : event -> Prop) (w w' : world) :
  only_heap w w' -> trace_adds P w w'.
Proof.
  intros (_ & _ & _ & Htrace). exists []. split; [by rewrite app_nil_r | done].
Qed.

Lemma run_read_orders (orders : list loc) (w : world) :
  read_orders orders w = (Ret (map (fun r => heap w !!! r) orders), w).
Proof. done. Qed.

Lemma unchanged_for_each {I} (l : list I) (m : I -> M unit) :
  (forall i, steps unchanged (m i)) ->
  steps unchanged (for_each l (fun i => m i;; ret (@Next unit))).
Proof.
  intros Hm. apply steps_for_each; [apply _ | ]. intros i _.
  apply steps_bind; [apply _ | apply Hm | intros ?; apply steps_ret; apply _].
Qed.

Lemma unchanged_preview_order r : steps unchanged (preview_order r).
Proof. unfold preview_order. objects_with fail. Qed.

Lemma unchanged_count_status r : steps unchanged (count_status r).
Proof. unfold count_status. objects_with fail. Qed.

Lemma unchanged_read_progress (c : bool) :
  steps unchanged (when c (load_completed_orders;; ret tt)).
Proof. objects_with ltac:(apply steps_load_completed_orders; apply _). Qed.

Section Uploads.

Variable py_repr : json -> string.

Lemma adds_load (endpoint : string) (Q : dict -> Prop) expected current
    test_mode test_count :
  steps (trace_adds (posts_only endpoint Q))
    (load_woocommerce_orders py_repr expected current test_mode test_count).
Proof.
  apply steps_load; [apply _ | | | ].
  - intros acc item. unfold fix_order_body, fix_order_data_for_shopify, debug_order.
    assert (Hheap : forall {A} (m : M A),
              steps only_heap m -> steps (trace_adds (posts_only endpoint Q)) m).
    { intros A m. apply steps_weaken, trace_adds_only_heap. }
    objects_with ltac:(first [ apply adds_print
                             | apply Hheap; only_heap_leaf ]).
  - intros orders. eapply steps_weaken; [apply trace_adds_only_heap | ].
    apply only_heap_create_dummy_test_orders.
  - intros order. eapply steps_weaken; [apply trace_adds_only_heap | ].
    apply only_heap_format_order_phones.
Qed.

(** The part of [test_upload] after the load. *)
Lemma test_upload_after_load (answer : string) (srv : server)
    (orders : list loc) (w : world) :
  (forall r, r ∈ orders -> has_test_email (heap w !!! r)) ->
  trace_adds (posts_only "orders" has_test_email) w
    ((for_each (take 3 orders)
        (fun order => preview_order order;; ret (@Next unit));;
      if negb (confirmed answer) then ret false
      else
        items ← read_orders orders;
        successes ← batch_upload srv "orders" items 3 false;
        ret (successes =? Z.of_nat (length orders))) w).2.
Proof.
  intros Horders. rewrite run_bind.
  pose proof (unchanged_for_each (take 3 orders) preview_order
                unchanged_preview_order w) as Hsame.
  destruct (for_each _ _ w) as [[res | e] w1]; unfold unchanged in Hsame;
    cbn [snd] in Hsame; subst w1; [ | reflexivity].
  destruct (negb (confirmed answer)); [reflexivity | ].
  rewrite run_bind, run_read_orders. cbv beta iota. rewrite run_bind.
  pose proof (adds_batch_upload srv "orders"
                (map (fun r => heap w !!! r) orders) 3 false w) as Hbatch.
  destruct (batch_upload _ _ _ _ _ w) as [[n | e] w2]; cbn [snd] in *.
  all: eapply trace_adds_weaken; [ | exact Hbatch].
  all: intros [m | ms | endpoint item cycle attempt]; [done | done | ].
  all: cbn; intros (-> & Hitem & _); split; [done | ].
  all: apply list_elem_of_fmap in Hitem as (r & -> & Hr); by apply Horders.
Qed.

(** X21. A test upload sends test addresses only. Every request of
    [test_upload] is for ["orders"] and carries an order whose email is
    one of the four test addresses: no order goes out under the email of
    a customer. *)
Theorem test_upload_requests (expected current : export_file) (answer : string)
    (srv : server) (w : world) :
  trace_adds (posts_only "orders" has_test_email) w
    (test_upload py_repr expected current answer srv w).2.
Proof.
  unfold test_upload. rewrite run_bind.
  pose proof (adds_load "orders" has_test_email expected current true 10 w)
    as Hload.
  destruct (load_woocommerce_orders _ _ _ _ _ w) as [[orders | e] w1] eqn:Hrun;
    cbn [snd] in Hload; [ | done].
  destruct (bool_decide (orders = [])); [done | ].
  etrans; [exact Hload | ]. apply test_upload_after_load.
  by apply (load_test_orders py_repr expected current 10 w).
Qed.

(** The part of [full_upload] after the load. *)
Lemma full_upload_after_load (answer : string) (srv : server)
    (resume_mode : bool) (orders : list loc) (w : world) (Q : dict -> Prop) :
  (forall r, r ∈ orders -> Q (heap w !!! r)) ->
  trace_adds
    (posts_only "orders" (fun item =>
       Q item
       /\ (resume_mode = true ->
           py_in (py_get item "woo_order_id") (completed w) = false))) w
    ((when resume_mode (load_completed_orders;; ret tt);;
      for_each orders (fun order => count_status order;; ret (@Next unit));;
      when resume_mode (load_completed_orders;; ret tt);;
      when resume_mode (load_completed_orders;; ret tt);;
      if negb (confirmed answer) then ret tt
      else
        items ← read_orders orders;
        batch_upload srv "orders" items 5 resume_mode;;
        ret tt) w).2.
Proof.
  intros Horders. rewrite run_bind.
  pose proof (unchanged_read_progress resume_mode w) as Hsame.
  destruct (when resume_mode _ w) as [[[] | e] w1]; unfold unchanged in Hsame;
    cbn [snd] in Hsame; subst w1; [ | reflexivity].
  rewrite run_bind.
  pose proof (unchanged_for_each orders count_status unchanged_count_status w)
    as Hsame.
  destruct (for_each _ _ w) as [[res | e] w1]; unfold unchanged in Hsame;
    cbn [snd] in Hsame; subst w1; [ | reflexivity].
  rewrite run_bind.
  pose proof (unchanged_read_progress resume_mode w) as Hsame.
  destruct (when resume_mode _ w) as [[[] | e] w1]; unfold unchanged in Hsame;
    cbn [snd] in Hsame; subst w1; [ | reflexivity].
  rewrite run_bind.
  pose proof (unchanged_read_progress resume_mode w) as Hsame.
  destruct (when resume_mode _ w) as [[[] | e] w1]; unfold unchanged in Hsame;
    cbn [snd] in Hsame; subst w1; [ | reflexivity].
  destruct (negb (confirmed answer)); [reflexivity | ].
  rewrite run_bind, run_read_orders. cbv beta iota. rewrite run_bind.
  pose proof (adds_batch_upload srv "orders"
                (map (fun r => heap w !!! r) orders) 5 resume_mode w) as Hbatch.
  destruct (batch_upload _ _ _ _ _ w) as [[n | e] w2]; cbn [snd] in *.
  all: eapply trace_adds_weaken; [ | exact Hbatch].
  all: intros [m | ms | endpoint item cycle attempt]; [done | done | ].
  all: cbn; intros (-> & Hitem & _ & Hresume); split; [done | ].
  all: split; [ | by apply Hresume].
  all: apply list_elem_of_fmap in Hitem as (r & -> & Hr); by apply Horders.
Qed.

(** X22. What a full upload sends. Every request of [full_upload] is for
    ["orders"] and carries an order that is sanitized and whose phones
    are normalized; in resume mode it carries none whose source
    identifier was in the progress file when the call began. *)
Theorem full_upload_requests (expected current : export_file) (answer : string)
    (srv : server) (resume_mode : bool) (w : world) :
  trace_adds
    (posts_only "orders" (fun item =>
       (sanitized item /\ phones_normalized item)
       /\ (resume_mode = true ->
           py_in (py_get item "woo_order_id") (completed w) = false)))
    w (full_upload py_repr expected current answer srv resume_mode w).2.
Proof.
  unfold full_upload. rewrite run_bind.
  pose proof (adds_load "orders"
                (fun item =>
                   (sanitized item /\ phones_normalized item)
                   /\ (resume_mode = true ->
                       py_in (py_get item "woo_order_id") (completed w) = false))
                expected current false 10 w) as Hload.
  pose proof (same_outside_heap_load py_repr expected current false 10 w)
    as (Hfile & _).
  destruct (load_woocommerce_orders _ _ _ _ _ w) as [[orders | e] w1] eqn:Hrun;
    cbn [snd] in Hload, Hfile; [ | done].
  destruct (bool_decide (orders = [])); [done | ].
  etrans; [exact Hload | ].
  rewrite <- (completed_file w w1 Hfile).
  apply (full_upload_after_load answer srv resume_mode orders w1
           (fun item => sanitized item /\ phones_normalized item)).
  intros r Hr.
  destruct (load_real_orders py_repr expected current 10 w orders w1 Hrun r Hr)
    as (_ & _ & ? & ?).
  done.
Qed.

(** X23. Nothing is uploaded without the answer. Unless the line typed at
    the prompt is ["y"] once it is put in lower case and stripped of
    white space, neither upload sends a request, writes the progress
    file or sleeps, and [test_upload] does not return [True]. *)
Theorem uploads_need_confirmation (expected current : export_file)
    (answer : string) (srv : server) (resume_mode : bool) (w : world) :
  confirmed answer = false ->
  let test := test_upload py_repr expected current answer srv w in
  let full := full_upload py_repr expected current answer srv resume_mode w in
  same_outside_heap w test.2 /\ test.1 <> Ret true
  /\ same_outside_heap w full.2.
Proof.
  intros Hanswer test full. subst test full.
  unfold test_upload, full_upload. rewrite Hanswer. cbn [negb].
  assert (Hunchanged : forall {A} (m : M A),
            steps unchanged m -> steps same_outside_heap m).
  { intros A m. apply steps_weaken. intros w1 w2 ->. reflexivity. }
  split_and!.
  - match goal with
    | |- same_outside_heap _ (?m _).2 =>
        enough (steps same_outside_heap m) as H by apply H
    end.
    apply steps_bind; [apply _ | apply same_outside_heap_load | intros orders].
    destruct (bool_decide (orders = [])); [apply steps_ret; apply _ | ].
    apply steps_bind; [apply _ | | intros ?; apply steps_ret; apply _].
    apply Hunchanged, unchanged_for_each, unchanged_preview_order.
  - rewrite run_bind.
    destruct (load_woocommerce_orders _ _ _ _ _ w) as [[orders | e] w1]; [ | done].
    destruct (bool_decide (orders = [])); [done | ].
    rewrite run_bind. by destruct (for_each _ _ w1) as [[res | e] w2].
  - match goal with
    | |- same_outside_heap _ (?m _).2 =>
        enough (steps same_outside_heap m) as H by apply H
    end.
    apply steps_bind; [apply _ | apply same_outside_heap_load | intros orders].
    destruct (bool_decide (orders = [])); [apply steps_ret; apply _ | ].
    apply steps_bind; [apply _ | | intros ?].
    { apply Hunchanged, unchanged_read_progress. }
    apply steps_bind; [apply _ | | intros ?].
    { apply Hunchanged, unchanged_for_each, unchanged_count_status. }
    apply steps_bind; [apply _ | | intros ?].
    { apply Hunchanged, unchanged_read_progress. }
    apply steps_bind; [apply _ | | intros ?; apply steps_ret; apply _].
    apply Hunchanged, unchanged_read_progress.
Qed.

End Uploads.

(** The witness: the answer ["yes"] is not ["y"]. *)
Lemma uploads_need_confirmation_witness :
  let test := test_upload (fun _ => "") NoExport (Export export_example) "yes"
                always_created world0 in
  let full := full_upload (fun _ => "") NoExport (Export export_example) "yes"
                always_created false world0 in
  same_outside_heap world0 test.2 /\ test.1 <> Ret true
  /\ same_outside_heap world0 full.2.
Proof.
  apply (uploads_need_confirmation (fun _ => "") NoExport (Export export_example)
           "yes" always_created false world0).
  reflexivity.
Defined.

(** ** Clearing the progress file *)

(** X24. After [clear_progress] the store is empty: a resumed upload
    finds no completed order, and the next recording starts the list
    anew. Clearing changes no object, sends nothing and does not sleep,
    and clearing again changes nothing. *)
Theorem clear_progress_forgets (id : json) (w : world) :
  let w' := (clear_progress w).2 in
  load_completed_orders w' = (Ret [], w')
  /\ completed (save_completed_order id w').2 = [id]
  /\ clear_progress w' = (Ret tt, w')
  /\ heap w' = heap w /\ clock w' = clock w /\ posts w' = posts w.
Proof.
  intros w'. subst w'. unfold clear_progress.
  destruct (file w) eqn:Hfile; cbn [snd]; split_and!; try done.
  all: try by (unfold load_completed_orders; cbn; rewrite ?Hfile).
  all: try by (rewrite run_save_completed_order; unfold completed; cbn;
               rewrite ?Hfile; cbn).
  all: by (cbn; rewrite ?Hfile).
Qed.
